(** * Swing-trade scoring core: a shallow embedding and its properties

    The development follows the three Python modules of the scoring core:
    [technical_analysis.py] (indicator pipeline and technical classifier),
    [fundamental_analysis.py] (fundamental classifier) and
    [scoring_engine.py] (combined scorer and batch ranking), with the
    constants of [config.py].

    Conventions of the embedding.
    - A Python/numpy float is a value of [fl]: NaN, the two infinities, or
      a finite number, the latter idealised as an exact rational.  Scores
      are computed from integer strengths and constant weights behind a
      division guard, so they are always finite and have type [Q].
    - A Python dict is an association list in insertion order ([dict]);
      a row of a DataFrame (a pandas Series indexed by column name) is a
      [dict fl], a DataFrame is the list of its rows, oldest first.
    - A raised exception is the [Raise] case of [Result].
    - pandas_ta, the data fetcher and the clock are outside the core and
      enter as records of functions ([pandas_ta], [World]).
    - Rounding and formatting to a fixed number of decimals round the
      exact rational, ties to even.
    - Arithmetic on finite floats (the volume ratio, the trend strength,
      the quality score) is exact: the rounding of binary64 is not
      modelled.  Statements about such computed numbers are given on the
      reported value, on its sign or with a margin, so that they do not
      depend on it.
    - A column assigned [None] reads as NaN in every row. *)

From Stdlib Require Import QArith Qround Qabs ZArith String Ascii List Bool Lia Lqa.
From Stdlib Require Import DecimalString Permutation Sorted.
Import ListNotations.

Local Open Scope Q_scope.

(** ** Python values *)

Module Py.

(** A float as the classifiers see it. *)
Inductive fl : Type :=
| NaN
| NInf
| PInf
| Fin (q : Q).

Definition Qlt_bool (a b : Q) : bool := negb (Qle_bool b a).

(** [a < b]; every comparison with NaN is false. *)
Definition fl_lt (a b : fl) : bool :=
  match a, b with
  | NaN, _ | _, NaN => false
  | _, NInf => false
  | NInf, _ => true
  | PInf, _ => false
  | Fin _, PInf => true
  | Fin p, Fin q => Qlt_bool p q
  end.

(** [a <= b]. *)
Definition fl_le (a b : fl) : bool :=
  match a, b with
  | NaN, _ | _, NaN => false
  | NInf, _ => true
  | _, PInf => true
  | _, NInf => false
  | PInf, _ => false
  | Fin p, Fin q => Qle_bool p q
  end.

Definition fl_gt (a b : fl) : bool := fl_lt b a.
Definition fl_ge (a b : fl) : bool := fl_le b a.

Definition fl_neg (a : fl) : fl :=
  match a with
  | NaN => NaN
  | NInf => PInf
  | PInf => NInf
  | Fin q => Fin (- q)
  end.

Definition fl_add (a b : fl) : fl :=
  match a, b with
  | NaN, _ | _, NaN => NaN
  | PInf, NInf | NInf, PInf => NaN
  | PInf, _ | _, PInf => PInf
  | NInf, _ | _, NInf => NInf
  | Fin p, Fin q => Fin (p + q)
  end.

Definition fl_sub (a b : fl) : fl := fl_add a (fl_neg b).

(** Sign of a finite number, zero counted as positive zero. *)
Definition signed_inf (negative : bool) : fl := if negative then NInf else PInf.

Definition fl_mul (a b : fl) : fl :=
  match a, b with
  | NaN, _ | _, NaN => NaN
  | Fin p, Fin q => Fin (p * q)
  | Fin p, PInf | PInf, Fin p =>
      if Qeq_bool p 0 then NaN else signed_inf (Qlt_bool p 0)
  | Fin p, NInf | NInf, Fin p =>
      if Qeq_bool p 0 then NaN else signed_inf (negb (Qlt_bool p 0))
  | PInf, PInf | NInf, NInf => PInf
  | PInf, NInf | NInf, PInf => NInf
  end.

(** numpy division: a zero divisor gives an infinity or NaN, no exception. *)
Definition fl_div (a b : fl) : fl :=
  match a, b with
  | NaN, _ | _, NaN => NaN
  | Fin p, Fin q =>
      if Qeq_bool q 0 then
        if Qeq_bool p 0 then NaN else signed_inf (Qlt_bool p 0)
      else Fin (p / q)
  | Fin _, _ => Fin 0
  | PInf, Fin q => signed_inf (Qlt_bool q 0)
  | NInf, Fin q => signed_inf (negb (Qlt_bool q 0))
  | _, _ => NaN
  end.

Definition fl_abs (a : fl) : fl :=
  match a with
  | NaN => NaN
  | NInf | PInf => PInf
  | Fin q => Fin (Qabs q)
  end.

Definition is_nan (a : fl) : bool :=
  match a with NaN => true | _ => false end.

(** [pd.isna] on the result of [Series.get]: a missing entry is [None]. *)
Definition isna (x : option fl) : bool :=
  match x with
  | None => true
  | Some a => is_nan a
  end.

(** [Series.mean()]: NaN entries are skipped; NaN when nothing is left. *)
Definition mean (xs : list fl) : fl :=
  let ys := filter (fun x => negb (is_nan x)) xs in
  match ys with
  | [] => NaN
  | _ => fl_div (fold_left fl_add ys (Fin 0)) (Fin (inject_Z (Z.of_nat (length ys))))
  end.

(** Round to the nearest integer, ties to the even neighbour. *)
Definition round_half_even (x : Q) : Z :=
  let f := Qfloor x in
  let r := x - inject_Z f in
  if Qlt_bool r (1 # 2) then f
  else if Qlt_bool (1 # 2) r then (f + 1)%Z
  else if Z.even f then f else (f + 1)%Z.

(** [round(x, 2)]. *)
Definition round2 (x : Q) : Q := inject_Z (round_half_even (x * 100)) / 100.

(** *** Dicts *)

Definition dict (V : Type) : Type := list (string * V).

Fixpoint dict_get {V} (k : string) (d : dict V) : option V :=
  match d with
  | [] => None
  | (k', v) :: d' => if String.eqb k k' then Some v else dict_get k d'
  end.

Definition dict_mem {V} (k : string) (d : dict V) : bool :=
  match dict_get k d with Some _ => true | None => false end.

(** [d[k] = v]: overwrite in place, or append a new key. *)
Fixpoint dict_set {V} (k : string) (v : V) (d : dict V) : dict V :=
  match d with
  | [] => [(k, v)]
  | (k', v') :: d' =>
      if String.eqb k k' then (k, v) :: d' else (k', v') :: dict_set k v d'
  end.


(** *** Exceptions *)

Inductive Exn : Type :=
| KeyError (key : string)
| TypeError (msg : string)
| AttributeError (msg : string)
| IndexError (msg : string)
| Exception (msg : string).

(** [str(e)]. *)
Definition str_exn (e : Exn) : string :=
  match e with
  | KeyError k => "'" ++ k ++ "'"
  | TypeError m | AttributeError m | IndexError m | Exception m => m
  end.

Inductive Result (A : Type) : Type :=
| Ok (a : A)
| Raise (e : Exn).

Arguments Ok {A} a.
Arguments Raise {A} e.

Definition bind {A B} (m : Result A) (f : A -> Result B) : Result B :=
  match m with
  | Ok a => f a
  | Raise e => Raise e
  end.

(** [d[k]] on a dict or Series. *)
Definition getitem {V} (d : dict V) (k : string) : Result V :=
  match dict_get k d with
  | Some v => Ok v
  | None => Raise (KeyError k)
  end.

(** *** Number formatting *)

Definition string_of_Z (z : Z) : string :=
  NilZero.string_of_int (Z.to_int z).

Fixpoint digits_padded (n : nat) (m : Z) : string :=
  match n with
  | O => EmptyString
  | S n' => digits_padded n' (m / 10) ++ string_of_Z (m mod 10)
  end.

(** [format(x, '.<n>f')]. *)
Definition fmt_fixed (n : nat) (x : fl) : string :=
  match x with
  | NaN => "nan"
  | PInf => "inf"
  | NInf => "-inf"
  | Fin q =>
      let scale := (10 ^ Z.of_nat n)%Z in
      let m := round_half_even (Qabs q * inject_Z scale) in
      let body :=
        string_of_Z (m / scale) ++
        match n with O => EmptyString | _ => "." ++ digits_padded n (m mod scale) end in
      if Qlt_bool q 0 then "-" ++ body else body
  end%string.

(** [sep.join(parts)]. *)
Fixpoint join (sep : string) (parts : list string) : string :=
  match parts with
  | [] => EmptyString
  | [p] => p
  | p :: rest => p ++ sep ++ join sep rest
  end%string.

End Py.

Import Py.

Declare Scope result_scope.
Delimit Scope result_scope with result.
Notation "x <- m ;; k" := (bind m (fun x => k))
  (at level 61, m at next level, right associativity) : result_scope.

(** ** config.py *)

Module config.

Definition RSI_PERIOD : Z := 14.
Definition RSI_OVERSOLD : Q := 30.
Definition RSI_OVERBOUGHT : Q := 70.
Definition MACD_FAST : Z := 12.
Definition MACD_SLOW : Z := 26.
Definition MACD_SIGNAL : Z := 9.
Definition SMA_SHORT : Z := 20.
Definition SMA_MEDIUM : Z := 50.
Definition SMA_LONG : Z := 200.
Definition VOLUME_SPIKE_THRESHOLD : Q := 1.5.

Definition BB_PERIOD : Z := 20.
Definition BB_STD : Z := 2.

Definition TECHNICAL_WEIGHT : Q := 0.6.
Definition FUNDAMENTAL_WEIGHT : Q := 0.4.

Definition MIN_BUY_SCORE : Q := 60.
Definition MAX_SELL_SCORE : Q := 40.

Definition STOCK_UNIVERSE : list string :=
  ["AAPL"; "MSFT"; "GOOGL"; "AMZN"; "META";
   "NVDA"; "TSLA"; "JPM"; "V"; "WMT";
   "JNJ"; "PG"; "MA"; "HD"; "DIS";
   "BAC"; "XOM"; "ABBV"; "PFE"; "KO"]%string.

End config.

(** ** Signals shared by both classifiers *)

Inductive Direction : Type := bullish | bearish | neutral.

(** Values stored under the classifier-specific keys of a signal dict. *)
Inductive PyVal : Type :=
| PyNone
| PyStr (s : string)
| PyNum (x : fl).

(** A signal dict.  Every classifier writes the keys ['signal'] and
    ['strength']; the remaining keys differ per classifier and are kept in
    [extra] in the order the dict literal lists them. *)
Record Signal : Type := mkSignal {
  signal : Direction;
  strength : Z;
  extra : dict PyVal
}.

Definition Row : Type := dict fl.
Definition DataFrame : Type := list Row.

(** [df.empty]: no rows, or no columns. *)
Definition df_empty (df : DataFrame) : bool :=
  match df with
  | [] => true
  | [] :: _ => true
  | _ => false
  end.

(** [df[name]]: the column as a list, [KeyError] when it does not exist. *)
Fixpoint column (name : string) (df : DataFrame) : Result (list fl) :=
  match df with
  | [] => Ok []
  | r :: rest =>
      (v <- getitem r name ;;
       vs <- column name rest ;;
       Ok (v :: vs))%result
  end.

(** [df.tail(n)]. *)
Definition tail (n : nat) (df : DataFrame) : DataFrame :=
  skipn (length df - n) df.

(** ** technical_analysis.py *)

Module TechnicalAnalyzer.

Local Open Scope string_scope.
Local Open Scope result_scope.

Definition rsi_period : Z := config.RSI_PERIOD.
Definition rsi_oversold : Q := config.RSI_OVERSOLD.
Definition rsi_overbought : Q := config.RSI_OVERBOUGHT.
Definition macd_fast : Z := config.MACD_FAST.
Definition macd_slow : Z := config.MACD_SLOW.
Definition macd_signal : Z := config.MACD_SIGNAL.
Definition sma_short : Z := config.SMA_SHORT.
Definition sma_medium : Z := config.SMA_MEDIUM.
Definition sma_long : Z := config.SMA_LONG.
Definition bb_period : Z := config.BB_PERIOD.
Definition bb_std : Z := config.BB_STD.

(** *** The indicator pipeline *)

(** The functions of pandas_ta the pipeline calls.  Each returns a Series
    (a column), a frame of named columns, or [None], and may raise. *)
Record pandas_ta : Type := {
  ta_rsi : list fl -> Z -> Result (option (list fl));
  ta_macd : list fl -> Z -> Z -> Z -> Result (option (dict (list fl)));
  ta_sma : list fl -> Z -> Result (option (list fl));
  ta_bbands : list fl -> Z -> Z -> Result (option (dict (list fl)));
  ta_stoch : list fl -> list fl -> list fl -> Result (option (dict (list fl)));
  ta_atr : list fl -> list fl -> list fl -> Z -> Result (option (list fl));
  ta_obv : list fl -> list fl -> Result (option (list fl))
}.

(** [df[name] = values]: positions are aligned, a row without a value
    gets NaN; assigning [None] fills the column with missing values. *)
Fixpoint set_column (name : string) (values : option (list fl)) (df : DataFrame)
  : DataFrame :=
  match df with
  | [] => []
  | r :: rest =>
      match values with
      | Some (v :: vs) => dict_set name v r :: set_column name (Some vs) rest
      | Some [] => dict_set name NaN r :: set_column name (Some []) rest
      | None => dict_set name NaN r :: set_column name None rest
      end
  end.

(** Statements of the [try] block: they update the working copy of the
    frame in place, and an exception leaves the updates made so far. *)
Definition Stmt (A : Type) : Type := DataFrame -> Result A * DataFrame.

Definition sret {A} (a : A) : Stmt A := fun df => (Ok a, df).

Definition sbind {A B} (m : Stmt A) (f : A -> Stmt B) : Stmt B :=
  fun df =>
    match m df with
    | (Ok a, df') => f a df'
    | (Raise e, df') => (Raise e, df')
    end.

Notation "x <~ m ;; k" := (sbind m (fun x => k))
  (at level 61, m at next level, right associativity).
Notation "m ;;; k" := (sbind m (fun _ => k))
  (at level 61, right associativity).

Definition lift {A} (r : Result A) : Stmt A := fun df => (r, df).

Definition read_column (name : string) : Stmt (list fl) :=
  fun df => (column name df, df).

Definition assign (name : string) (values : option (list fl)) : Stmt unit :=
  fun df => (Ok tt, set_column name values df).

(** [try: body except KeyError: handler]. *)
Definition except_KeyError (body handler : Stmt unit) : Stmt unit :=
  fun df =>
    match body df with
    | (Raise (KeyError _), df') => handler df'
    | other => other
    end.

(** [frame.empty]. *)
Definition frame_empty (f : dict (list fl)) : bool :=
  match f with
  | [] => true
  | (_, []) :: _ => true
  | _ => false
  end.

Definition macd_suffix : string :=
  string_of_Z macd_fast ++ "_" ++ string_of_Z macd_slow ++ "_" ++ string_of_Z macd_signal.

Definition bb_suffix : string :=
  string_of_Z bb_period ++ "_" ++ string_of_Z bb_std.

(** [bands[prefix + suffix]] copied into the three band columns. *)
Definition assign_bands (bb : dict (list fl)) (suffix : string) : Stmt unit :=
  u <~ lift (getitem bb ("BBU_" ++ suffix)) ;; assign "bb_upper" (Some u) ;;;
  m <~ lift (getitem bb ("BBM_" ++ suffix)) ;; assign "bb_middle" (Some m) ;;;
  l <~ lift (getitem bb ("BBL_" ++ suffix)) ;; assign "bb_lower" (Some l).

(** [frame.iloc[:, i]]. *)
Definition iloc_column (f : dict (list fl)) (i : nat) : Result (list fl) :=
  match nth_error f i with
  | Some (_, c) => Ok c
  | None => Raise (IndexError "single positional indexer is out-of-bounds")
  end.

(** The body of the [try] block of [calculate_all_indicators]. *)
Definition indicators_body (ta : pandas_ta) : Stmt unit :=
  (* RSI *)
  close <~ read_column "Close" ;;
  rsi <~ lift (ta_rsi ta close rsi_period) ;;
  assign "rsi" rsi ;;;
  (* MACD *)
  close <~ read_column "Close" ;;
  macd <~ lift (ta_macd ta close macd_fast macd_slow macd_signal) ;;
  match macd with
  | Some macd =>
      c <~ lift (getitem macd ("MACD_" ++ macd_suffix)) ;; assign "macd" (Some c) ;;;
      c <~ lift (getitem macd ("MACDs_" ++ macd_suffix)) ;; assign "macd_signal" (Some c) ;;;
      c <~ lift (getitem macd ("MACDh_" ++ macd_suffix)) ;; assign "macd_histogram" (Some c)
  | None => sret tt
  end ;;;
  (* Moving averages *)
  close <~ read_column "Close" ;;
  s <~ lift (ta_sma ta close sma_short) ;; assign "sma_20" s ;;;
  close <~ read_column "Close" ;;
  s <~ lift (ta_sma ta close sma_medium) ;; assign "sma_50" s ;;;
  close <~ read_column "Close" ;;
  s <~ lift (ta_sma ta close sma_long) ;; assign "sma_200" s ;;;
  (* Bollinger Bands *)
  close <~ read_column "Close" ;;
  bb <~ lift (ta_bbands ta close bb_period bb_std) ;;
  match bb with
  | Some bb =>
      if negb (frame_empty bb) then
        except_KeyError (assign_bands bb (bb_suffix ++ ".0"))
          (except_KeyError (assign_bands bb bb_suffix)
             (if (3 <=? length bb)%nat then
                l <~ lift (iloc_column bb 0) ;; assign "bb_lower" (Some l) ;;;
                m <~ lift (iloc_column bb 1) ;; assign "bb_middle" (Some m) ;;;
                u <~ lift (iloc_column bb 2) ;; assign "bb_upper" (Some u)
              else sret tt))
      else sret tt
  | None => sret tt
  end ;;;
  (* Volume SMA *)
  volume <~ read_column "Volume" ;;
  s <~ lift (ta_sma ta volume 20) ;; assign "volume_sma_20" s ;;;
  (* Stochastic oscillator *)
  high <~ read_column "High" ;;
  low <~ read_column "Low" ;;
  close <~ read_column "Close" ;;
  stoch <~ lift (ta_stoch ta high low close) ;;
  match stoch with
  | Some stoch =>
      k <~ lift (getitem stoch "STOCHk_14_3_3") ;; assign "stoch_k" (Some k) ;;;
      d <~ lift (getitem stoch "STOCHd_14_3_3") ;; assign "stoch_d" (Some d)
  | None => sret tt
  end ;;;
  (* Average true range *)
  high <~ read_column "High" ;;
  low <~ read_column "Low" ;;
  close <~ read_column "Close" ;;
  a <~ lift (ta_atr ta high low close 14) ;; assign "atr" a ;;;
  (* On-balance volume *)
  close <~ read_column "Close" ;;
  volume <~ read_column "Volume" ;;
  o <~ lift (ta_obv ta close volume) ;; assign "obv" o.

(** [calculate_all_indicators]: [None] and an empty frame are handed
    back as they are; otherwise the block runs on a copy, and whatever it
    raises is logged and swallowed. *)
Definition calculate_all_indicators (ta : pandas_ta) (df : option DataFrame)
  : option DataFrame :=
  match df with
  | None => None
  | Some d =>
      if df_empty d then Some d
      else Some (snd (indicators_body ta d))
  end.

(** *** The technical classifier *)

(** [_analyze_rsi]. *)
Definition _analyze_rsi (rsi : fl) : Signal :=
  if is_nan rsi then mkSignal neutral 0 [("value", PyNone)]
  else if fl_lt rsi (Fin rsi_oversold) then mkSignal bullish 2 [("value", PyNum rsi)]
  else if fl_gt rsi (Fin rsi_overbought) then mkSignal bearish (-2) [("value", PyNum rsi)]
  else if fl_lt rsi (Fin 40) then mkSignal bullish 1 [("value", PyNum rsi)]
  else if fl_gt rsi (Fin 60) then mkSignal bearish (-1) [("value", PyNum rsi)]
  else mkSignal neutral 0 [("value", PyNum rsi)].

(** [series.get(key, default)]. *)
Definition get_default (r : Row) (key : string) (default : fl) : fl :=
  match dict_get key r with
  | Some v => v
  | None => default
  end.

(** [_analyze_macd].  After the [pd.isna] guard both entries of [latest]
    exist, so [latest['macd']] and [latest['macd_signal']] cannot raise. *)
Definition _analyze_macd (latest previous : Row) : Signal :=
  match dict_get "macd" latest, dict_get "macd_signal" latest with
  | Some macd, Some macd_signal =>
      if is_nan macd || is_nan macd_signal then mkSignal neutral 0 []
      else
        let prev_macd := get_default previous "macd" macd in
        let prev_signal := get_default previous "macd_signal" macd_signal in
        (* Bullish crossover *)
        if fl_le prev_macd prev_signal && fl_gt macd macd_signal then
          mkSignal bullish 2 [("crossover", PyStr "bullish")]
        (* Bearish crossover *)
        else if fl_ge prev_macd prev_signal && fl_lt macd macd_signal then
          mkSignal bearish (-2) [("crossover", PyStr "bearish")]
        (* Above signal line *)
        else if fl_gt macd macd_signal then
          mkSignal bullish 1 [("crossover", PyNone)]
        (* Below signal line *)
        else mkSignal bearish (-1) [("crossover", PyNone)]
  | _, _ => mkSignal neutral 0 []
  end.

(** [_analyze_moving_averages]. *)
Definition _analyze_moving_averages (latest : Row) : Result Signal :=
  price <- getitem latest "Close" ;;
  sma_20 <- getitem latest "sma_20" ;;
  sma_50 <- getitem latest "sma_50" ;;
  sma_200 <- getitem latest "sma_200" ;;
  Ok (if is_nan sma_20 || is_nan sma_50 || is_nan sma_200 then mkSignal neutral 0 []
      (* Golden cross pattern *)
      else if fl_gt sma_20 sma_50 && fl_gt sma_50 sma_200 && fl_gt price sma_20 then
        mkSignal bullish 2 [("pattern", PyStr "golden_cross")]
      (* Death cross pattern *)
      else if fl_lt sma_20 sma_50 && fl_lt sma_50 sma_200 && fl_lt price sma_20 then
        mkSignal bearish (-2) [("pattern", PyStr "death_cross")]
      (* Above all MAs *)
      else if fl_gt price sma_20 && fl_gt price sma_50 && fl_gt price sma_200 then
        mkSignal bullish 1 [("pattern", PyStr "above_all")]
      (* Below all MAs *)
      else if fl_lt price sma_20 && fl_lt price sma_50 && fl_lt price sma_200 then
        mkSignal bearish (-1) [("pattern", PyStr "below_all")]
      else mkSignal neutral 0 [("pattern", PyStr "mixed")]).

(** [_analyze_bollinger_bands].  Comparing the price with a middle band
    that is [None] (column missing) is a [TypeError]. *)
Definition _analyze_bollinger_bands (latest : Row) : Result Signal :=
  price <- getitem latest "Close" ;;
  let bb_upper := dict_get "bb_upper" latest in
  let bb_lower := dict_get "bb_lower" latest in
  let bb_middle := dict_get "bb_middle" latest in
  match bb_upper, bb_lower with
  | Some bb_upper, Some bb_lower =>
      if is_nan bb_upper || is_nan bb_lower then Ok (mkSignal neutral 0 [])
      (* Near lower band *)
      else if fl_lt price bb_lower then
        Ok (mkSignal bullish 2 [("position", PyStr "below_lower")])
      (* Near upper band *)
      else if fl_gt price bb_upper then
        Ok (mkSignal bearish (-2) [("position", PyStr "above_upper")])
      else
        match bb_middle with
        | None => Raise (TypeError "'<' not supported between instances of 'float' and 'NoneType'")
        | Some bb_middle =>
            (* In lower half *)
            if fl_lt price bb_middle then
              Ok (mkSignal bullish 1 [("position", PyStr "lower_half")])
            (* In upper half *)
            else Ok (mkSignal bearish (-1) [("position", PyStr "upper_half")])
        end
  | _, _ => Ok (mkSignal neutral 0 [])
  end.

(** [_analyze_volume]. *)
Definition _analyze_volume (latest : Row) : Result Signal :=
  volume <- getitem latest "Volume" ;;
  match dict_get "volume_sma_20" latest with
  | None => Ok (mkSignal neutral 0 [])
  | Some volume_sma =>
      if is_nan volume_sma then Ok (mkSignal neutral 0 [])
      else
        let volume_ratio := fl_div volume volume_sma in
        (* High volume spike *)
        if fl_gt volume_ratio (Fin config.VOLUME_SPIKE_THRESHOLD) then
          Ok (mkSignal bullish 1 [("volume_ratio", PyNum volume_ratio)])
        (* Low volume *)
        else if fl_lt volume_ratio (Fin 0.7) then
          Ok (mkSignal bearish (-1) [("volume_ratio", PyNum volume_ratio)])
        else Ok (mkSignal neutral 0 [("volume_ratio", PyNum volume_ratio)])
  end.

(** [_analyze_trend], [periods] defaulting to 20 at the call site. *)
Definition _analyze_trend (df : DataFrame) (periods : nat) : Result Signal :=
  if (length df <? periods)%nat then Ok (mkSignal neutral 0 [])
  else
    let recent := tail periods df in
    close_prices <- column "Close" recent ;;
    match close_prices with
    | [] => Raise (IndexError "single positional indexer is out-of-bounds")
    | first :: _ =>
        let slope :=
          fl_div (fl_sub (last close_prices first) first)
                 (Fin (inject_Z (Z.of_nat periods))) in
        let avg_price := mean close_prices in
        let trend_strength := fl_mul (fl_div slope avg_price) (Fin 100) in
        Ok (if fl_gt trend_strength (Fin 1) then
              mkSignal bullish 2 [("trend_strength", PyNum trend_strength)]
            else if fl_gt trend_strength (Fin 0.2) then
              mkSignal bullish 1 [("trend_strength", PyNum trend_strength)]
            else if fl_lt trend_strength (Fin (-1)) then
              mkSignal bearish (-2) [("trend_strength", PyNum trend_strength)]
            else if fl_lt trend_strength (Fin (-0.2)) then
              mkSignal bearish (-1) [("trend_strength", PyNum trend_strength)]
            else mkSignal neutral 0 [("trend_strength", PyNum trend_strength)])
    end.

(** [_analyze_stochastic]. *)
Definition _analyze_stochastic (latest : Row) : Signal :=
  match dict_get "stoch_k" latest, dict_get "stoch_d" latest with
  | Some stoch_k, Some stoch_d =>
      if is_nan stoch_k || is_nan stoch_d then mkSignal neutral 0 []
      (* Oversold *)
      else if fl_lt stoch_k (Fin 20) then
        mkSignal bullish 1 [("k", PyNum stoch_k); ("d", PyNum stoch_d)]
      (* Overbought *)
      else if fl_gt stoch_k (Fin 80) then
        mkSignal bearish (-1) [("k", PyNum stoch_k); ("d", PyNum stoch_d)]
      else mkSignal neutral 0 [("k", PyNum stoch_k); ("d", PyNum stoch_d)]
  | _, _ => mkSignal neutral 0 []
  end.

(** The category weights of [_calculate_technical_score]. *)
Definition weights : dict Q :=
  [("rsi_signal", 2); ("macd_signal", 2.5); ("ma_signal", 2); ("bb_signal", 1.5);
   ("volume_signal", 1); ("trend_signal", 2); ("stoch_signal", 1)].

(** One turn of the loop over [weights.items()]: a signal that is [None]
    or missing is skipped; a signal dict always has keys, so it is truthy. *)
Definition score_step (signals : dict (option Signal)) (acc : Q * Q) (item : string * Q)
  : Q * Q :=
  let '(total_strength, max_possible) := acc in
  let '(signal_name, weight) := item in
  match dict_get signal_name signals with
  | Some (Some signal) =>
      (total_strength + inject_Z (strength signal) * weight, max_possible + 2 * weight)
  | _ => (total_strength, max_possible)
  end.

(** [_calculate_technical_score]. *)
Definition _calculate_technical_score (signals : dict (option Signal)) : Q :=
  let '(total_strength, max_possible) := fold_left (score_step signals) weights (0, 0) in
  let score :=
    if Qlt_bool 0 max_possible then
      ((total_strength + max_possible) / (2 * max_possible)) * 100
    else 50 in
  round2 score.

(** [signals.get(name, {})]: a missing key reads as the empty dict
    ([None] here); a stored [None] has no [get] method. *)
Definition get_signal (signals : dict (option Signal)) (name : string)
  : Result (option Signal) :=
  match dict_get name signals with
  | None => Ok None
  | Some None => Raise (AttributeError "'NoneType' object has no attribute 'get'")
  | Some (Some s) => Ok (Some s)
  end.

(** A number read from a signal dict with an integer default, as needed
    by a format specification or a comparison. *)
Definition number_or (default : Q) (v : option PyVal) : Result fl :=
  match v with
  | None => Ok (Fin default)
  | Some (PyNum x) => Ok x
  | Some PyNone => Raise (TypeError "unsupported operand or format for NoneType")
  | Some (PyStr _) => Raise (TypeError "unsupported operand or format for str")
  end.

Definition is_str (v : option PyVal) (s : string) : bool :=
  match v with
  | Some (PyStr t) => String.eqb t s
  | _ => false
  end.

Definition key_of (s : option Signal) (key : string) : option PyVal :=
  match s with
  | Some s => dict_get key (extra s)
  | None => None
  end.

Definition direction_is (s : option Signal) (d : Direction) : bool :=
  match s, d with
  | Some (mkSignal bullish _ _), bullish => true
  | Some (mkSignal bearish _ _), bearish => true
  | Some (mkSignal neutral _ _), neutral => true
  | _, _ => false
  end.

Definition strength_or_0 (s : option Signal) : Z :=
  match s with
  | Some s => strength s
  | None => 0
  end.

(** [_generate_reasoning]. *)
Definition _generate_reasoning (signals : dict (option Signal)) (latest : Row)
  : Result string :=
  (* RSI analysis *)
  rsi_signal <- get_signal signals "rsi_signal" ;;
  r_rsi <-
    (if direction_is rsi_signal bullish then
       v <- number_or 0 (key_of rsi_signal "value") ;;
       Ok ["RSI at " ++ fmt_fixed 1 v ++ " indicates oversold conditions"]
     else if direction_is rsi_signal bearish then
       v <- number_or 0 (key_of rsi_signal "value") ;;
       Ok ["RSI at " ++ fmt_fixed 1 v ++ " indicates overbought conditions"]
     else Ok []) ;;
  (* MACD analysis *)
  macd_signal <- get_signal signals "macd_signal" ;;
  let r_macd :=
    if is_str (key_of macd_signal "crossover") "bullish" then
      ["MACD bullish crossover detected"]
    else if is_str (key_of macd_signal "crossover") "bearish" then
      ["MACD bearish crossover detected"]
    else if direction_is macd_signal bullish then
      ["MACD above signal line (bullish)"]
    else [] in
  (* Moving average analysis *)
  ma_signal <- get_signal signals "ma_signal" ;;
  let pattern := key_of ma_signal "pattern" in
  let r_ma :=
    if is_str pattern "golden_cross" then ["Golden cross pattern: strong uptrend"]
    else if is_str pattern "death_cross" then ["Death cross pattern: strong downtrend"]
    else if is_str pattern "above_all" then ["Price above all moving averages"]
    else if is_str pattern "below_all" then ["Price below all moving averages"]
    else [] in
  (* Bollinger Bands *)
  bb_signal <- get_signal signals "bb_signal" ;;
  let r_bb :=
    if is_str (key_of bb_signal "position") "below_lower" then
      ["Price below lower Bollinger Band (oversold)"]
    else if is_str (key_of bb_signal "position") "above_upper" then
      ["Price above upper Bollinger Band (overbought)"]
    else [] in
  (* Volume *)
  volume_signal <- get_signal signals "volume_signal" ;;
  r_volume <-
    (if (0 <? strength_or_0 volume_signal)%Z then
       ratio <- number_or 0 (key_of volume_signal "volume_ratio") ;;
       Ok ["Volume spike detected (" ++ fmt_fixed 1 ratio ++ "x average)"]
     else Ok []) ;;
  (* Trend *)
  trend_signal <- get_signal signals "trend_signal" ;;
  trend_strength <- number_or 0 (key_of trend_signal "trend_strength") ;;
  let r_trend :=
    if fl_gt (fl_abs trend_strength) (Fin 1) then
      let direction := if fl_gt trend_strength (Fin 0) then "upward" else "downward" in
      ["Strong " ++ direction ++ " trend (" ++ fmt_fixed 1 (fl_abs trend_strength) ++ "%)"]
    else [] in
  let reasons := (r_rsi ++ r_macd ++ r_ma ++ r_bb ++ r_volume ++ r_trend)%list in
  let reasons :=
    match reasons with
    | [] => ["Mixed technical signals - neutral outlook"]
    | _ => reasons
    end in
  Ok (join " | " reasons).

(** The result dict of [generate_technical_signals]: either the single
    key ['error'], or the full analysis. *)
Record Analysis : Type := mkAnalysis {
  score : Q;
  signals : dict (option Signal);
  reasoning : string;
  current_price : fl;
  latest_indicators : dict (option fl)
}.

Inductive TechnicalResult : Type :=
| NoData (error : string)
| Analysed (a : Analysis).

(** [df.iloc[-1]] and [df.iloc[-2]] of a frame known to have rows. *)
Definition iloc_last (df : DataFrame) : Row := last df [].
Definition iloc_last2 (df : DataFrame) : Row := last (removelast df) [].

(** [generate_technical_signals]. *)
Definition generate_technical_signals (df : option DataFrame) : Result TechnicalResult :=
  match df with
  | None => Ok (NoData "No data available")
  | Some df =>
      if df_empty df then Ok (NoData "No data available")
      else
        (* Get latest values *)
        let latest := iloc_last df in
        let previous := if (1 <? length df)%nat then iloc_last2 df else latest in
        rsi <- getitem latest "rsi" ;;
        let rsi_signal := _analyze_rsi rsi in
        let macd_signal := _analyze_macd latest previous in
        ma_signal <- _analyze_moving_averages latest ;;
        bb_signal <- _analyze_bollinger_bands latest ;;
        volume_signal <- _analyze_volume latest ;;
        trend_signal <- _analyze_trend df 20 ;;
        let stoch_signal :=
          if dict_mem "stoch_k" latest then Some (_analyze_stochastic latest) else None in
        let signals :=
          [("rsi_signal", Some rsi_signal);
           ("macd_signal", Some macd_signal);
           ("ma_signal", Some ma_signal);
           ("bb_signal", Some bb_signal);
           ("volume_signal", Some volume_signal);
           ("trend_signal", Some trend_signal);
           ("stoch_signal", stoch_signal)] in
        (* Calculate overall technical score (0-100) *)
        let score := _calculate_technical_score signals in
        (* Generate reasoning *)
        reasoning <- _generate_reasoning signals latest ;;
        current_price <- getitem latest "Close" ;;
        rsi <- getitem latest "rsi" ;;
        sma_20 <- getitem latest "sma_20" ;;
        sma_50 <- getitem latest "sma_50" ;;
        sma_200 <- getitem latest "sma_200" ;;
        Ok (Analysed
              (mkAnalysis score signals reasoning current_price
                 [("rsi", Some rsi);
                  ("macd", dict_get "macd" latest);
                  ("sma_20", Some sma_20);
                  ("sma_50", Some sma_50);
                  ("sma_200", Some sma_200)]))
  end.

End TechnicalAnalyzer.

(** ** fundamental_analysis.py *)

Module FundamentalAnalyzer.

Local Open Scope string_scope.
Local Open Scope result_scope.

Record Benchmark : Type := mkBenchmark {
  good : Q;
  acceptable : Q;
  weight : Q
}.

Definition pe_ratio_benchmark := mkBenchmark 15 25 2.
Definition profit_margin_benchmark := mkBenchmark 0.15 0.08 2.
Definition debt_to_equity_benchmark := mkBenchmark 0.5 1.5 1.5.
Definition current_ratio_benchmark := mkBenchmark 2.0 1.0 1.

(** [self.benchmarks]. *)
Definition benchmarks : dict Benchmark :=
  [("pe_ratio", pe_ratio_benchmark);
   ("profit_margin", profit_margin_benchmark);
   ("debt_to_equity", debt_to_equity_benchmark);
   ("revenue_growth", mkBenchmark 0.15 0.05 2);
   ("return_on_equity", mkBenchmark 0.15 0.08 2);
   ("return_on_assets", mkBenchmark 0.08 0.04 1.5);
   ("current_ratio", current_ratio_benchmark);
   ("earnings_growth", mkBenchmark 0.15 0.05 2);
   ("operating_margin", mkBenchmark 0.15 0.08 1.5)].

(** A metric as stored in a signal dict under ['value']. *)
Definition pyval (x : option fl) : PyVal :=
  match x with
  | None => PyNone
  | Some v => PyNum v
  end.

(** [_analyze_pe_ratio]. *)
Definition _analyze_pe_ratio (pe_ratio : option fl) : Signal :=
  match pe_ratio with
  | None => mkSignal neutral 0 [("value", PyNone)]
  | Some pe =>
      if fl_le pe (Fin 0) then mkSignal neutral 0 [("value", PyNum pe)]
      else
        let benchmark := pe_ratio_benchmark in
        (* Lower P/E is generally better *)
        if fl_lt pe (Fin (good benchmark)) then
          mkSignal bullish 2 [("value", PyNum pe); ("interpretation", PyStr "undervalued")]
        else if fl_lt pe (Fin (acceptable benchmark)) then
          mkSignal bullish 1 [("value", PyNum pe); ("interpretation", PyStr "fairly valued")]
        else if fl_lt pe (Fin 35) then
          mkSignal neutral 0 [("value", PyNum pe); ("interpretation", PyStr "slightly expensive")]
        else
          mkSignal bearish (-1) [("value", PyNum pe); ("interpretation", PyStr "overvalued")]
  end.

(** [_analyze_profit_margin]. *)
Definition _analyze_profit_margin (margin : option fl) : Signal :=
  match margin with
  | None => mkSignal neutral 0 [("value", PyNone)]
  | Some m =>
      let benchmark := profit_margin_benchmark in
      (* Higher margin is better *)
      if fl_ge m (Fin (good benchmark)) then
        mkSignal bullish 2 [("value", PyNum m); ("interpretation", PyStr "excellent profitability")]
      else if fl_ge m (Fin (acceptable benchmark)) then
        mkSignal bullish 1 [("value", PyNum m); ("interpretation", PyStr "good profitability")]
      else if fl_ge m (Fin 0.03) then
        mkSignal neutral 0 [("value", PyNum m); ("interpretation", PyStr "moderate profitability")]
      else
        mkSignal bearish (-1) [("value", PyNum m); ("interpretation", PyStr "low profitability")]
  end.

(** [_analyze_debt_to_equity]. *)
Definition _analyze_debt_to_equity (debt_to_equity : option fl) : Signal :=
  match debt_to_equity with
  | None => mkSignal neutral 0 [("value", PyNone)]
  | Some d =>
      let benchmark := debt_to_equity_benchmark in
      (* Lower debt is better *)
      if fl_le d (Fin (good benchmark)) then
        mkSignal bullish 2 [("value", PyNum d); ("interpretation", PyStr "low debt")]
      else if fl_le d (Fin (acceptable benchmark)) then
        mkSignal bullish 1 [("value", PyNum d); ("interpretation", PyStr "manageable debt")]
      else if fl_le d (Fin 2.5) then
        mkSignal neutral 0 [("value", PyNum d); ("interpretation", PyStr "moderate debt")]
      else
        mkSignal bearish (-1) [("value", PyNum d); ("interpretation", PyStr "high debt")]
  end.

(** [self.benchmarks.get(metric_name, {'good': g, 'acceptable': a})]. *)
Definition benchmark_or (metric_name : string) (g a : Q) : Q * Q :=
  match dict_get metric_name benchmarks with
  | Some b => (good b, acceptable b)
  | None => (g, a)
  end.

(** [_analyze_growth_metric]. *)
Definition _analyze_growth_metric (growth : option fl) (metric_name : string) : Signal :=
  match growth with
  | None => mkSignal neutral 0 [("value", PyNone)]
  | Some g =>
      let '(b_good, b_acceptable) := benchmark_or metric_name 0.15 0.05 in
      (* Higher growth is better *)
      if fl_ge g (Fin b_good) then
        mkSignal bullish 2 [("value", PyNum g); ("interpretation", PyStr "strong growth")]
      else if fl_ge g (Fin b_acceptable) then
        mkSignal bullish 1 [("value", PyNum g); ("interpretation", PyStr "moderate growth")]
      else if fl_ge g (Fin 0) then
        mkSignal neutral 0 [("value", PyNum g); ("interpretation", PyStr "slow growth")]
      else if fl_ge g (Fin (-0.05)) then
        mkSignal bearish (-1) [("value", PyNum g); ("interpretation", PyStr "slight decline")]
      else
        mkSignal bearish (-2) [("value", PyNum g); ("interpretation", PyStr "significant decline")]
  end.

(** [_analyze_profitability_metric]. *)
Definition _analyze_profitability_metric (value : option fl) (metric_name : string) : Signal :=
  match value with
  | None => mkSignal neutral 0 [("value", PyNone)]
  | Some v =>
      let '(b_good, b_acceptable) := benchmark_or metric_name 0.15 0.08 in
      (* Higher is better *)
      if fl_ge v (Fin b_good) then
        mkSignal bullish 2 [("value", PyNum v); ("interpretation", PyStr "excellent")]
      else if fl_ge v (Fin b_acceptable) then
        mkSignal bullish 1 [("value", PyNum v); ("interpretation", PyStr "good")]
      else if fl_ge v (Fin 0) then
        mkSignal neutral 0 [("value", PyNum v); ("interpretation", PyStr "below average")]
      else
        mkSignal bearish (-1) [("value", PyNum v); ("interpretation", PyStr "poor")]
  end.

(** [_analyze_current_ratio]. *)
Definition _analyze_current_ratio (ratio : option fl) : Signal :=
  match ratio with
  | None => mkSignal neutral 0 [("value", PyNone)]
  | Some r =>
      let benchmark := current_ratio_benchmark in
      if fl_ge r (Fin (good benchmark)) then
        mkSignal bullish 2 [("value", PyNum r); ("interpretation", PyStr "strong liquidity")]
      else if fl_ge r (Fin (acceptable benchmark)) then
        mkSignal bullish 1 [("value", PyNum r); ("interpretation", PyStr "adequate liquidity")]
      else if fl_ge r (Fin 0.8) then
        mkSignal neutral 0 [("value", PyNum r); ("interpretation", PyStr "tight liquidity")]
      else
        mkSignal bearish (-1) [("value", PyNum r); ("interpretation", PyStr "liquidity concerns")]
  end.

(** [self.benchmarks.get(metric_name, {}).get('weight', 1)]. *)
Definition weight_of (metric_name : string) : Q :=
  match dict_get metric_name benchmarks with
  | Some b => weight b
  | None => 1
  end.

(** One turn of the loop over [signals.items()]; a signal dict is never
    empty and always has the key ['strength']. *)
Definition score_step (acc : Q * Q) (item : string * Signal) : Q * Q :=
  let '(total_weighted_strength, total_weight) := acc in
  let '(metric_name, signal) := item in
  let weight := weight_of metric_name in
  (total_weighted_strength + inject_Z (strength signal) * weight, total_weight + 2 * weight).

(** [_calculate_fundamental_score]. *)
Definition _calculate_fundamental_score (signals : dict Signal) : Q :=
  match signals with
  | [] => 50
  | _ =>
      let '(total_weighted_strength, total_weight) := fold_left score_step signals (0, 0) in
      let score :=
        if Qlt_bool 0 total_weight then
          ((total_weighted_strength + total_weight) / (2 * total_weight)) * 100
        else 50 in
      round2 score
  end.

(** [signal['value']] used as a number. *)
Definition number_value (s : Signal) : Result fl :=
  v <- getitem (extra s) "value" ;;
  match v with
  | PyNum x => Ok x
  | PyNone => Raise (TypeError "unsupported operand or format for NoneType")
  | PyStr _ => Raise (TypeError "unsupported operand or format for str")
  end.

(** [signal['value'] is not None]. *)
Definition value_is_not_None (s : Signal) : Result bool :=
  v <- getitem (extra s) "value" ;;
  Ok (match v with PyNone => false | _ => true end).

Definition percent (x : fl) : string := fmt_fixed 1 (fl_mul x (Fin 100)).

(** [_generate_reasoning]. *)
Definition _generate_reasoning (signals : dict Signal) (fundamental_data : dict (option fl))
  : Result string :=
  (* P/E Ratio *)
  r_pe <-
    match dict_get "pe_ratio" signals with
    | Some pe_signal =>
        match signal pe_signal with
        | bullish =>
            v <- number_value pe_signal ;;
            Ok ["P/E ratio of " ++ fmt_fixed 1 v ++ " indicates good value"]
        | bearish =>
            v <- number_value pe_signal ;;
            Ok ["P/E ratio of " ++ fmt_fixed 1 v ++ " suggests overvaluation"]
        | neutral => Ok []
        end
    | None => Ok []
    end ;;
  (* Profit Margin *)
  r_pm <-
    match dict_get "profit_margin" signals with
    | Some pm_signal =>
        if (1 <=? strength pm_signal)%Z then
          v <- number_value pm_signal ;;
          Ok ["Strong profit margin of " ++ percent v ++ "%"]
        else Ok []
    | None => Ok []
    end ;;
  (* Revenue Growth *)
  r_rg <-
    match dict_get "revenue_growth" signals with
    | Some rg_signal =>
        present <- value_is_not_None rg_signal ;;
        if present then
          if (1 <=? strength rg_signal)%Z then
            v <- number_value rg_signal ;;
            Ok ["Revenue growing at " ++ percent v ++ "%"]
          else if (strength rg_signal <=? -1)%Z then
            v <- number_value rg_signal ;;
            Ok ["Revenue declining at " ++ percent (fl_abs v) ++ "%"]
          else Ok []
        else Ok []
    | None => Ok []
    end ;;
  (* Earnings Growth *)
  r_eg <-
    match dict_get "earnings_growth" signals with
    | Some eg_signal =>
        present <- value_is_not_None eg_signal ;;
        if present && (1 <=? strength eg_signal)%Z then
          v <- number_value eg_signal ;;
          Ok ["Earnings growth of " ++ percent v ++ "%"]
        else Ok []
    | None => Ok []
    end ;;
  (* ROE *)
  r_roe <-
    match dict_get "return_on_equity" signals with
    | Some roe_signal =>
        present <- value_is_not_None roe_signal ;;
        if present && (1 <=? strength roe_signal)%Z then
          v <- number_value roe_signal ;;
          Ok ["ROE of " ++ percent v ++ "% shows efficient equity use"]
        else Ok []
    | None => Ok []
    end ;;
  (* Debt *)
  r_debt <-
    match dict_get "debt_to_equity" signals with
    | Some debt_signal =>
        present <- value_is_not_None debt_signal ;;
        if present then
          if (1 <=? strength debt_signal)%Z then
            v <- number_value debt_signal ;;
            Ok ["Low debt-to-equity ratio of " ++ fmt_fixed 2 v]
          else if (strength debt_signal <=? -1)%Z then
            v <- number_value debt_signal ;;
            Ok ["High debt-to-equity ratio of " ++ fmt_fixed 2 v]
          else Ok []
        else Ok []
    | None => Ok []
    end ;;
  (* Current Ratio *)
  r_cr <-
    match dict_get "current_ratio" signals with
    | Some cr_signal =>
        present <- value_is_not_None cr_signal ;;
        if present && (1 <=? strength cr_signal)%Z then
          v <- number_value cr_signal ;;
          Ok ["Current ratio of " ++ fmt_fixed 2 v ++ " indicates good liquidity"]
        else Ok []
    | None => Ok []
    end ;;
  let reasons := (r_pe ++ r_pm ++ r_rg ++ r_eg ++ r_roe ++ r_debt ++ r_cr)%list in
  let reasons :=
    match reasons with
    | [] => ["Limited fundamental data available for analysis"]
    | _ => reasons
    end in
  Ok (join " | " reasons).

(** The result dict of [analyze_fundamentals]. *)
Record Analysis : Type := mkAnalysis {
  score : Q;
  signals : dict Signal;
  reasoning : string;
  metrics : dict (option fl)
}.

(** [if key in fundamental_data: signals[key] = analyze(fundamental_data[key])]. *)
Definition add_signal (fundamental_data : dict (option fl)) (key : string)
    (analyze : option fl -> Signal) (signals : dict Signal) : dict Signal :=
  match dict_get key fundamental_data with
  | Some v => dict_set key (analyze v) signals
  | None => signals
  end.

(** The signals [analyze_fundamentals] collects, in the order it tests
    the metrics. *)
Definition collect_signals (fundamental_data : dict (option fl)) : dict Signal :=
  let signals := [] in
  let signals := add_signal fundamental_data "pe_ratio" _analyze_pe_ratio signals in
  let signals := add_signal fundamental_data "profit_margin" _analyze_profit_margin signals in
  let signals := add_signal fundamental_data "debt_to_equity" _analyze_debt_to_equity signals in
  let signals := add_signal fundamental_data "revenue_growth"
                   (fun v => _analyze_growth_metric v "revenue_growth") signals in
  let signals := add_signal fundamental_data "return_on_equity"
                   (fun v => _analyze_profitability_metric v "return_on_equity") signals in
  let signals := add_signal fundamental_data "return_on_assets"
                   (fun v => _analyze_profitability_metric v "return_on_assets") signals in
  let signals := add_signal fundamental_data "earnings_growth"
                   (fun v => _analyze_growth_metric v "earnings_growth") signals in
  let signals := add_signal fundamental_data "current_ratio" _analyze_current_ratio signals in
  let signals := add_signal fundamental_data "operating_margin"
                   (fun v => _analyze_profitability_metric v "operating_margin") signals in
  signals.

(** [analyze_fundamentals]. *)
Definition analyze_fundamentals (fundamental_data : dict (option fl)) : Result Analysis :=
  match fundamental_data with
  | [] => Ok (mkAnalysis 50 [] "No fundamental data available" [])
  | _ =>
      let signals := collect_signals fundamental_data in
      (* Calculate overall fundamental score *)
      let score := _calculate_fundamental_score signals in
      (* Generate reasoning *)
      reasoning <- _generate_reasoning signals fundamental_data ;;
      Ok (mkAnalysis score signals reasoning fundamental_data)
  end.

(** Truth value of a float in a condition: zero is false, NaN and the
    infinities are true. *)
Definition truthy (x : fl) : bool :=
  match x with
  | Fin q => negb (Qeq_bool q 0)
  | _ => true
  end.

(** [x and x < bound] for [x] read with [dict.get]: [None] is false. *)
Definition truthy_and (x : option fl) (test : fl -> bool) : bool :=
  match x with
  | Some v => truthy v && test v
  | None => false
  end.

(** [fundamental_data.get(key, 0)]: the stored value, which may be
    [None], or the number 0 when the key is missing. *)
Definition get_or_0 (fundamental_data : dict (option fl)) (key : string) : option fl :=
  match dict_get key fundamental_data with
  | Some v => v
  | None => Some (Fin 0)
  end.

(** [get_valuation_category]. *)
Definition get_valuation_category (fundamental_data : dict (option fl)) : string :=
  let pe_ratio :=
    match dict_get "pe_ratio" fundamental_data with
    | Some v => v
    | None => None
    end in
  let revenue_growth := get_or_0 fundamental_data "revenue_growth" in
  let earnings_growth := get_or_0 fundamental_data "earnings_growth" in
  if truthy_and pe_ratio (fun v => fl_lt v (Fin 15)) then
    if truthy_and revenue_growth (fun v => fl_lt v (Fin 0.05)) then "value"
    else "balanced"
  else if truthy_and revenue_growth (fun v => fl_gt v (Fin 0.15)) then "growth"
  else "balanced".

(** [fundamental_data.get(key, 0) or 0]. *)
Definition get_or_0_or_0 (fundamental_data : dict (option fl)) (key : string) : fl :=
  match get_or_0 fundamental_data key with
  | Some v => if truthy v then v else Fin 0
  | None => Fin 0
  end.

(** [min(a, b)] of the builtins: [b] only when [b < a]. *)
Definition py_min (a b : fl) : fl := if fl_lt b a then b else a.

(** [round(x, 2)] on a float that may be NaN or infinite. *)
Definition round2_fl (x : fl) : fl :=
  match x with
  | Fin q => Fin (round2 q)
  | other => other
  end.

(** [self.benchmarks.get(metric, {}).get('good', 0.15)]. *)
Definition good_of (metric : string) : Q :=
  match dict_get metric benchmarks with
  | Some b => good b
  | None => 0.15
  end.

(** One turn of the loop of [get_quality_score]. *)
Definition quality_step (scores : list fl) (item : string * fl) : list fl :=
  let '(metric, value) := item in
  if fl_gt value (Fin 0) then
    let benchmark := good_of metric in
    let normalized := fl_mul (py_min (fl_div value (Fin benchmark)) (Fin 1)) (Fin 100) in
    (scores ++ [normalized])%list
  else scores.

(** [get_quality_score]. *)
Definition get_quality_score (fundamental_data : dict (option fl)) : fl :=
  let quality_metrics :=
    [("return_on_equity", get_or_0_or_0 fundamental_data "return_on_equity");
     ("return_on_assets", get_or_0_or_0 fundamental_data "return_on_assets");
     ("profit_margin", get_or_0_or_0 fundamental_data "profit_margin");
     ("operating_margin", get_or_0_or_0 fundamental_data "operating_margin")] in
  (* Simple average of normalized metrics *)
  let scores := fold_left quality_step quality_metrics [] in
  match scores with
  | [] => Fin 50
  | _ =>
      round2_fl (fl_div (fold_left fl_add scores (Fin 0))
                        (Fin (inject_Z (Z.of_nat (length scores)))))
  end.

End FundamentalAnalyzer.

(** ** scoring_engine.py *)

Module ScoringEngine.

Local Open Scope string_scope.
Local Open Scope result_scope.

Inductive Recommendation : Type :=
| STRONG_BUY
| BUY
| HOLD
| SELL
| STRONG_SELL.

(** The text of a recommendation as the engine writes it. *)
Definition label (r : Recommendation) : string :=
  match r with
  | STRONG_BUY => "STRONG BUY"
  | BUY => "BUY"
  | HOLD => "HOLD"
  | SELL => "SELL"
  | STRONG_SELL => "STRONG SELL"
  end.

(** The keys only a successful analysis carries. *)
Record Details : Type := mkDetails {
  technical_signals : dict (option Signal);
  fundamental_signals : dict Signal;
  latest_indicators : dict (option fl);
  fundamental_metrics : dict (option fl)
}.

(** The result dict of [score_stock]; [error] is set on the placeholder
    built by [_create_error_result], [details] on a full analysis. *)
Record StockResult : Type := mkStockResult {
  symbol : string;
  overall_score : Q;
  technical_score : Q;
  fundamental_score : Q;
  recommendation : Recommendation;
  reasoning : string;
  current_price : option fl;
  date : string;
  error : option string;
  details : option Details
}.

(** What the engine reaches outside the core: pandas_ta, the data
    fetcher (which returns [None] instead of raising) and the clock. *)
Record World : Type := mkWorld {
  ta : TechnicalAnalyzer.pandas_ta;
  fetch_price_data : string -> option DataFrame;
  fetch_fundamental_data : string -> option (dict (option fl));
  today : string
}.

Definition technical_weight : Q := config.TECHNICAL_WEIGHT.
Definition fundamental_weight : Q := config.FUNDAMENTAL_WEIGHT.

(** [_generate_recommendation]. *)
Definition _generate_recommendation (score : Q) : Recommendation :=
  if Qle_bool 80 score then STRONG_BUY
  else if Qle_bool 65 score then BUY
  else if Qle_bool 45 score then HOLD
  else if Qle_bool 30 score then SELL
  else STRONG_SELL.

(** [_combine_reasoning]. *)
Definition _combine_reasoning (technical_reasoning fundamental_reasoning : string)
    (technical_score fundamental_score : Q) : string :=
  join " || "
    ["Technical (" ++ fmt_fixed 1 (Fin technical_score) ++ "/100): " ++ technical_reasoning;
     "Fundamental (" ++ fmt_fixed 1 (Fin fundamental_score) ++ "/100): " ++ fundamental_reasoning].

(** The blend computed in [score_stock]. *)
Definition blend (technical_score fundamental_score : Q) : Q :=
  technical_score * technical_weight + fundamental_score * fundamental_weight.

Section Engine.

Variable w : World.

(** [_create_error_result]. *)
Definition _create_error_result (symbol error_message : string) : StockResult :=
  {| symbol := symbol;
     overall_score := 50;
     technical_score := 50;
     fundamental_score := 50;
     recommendation := HOLD;
     reasoning := "Error: " ++ error_message;
     current_price := None;
     date := today w;
     error := Some error_message;
     details := None |}.

(** [score_stock]. *)
Definition score_stock (symbol : string) (price_data : option DataFrame)
    (fundamental_data : option (dict (option fl))) : Result StockResult :=
  (* Fetch data if not provided *)
  let price_data :=
    match price_data with
    | None => fetch_price_data w symbol
    | Some d => if df_empty d then fetch_price_data w symbol else Some d
    end in
  match price_data with
  | None => Ok (_create_error_result symbol "No price data available")
  | Some d =>
      if df_empty d then Ok (_create_error_result symbol "No price data available")
      else
        let fundamental_data :=
          match fundamental_data with
          | None => fetch_fundamental_data w symbol
          | Some f => Some f
          end in
        (* Calculate technical indicators *)
        let price_data_with_indicators :=
          TechnicalAnalyzer.calculate_all_indicators (ta w) (Some d) in
        (* Generate technical analysis *)
        technical_result <-
          TechnicalAnalyzer.generate_technical_signals price_data_with_indicators ;;
        (* Generate fundamental analysis *)
        fundamental_result <-
          FundamentalAnalyzer.analyze_fundamentals
            (match fundamental_data with Some f => f | None => [] end) ;;
        (* Calculate combined score *)
        match technical_result with
        | TechnicalAnalyzer.NoData _ => Raise (KeyError "score")
        | TechnicalAnalyzer.Analysed t =>
            let technical_score := TechnicalAnalyzer.score t in
            let fundamental_score := FundamentalAnalyzer.score fundamental_result in
            let overall_score := blend technical_score fundamental_score in
            (* Generate recommendation *)
            let recommendation := _generate_recommendation overall_score in
            (* Combine reasoning *)
            let combined_reasoning :=
              _combine_reasoning (TechnicalAnalyzer.reasoning t)
                (FundamentalAnalyzer.reasoning fundamental_result)
                technical_score fundamental_score in
            Ok {| symbol := symbol;
                  overall_score := round2 overall_score;
                  technical_score := technical_score;
                  fundamental_score := fundamental_score;
                  recommendation := recommendation;
                  reasoning := combined_reasoning;
                  current_price := Some (TechnicalAnalyzer.current_price t);
                  date := today w;
                  error := None;
                  details :=
                    Some (mkDetails (TechnicalAnalyzer.signals t)
                            (FundamentalAnalyzer.signals fundamental_result)
                            (TechnicalAnalyzer.latest_indicators t)
                            (FundamentalAnalyzer.metrics fundamental_result)) |}
        end
  end.

(** One turn of the loop of [score_portfolio]: the result of
    [score_stock], or the placeholder when it raised. *)
Definition score_or_placeholder (symbol : string) : StockResult :=
  match score_stock symbol None None with
  | Ok result => result
  | Raise e => _create_error_result symbol (str_exn e)
  end.

(** Insertion that keeps the list descending by [overall_score] and puts
    the new element before those of equal score. *)
Fixpoint insert_desc (x : StockResult) (l : list StockResult) : list StockResult :=
  match l with
  | [] => [x]
  | y :: l' =>
      if Qle_bool (overall_score y) (overall_score x) then x :: y :: l'
      else y :: insert_desc x l'
  end.

(** [results.sort(key=overall_score, reverse=True)]: a stable sort. *)
Fixpoint sort_desc (l : list StockResult) : list StockResult :=
  match l with
  | [] => []
  | x :: l' => insert_desc x (sort_desc l')
  end.

(** [score_portfolio]. *)
Definition score_portfolio (symbols : list string) : list StockResult :=
  let results := map score_or_placeholder symbols in
  (* Sort by overall score descending *)
  sort_desc results.

Definition is_buy (r : Recommendation) : bool :=
  match r with STRONG_BUY | BUY => true | _ => false end.

Definition is_sell (r : Recommendation) : bool :=
  match r with SELL | STRONG_SELL => true | _ => false end.

(** [get_buy_recommendations]. *)
Definition get_buy_recommendations (symbols : list string) (top_n : nat)
  : list StockResult :=
  let all_scores := score_portfolio symbols in
  let buy_candidates :=
    filter (fun s => is_buy (recommendation s)
                     && Qle_bool config.MIN_BUY_SCORE (overall_score s)) all_scores in
  firstn top_n buy_candidates.

(** [get_sell_recommendations]. *)
Definition get_sell_recommendations (holdings : list string) : list StockResult :=
  let all_scores := score_portfolio holdings in
  filter (fun s => is_sell (recommendation s)
                   || Qle_bool (overall_score s) config.MAX_SELL_SCORE) all_scores.

(** [Series.unique().tolist()]: first occurrences, in order. *)
Fixpoint unique (l : list string) : list string :=
  match l with
  | [] => []
  | x :: l' => x :: filter (fun y => negb (String.eqb x y)) (unique l')
  end.

(** The dict [run_daily_analysis] returns. *)
Record DailyAnalysis : Type := mkDailyAnalysis {
  buy_recommendations : list StockResult;
  sell_recommendations : list StockResult;
  analysis_date : string
}.

(** [run_daily_analysis], as far as its return value goes: the symbol
    column of the active holdings is what the database hands back, and the
    writes to the database are left out. *)
Definition run_daily_analysis (active_holdings : list string)
    (symbols : option (list string)) : DailyAnalysis :=
  let symbols :=
    match symbols with
    | None => config.STOCK_UNIVERSE
    | Some l => l
    end in
  (* Generate recommendations *)
  let buy_recommendations := get_buy_recommendations symbols 10 in
  (* Get active holdings and check for sells *)
  let sell_recommendations :=
    match active_holdings with
    | [] => []
    | _ => get_sell_recommendations (unique active_holdings)
    end in
  mkDailyAnalysis buy_recommendations sell_recommendations (today w).

End Engine.

End ScoringEngine.

(** ** Vocabulary of the statements *)

Module Stages.

Import TechnicalAnalyzer.
Local Open Scope string_scope.

(** The [try] block of [calculate_all_indicators] cut at its comments:
    ten indicator computations, one after the other. *)

Definition rsi_stage (ta : pandas_ta) : Stmt unit :=
  close <~ read_column "Close" ;;
  rsi <~ lift (ta_rsi ta close rsi_period) ;;
  assign "rsi" rsi.

Definition macd_stage (ta : pandas_ta) : Stmt unit :=
  close <~ read_column "Close" ;;
  macd <~ lift (ta_macd ta close macd_fast macd_slow macd_signal) ;;
  match macd with
  | Some macd =>
      c <~ lift (getitem macd ("MACD_" ++ macd_suffix)) ;; assign "macd" (Some c) ;;;
      c <~ lift (getitem macd ("MACDs_" ++ macd_suffix)) ;; assign "macd_signal" (Some c) ;;;
      c <~ lift (getitem macd ("MACDh_" ++ macd_suffix)) ;; assign "macd_histogram" (Some c)
  | None => sret tt
  end.

Definition sma_stage (ta : pandas_ta) (source name : string) (length : Z) : Stmt unit :=
  values <~ read_column source ;;
  s <~ lift (ta_sma ta values length) ;;
  assign name s.

Definition bbands_stage (ta : pandas_ta) : Stmt unit :=
  close <~ read_column "Close" ;;
  bb <~ lift (ta_bbands ta close bb_period bb_std) ;;
  match bb with
  | Some bb =>
      if negb (frame_empty bb) then
        except_KeyError (assign_bands bb (bb_suffix ++ ".0"))
          (except_KeyError (assign_bands bb bb_suffix)
             (if (3 <=? length bb)%nat then
                l <~ lift (iloc_column bb 0) ;; assign "bb_lower" (Some l) ;;;
                m <~ lift (iloc_column bb 1) ;; assign "bb_middle" (Some m) ;;;
                u <~ lift (iloc_column bb 2) ;; assign "bb_upper" (Some u)
              else sret tt))
      else sret tt
  | None => sret tt
  end.

Definition stoch_stage (ta : pandas_ta) : Stmt unit :=
  high <~ read_column "High" ;;
  low <~ read_column "Low" ;;
  close <~ read_column "Close" ;;
  stoch <~ lift (ta_stoch ta high low close) ;;
  match stoch with
  | Some stoch =>
      k <~ lift (getitem stoch "STOCHk_14_3_3") ;; assign "stoch_k" (Some k) ;;;
      d <~ lift (getitem stoch "STOCHd_14_3_3") ;; assign "stoch_d" (Some d)
  | None => sret tt
  end.

Definition atr_stage (ta : pandas_ta) : Stmt unit :=
  high <~ read_column "High" ;;
  low <~ read_column "Low" ;;
  close <~ read_column "Close" ;;
  a <~ lift (ta_atr ta high low close 14) ;;
  assign "atr" a.

Definition obv_stage (ta : pandas_ta) : Stmt unit :=
  close <~ read_column "Close" ;;
  volume <~ read_column "Volume" ;;
  o <~ lift (ta_obv ta close volume) ;;
  assign "obv" o.

(** The stages in the order of the block, each with the columns it
    assigns. *)
Definition stages (ta : pandas_ta) : list (list string * Stmt unit) :=
  [(["rsi"], rsi_stage ta);
   (["macd"; "macd_signal"; "macd_histogram"], macd_stage ta);
   (["sma_20"], sma_stage ta "Close" "sma_20" sma_short);
   (["sma_50"], sma_stage ta "Close" "sma_50" sma_medium);
   (["sma_200"], sma_stage ta "Close" "sma_200" sma_long);
   (["bb_upper"; "bb_middle"; "bb_lower"], bbands_stage ta);
   (["volume_sma_20"], sma_stage ta "Volume" "volume_sma_20" 20);
   (["stoch_k"; "stoch_d"], stoch_stage ta);
   (["atr"], atr_stage ta);
   (["obv"], obv_stage ta)].

(** Statements run one after the other; the first exception ends the
    run and leaves the frame as it was at that point. *)
Fixpoint run (statements : list (Stmt unit)) : Stmt unit :=
  match statements with
  | [] => sret tt
  | s :: rest => s ;;; run rest
  end.

(** The columns a list of stages assigns. *)
Definition columns_of (l : list (list string * Stmt unit)) : list string :=
  concat (map fst l).

(** [df'] has the rows of [df], equal in every column outside [cols]. *)
Definition untouched (cols : list string) (df df' : DataFrame) : Prop :=
  Forall2
    (fun r r' : Row => forall name, ~ In name cols -> dict_get name r' = dict_get name r)
    df df'.

(** A statement that changes no column outside [cols], however it ends. *)
Definition touches_only {A} (cols : list string) (m : Stmt A) : Prop :=
  forall df, untouched cols df (snd (m df)).

End Stages.

Module Rescale.

Definition Qsum (l : list Q) : Q := fold_right Qplus 0 l.

(** The sums of the aggregation over a list of (strength, weight) pairs. *)
Definition sum_strength_weight (c : list (Z * Q)) : Q :=
  Qsum (map (fun p => inject_Z (fst p) * snd p) c).

Definition sum_2_weight (c : list (Z * Q)) : Q :=
  Qsum (map (fun p => 2 * snd p) c).

Definition sum_weight (c : list (Z * Q)) : Q :=
  Qsum (map snd c).

(** The linear rescale both classifiers apply before rounding: the
    weighted strengths shifted by the largest attainable total and divided
    by twice that total. *)
Definition rescale (c : list (Z * Q)) : Q :=
  (sum_strength_weight c + sum_2_weight c) / (2 * sum_2_weight c) * 100.

(** The formula with the divisor as the specification words it,
    [2 * (sum of the weights)]. *)
Definition rescale_as_worded (c : list (Z * Q)) : Q :=
  (sum_strength_weight c + sum_2_weight c) / (2 * sum_weight c) * 100.

(** The (strength, weight) pair a weight-table entry contributes: none
    when the signals dict has no signal under that name. *)
Definition present_pair (signals : dict (option Signal)) (item : string * Q)
  : list (Z * Q) :=
  match dict_get (fst item) signals with
  | Some (Some s) => [(strength s, snd item)]
  | _ => []
  end.

(** The (strength, weight) pairs of the technical sub-signals that are
    present in a signals dict, in the order of the weight table. *)
Definition contributing (signals : dict (option Signal)) : list (Z * Q) :=
  flat_map (present_pair signals) TechnicalAnalyzer.weights.

(** The (strength, weight) pairs of a dict of fundamental signals. *)
Definition contributing_metrics (signals : dict Signal) : list (Z * Q) :=
  map (fun item : string * Signal =>
         (strength (snd item), FundamentalAnalyzer.weight_of (fst item)))
      signals.

Definition strength_in_range (s : Signal) : Prop :=
  (-2 <= strength s <= 2)%Z.

(** A pair the rescale is meant for: strength within [-2, 2], weight
    positive. *)
Definition pair_ok (p : Z * Q) : Prop := (-2 <= fst p <= 2)%Z /\ 0 < snd p.

End Rescale.

Module Ranking.

(** [a] may stand before [b] in a list ranked by overall score. *)
Definition descending (a b : ScoringEngine.StockResult) : Prop :=
  ScoringEngine.overall_score b <= ScoringEngine.overall_score a.

End Ranking.

Module Blank.

Local Open Scope string_scope.


End Blank.

(** ** Sample inputs *)

Module Samples.

Import TechnicalAnalyzer.
Local Open Scope string_scope.

(** A price bar: the five columns of the price history. *)
Definition bar (close volume : Q) : Row :=
  [("Open", Fin close); ("High", Fin close); ("Low", Fin close);
   ("Close", Fin close); ("Volume", Fin volume)].

(** The columns the pipeline derives, appended to a bar. *)
Definition with_indicators (r : Row) (rsi macd macd_signal sma : fl) : Row :=
  (r ++ [("rsi", rsi); ("macd", macd); ("macd_signal", macd_signal);
         ("sma_20", sma); ("sma_50", sma); ("sma_200", sma);
         ("bb_upper", NaN); ("bb_middle", NaN); ("bb_lower", NaN);
         ("volume_sma_20", NaN)])%list.

(** A bar whose derived columns exist but hold no value yet. *)
Definition blank_row (close : Q) : Row :=
  with_indicators (bar close 1000) NaN NaN NaN NaN.

(** RSI missing, MACD above its signal line, everything else blank. *)
Definition rsi_missing_row : Row :=
  with_indicators (bar 100 1000) NaN (Fin 1) (Fin 0) NaN.


(** Two bars of a series with a bullish MACD crossover on the last. *)
Definition crossover_frame : DataFrame :=
  [with_indicators (bar 99 1000) (Fin 45) (Fin (-0.5)) (Fin (-0.3)) (Fin 98);
   with_indicators (bar 100 1000) (Fin 25) (Fin 0.2) (Fin 0.1) (Fin 98)].

(** A stand-in for pandas_ta on short histories: a flat RSI, the price
    itself as every moving average, and no MACD, bands, oscillator, ATR
    or OBV. *)
Definition flat_ta : pandas_ta :=
  {| ta_rsi := fun close _ => Ok (Some (map (fun _ => Fin 50) close));
     ta_macd := fun _ _ _ _ => Ok None;
     ta_sma := fun values _ => Ok (Some values);
     ta_bbands := fun _ _ _ => Ok None;
     ta_stoch := fun _ _ _ => Ok None;
     ta_atr := fun _ _ _ _ => Ok None;
     ta_obv := fun _ _ => Ok None |}.

(** The same library with an RSI routine that raises. *)
Definition failing_rsi_ta : pandas_ta :=
  {| ta_rsi := fun _ _ => Raise (Exception "rsi failed");
     ta_macd := ta_macd flat_ta;
     ta_sma := ta_sma flat_ta;
     ta_bbands := ta_bbands flat_ta;
     ta_stoch := ta_stoch flat_ta;
     ta_atr := ta_atr flat_ta;
     ta_obv := ta_obv flat_ta |}.

(** ... and one whose MACD routine raises after RSI succeeded. *)
Definition failing_macd_ta : pandas_ta :=
  {| ta_rsi := ta_rsi flat_ta;
     ta_macd := fun _ _ _ _ => Raise (Exception "macd failed");
     ta_sma := ta_sma flat_ta;
     ta_bbands := ta_bbands flat_ta;
     ta_stoch := ta_stoch flat_ta;
     ta_atr := ta_atr flat_ta;
     ta_obv := ta_obv flat_ta |}.

(** ... and one whose 50-day moving average raises: RSI, MACD and the
    20-day average are computed before it. *)
Definition failing_sma_50_ta : pandas_ta :=
  {| ta_rsi := ta_rsi flat_ta;
     ta_macd := ta_macd flat_ta;
     ta_sma := fun values length =>
       if (length =? 50)%Z then Raise (Exception "sma failed") else Ok (Some values);
     ta_bbands := ta_bbands flat_ta;
     ta_stoch := ta_stoch flat_ta;
     ta_atr := ta_atr flat_ta;
     ta_obv := ta_obv flat_ta |}.

(** A market of three symbols: a cheap stock, an expensive one, and one
    whose price history arrives without a Close column. *)
Definition market : ScoringEngine.World :=
  {| ScoringEngine.ta := flat_ta;
     ScoringEngine.fetch_price_data := fun symbol =>
       if String.eqb symbol "BAD" then Some [[("Volume", Fin 1000)]]
       else Some [bar 100 1000];
     ScoringEngine.fetch_fundamental_data := fun symbol =>
       if String.eqb symbol "CHEAP" then Some [("pe_ratio", Some (Fin 10))]
       else if String.eqb symbol "DEAR" then Some [("pe_ratio", Some (Fin 40))]
       else Some [];
     ScoringEngine.today := "2024-01-02" |}.

(** A signals dict whose only entry is an oversold RSI. *)
Definition only_rsi : dict (option Signal) :=
  [("rsi_signal", Some (mkSignal bullish 2 [("value", PyNum (Fin 25))]))].

(** A mildly oversold RSI next to five neutral sub-signals, no
    stochastic signal. *)
Definition mild_rsi : dict (option Signal) :=
  [("rsi_signal", Some (mkSignal bullish 1 [("value", PyNum (Fin 35))]));
   ("macd_signal", Some (mkSignal neutral 0 []));
   ("ma_signal", Some (mkSignal neutral 0 []));
   ("bb_signal", Some (mkSignal neutral 0 []));
   ("volume_signal", Some (mkSignal neutral 0 []));
   ("trend_signal", Some (mkSignal neutral 0 []));
   ("stoch_signal", None)].

End Samples.

(** ** Further vocabulary and samples *)

Module Order.

(** Recommendations from worst to best. *)
Definition rank (r : ScoringEngine.Recommendation) : Z :=
  match r with
  | ScoringEngine.STRONG_SELL => 0
  | ScoringEngine.SELL => 1
  | ScoringEngine.HOLD => 2
  | ScoringEngine.BUY => 3
  | ScoringEngine.STRONG_BUY => 4
  end.

(** Under one name [signals'] has a signal exactly when [signals] has
    one, of at least the same strength. *)
Definition stronger_at (signals signals' : dict (option Signal)) (name : string) : Prop :=
  match dict_get name signals, dict_get name signals' with
  | Some (Some s), Some (Some s') => (strength s <= strength s')%Z
  | Some (Some _), _ | _, Some (Some _) => False
  | _, _ => True
  end.

(** The same under each of the seven names of the weight table. *)
Definition at_least_as_strong (signals signals' : dict (option Signal)) : Prop :=
  Forall (fun item : string * Q => stronger_at signals signals' (fst item))
         TechnicalAnalyzer.weights.

End Order.

Module Scored.

Import ScoringEngine.

(** The facts every result of [score_stock] satisfies, placeholder
    included. *)
Definition well_scored (r : StockResult) : Prop :=
  (0 <= technical_score r /\ technical_score r <= 100) /\
  (0 <= fundamental_score r /\ fundamental_score r <= 100) /\
  overall_score r == round2 (blend (technical_score r) (fundamental_score r)) /\
  recommendation r = _generate_recommendation (blend (technical_score r) (fundamental_score r)) /\
  (error r = None \/ recommendation r = HOLD).

End Scored.

Module Pipeline.

Local Open Scope string_scope.

(** The columns [calculate_all_indicators] may assign. *)
Definition derived_columns : list string :=
  ["rsi"; "macd"; "macd_signal"; "macd_histogram"; "sma_20"; "sma_50"; "sma_200";
   "bb_upper"; "bb_middle"; "bb_lower"; "volume_sma_20"; "stoch_k"; "stoch_d";
   "atr"; "obv"].

(** [df'] has the rows of [df] with every column outside the derived
    ones untouched and no column removed. *)
Definition same_prices (df df' : DataFrame) : Prop :=
  Forall2
    (fun r r' : Row =>
       (forall name, ~ In name derived_columns -> dict_get name r' = dict_get name r) /\
       (forall name, dict_mem name r = true -> dict_mem name r' = true))
    df df'.

(** A statement of the pipeline that keeps the price columns whatever
    frame it starts from and however it ends. *)
Definition keeps {A} (m : TechnicalAnalyzer.Stmt A) : Prop :=
  forall df, same_prices df (snd (m df)).

End Pipeline.

Module Metrics.

Local Open Scope string_scope.

(** The metrics [analyze_fundamentals] looks at. *)
Definition known_metrics : list string :=
  ["pe_ratio"; "profit_margin"; "debt_to_equity"; "revenue_growth";
   "return_on_equity"; "return_on_assets"; "earnings_growth"; "current_ratio";
   "operating_margin"].

(** Two metric maps that agree on every known metric. *)
Definition same_known_metrics (d1 d2 : dict (option fl)) : Prop :=
  forall key, In key known_metrics -> dict_get key d1 = dict_get key d2.

(** The metrics whose classifier rewards a higher value. *)
Definition higher_is_better : list string :=
  ["profit_margin"; "revenue_growth"; "return_on_equity"; "return_on_assets";
   "earnings_growth"; "current_ratio"; "operating_margin"].

(** [analyze_fundamentals] returns on [d], with score [x]. *)
Definition scores (d : dict (option fl)) (x : Q) : Prop :=
  exists a,
    FundamentalAnalyzer.analyze_fundamentals d = Ok a /\ FundamentalAnalyzer.score a = x.

(** Two signal dicts with the same keys in the same order, the second
    with strengths at least those of the first. *)
Definition signals_le (s1 s2 : dict Signal) : Prop :=
  Forall2 (fun a b : string * Signal =>
             fst a = fst b /\ (strength (snd a) <= strength (snd b))%Z) s1 s2.

(** Two readings of a metric, both missing or both there, the second
    classified at least as strong as the first. *)
Definition metric_le (analyze : option fl -> Signal) (x y : option (option fl)) : Prop :=
  match x, y with
  | Some v1, Some v2 => (strength (analyze v1) <= strength (analyze v2))%Z
  | None, None => True
  | _, _ => False
  end.

End Metrics.

Module MoreSamples.

Import TechnicalAnalyzer.
Local Open Scope string_scope.

(** A market whose fetcher finds no price history at all. *)
Definition silent_market : ScoringEngine.World :=
  {| ScoringEngine.ta := Samples.flat_ta;
     ScoringEngine.fetch_price_data := fun _ => None;
     ScoringEngine.fetch_fundamental_data := fun _ => None;
     ScoringEngine.today := "2024-01-02" |}.

(** A latest row in a clean uptrend: price above a rising stack of
    moving averages, inside the bands, on heavy volume. *)
Definition uptrend_row : Row :=
  [("Close", Fin 115); ("Volume", Fin 2000); ("rsi", Fin 55);
   ("sma_20", Fin 110); ("sma_50", Fin 100); ("sma_200", Fin 90);
   ("bb_upper", Fin 120); ("bb_middle", Fin 110); ("bb_lower", Fin 100);
   ("volume_sma_20", Fin 1000); ("stoch_k", Fin 85); ("stoch_d", Fin 80)].

(** Twenty-five bars with the close rising by one a day from 100. *)
Definition rising_frame : DataFrame :=
  map (fun i => Samples.blank_row (100 + inject_Z (Z.of_nat i))) (seq 0 25).

End MoreSamples.

(** * Properties *)

Import TechnicalAnalyzer.

Local Open Scope string_scope.

(** ** Comparisons and rounding *)

Lemma Qle_bool_spec (a b : Q) : BoolSpec (a <= b) (b < a) (Qle_bool a b).
Proof.
  destruct (Qle_bool a b) eqn:E; constructor.
  - now apply Qle_bool_iff.
  - apply Qnot_le_lt. intro H. apply Qle_bool_iff in H. congruence.
Qed.

Lemma Qlt_bool_spec (a b : Q) : BoolSpec (a < b) (b <= a) (Qlt_bool a b).
Proof.
  unfold Qlt_bool. destruct (Qle_bool_spec b a); constructor; assumption.
Qed.

Lemma Qlt_bool_irrefl (a : Q) : Qlt_bool a a = false.
Proof.
  destruct (Qlt_bool_spec a a) as [H|H]; [exfalso; lra | reflexivity].
Qed.

(** Total order on the floats that are not NaN. *)
Lemma fl_lt_not_le (a b : fl) :
  is_nan a = false -> is_nan b = false -> fl_lt a b = negb (fl_le b a).
Proof.
  destruct a, b; simpl; intros; try discriminate; reflexivity.
Qed.

Lemma fl_gt_le_false (a b : fl) : fl_le a b = true -> fl_gt a b = false.
Proof.
  unfold fl_gt. destruct a, b; simpl; intros H; try reflexivity; try discriminate.
  unfold Qlt_bool. now rewrite H.
Qed.

Lemma fl_lt_ge_false (a b : fl) : fl_ge a b = true -> fl_lt a b = false.
Proof.
  unfold fl_ge. destruct a, b; simpl; intros H; try reflexivity; try discriminate.
  unfold Qlt_bool. now rewrite H.
Qed.

Lemma round_half_even_bounds (x : Q) :
  (Qfloor x <= round_half_even x <= Qfloor x + 1)%Z.
Proof.
  unfold round_half_even.
  repeat match goal with |- context [if ?c then _ else _] => destruct c end; lia.
Qed.

Lemma round_half_even_inject (z : Z) : round_half_even (inject_Z z) = z.
Proof.
  unfold round_half_even. rewrite Qfloor_Z.
  destruct (Qlt_bool_spec (inject_Z z - inject_Z z) (1 # 2)) as [H|H].
  - reflexivity.
  - exfalso. lra.
Qed.

Lemma round_half_even_range (x : Q) (lo hi : Z) :
  inject_Z lo <= x -> x <= inject_Z hi ->
  (lo <= round_half_even x <= hi)%Z.
Proof.
  intros Hlo Hhi.
  pose proof (round_half_even_bounds x) as [B1 B2].
  assert (Hf : (lo <= Qfloor x)%Z).
  { rewrite <- (Qfloor_Z lo). now apply Qfloor_resp_le. }
  split; [lia|].
  destruct (Z.eq_dec (Qfloor x) hi) as [E|NE].
  - (* x is the integer [hi] itself *)
    assert (Hx : x == inject_Z hi).
    { pose proof (Qfloor_le x) as F. rewrite E in F. lra. }
    unfold round_half_even. rewrite E.
    destruct (Qlt_bool_spec (x - inject_Z hi) (1 # 2)) as [H|H]; [lia|].
    exfalso. lra.
  - assert (Hf2 : (Qfloor x <= hi)%Z).
    { rewrite <- (Qfloor_Z hi). now apply Qfloor_resp_le. }
    lia.
Qed.

(** Rounding to two decimals keeps a score inside [0, 100]. *)
Lemma round2_range (x : Q) : 0 <= x -> x <= 100 -> 0 <= round2 x /\ round2 x <= 100.
Proof.
  intros H0 H100. unfold round2.
  destruct (round_half_even_range (x * 100) 0 10000) as [L U].
  - change (inject_Z 0) with 0. lra.
  - change (inject_Z 10000) with 10000. lra.
  - assert (A : 0 <= inject_Z (round_half_even (x * 100))).
    { change 0 with (inject_Z 0). rewrite <- Zle_Qle. exact L. }
    assert (B : inject_Z (round_half_even (x * 100)) <= 10000).
    { change 10000 with (inject_Z 10000). rewrite <- Zle_Qle. exact U. }
    split.
    + apply Qle_shift_div_l; lra.
    + apply Qle_shift_div_r; lra.
Qed.

Lemma round2_50 : round2 50 == 50.
Proof. reflexivity. Qed.

(** ** Recommendation bands *)

Import ScoringEngine.

(** C4.  For every score [s] the recommendation is STRONG BUY iff
    [80 <= s], BUY iff [65 <= s < 80], HOLD iff [45 <= s < 65], SELL iff
    [30 <= s < 45] and STRONG SELL iff [s < 30]; a score of exactly 80
    gives STRONG BUY and 79.99 gives BUY. *)
Theorem recommendation_bands :
  (forall s : Q,
      (_generate_recommendation s = STRONG_BUY <-> 80 <= s) /\
      (_generate_recommendation s = BUY <-> 65 <= s /\ s < 80) /\
      (_generate_recommendation s = HOLD <-> 45 <= s /\ s < 65) /\
      (_generate_recommendation s = SELL <-> 30 <= s /\ s < 45) /\
      (_generate_recommendation s = STRONG_SELL <-> s < 30)) /\
  _generate_recommendation 80 = STRONG_BUY /\
  _generate_recommendation 79.99 = BUY.
Proof.
  split; [|split; reflexivity].
  intros s. unfold _generate_recommendation.
  destruct (Qle_bool_spec 80 s); [|destruct (Qle_bool_spec 65 s);
    [|destruct (Qle_bool_spec 45 s); [|destruct (Qle_bool_spec 30 s)]]];
    repeat split; intros; try discriminate; try reflexivity; try lra;
    match goal with H : _ /\ _ |- _ => destruct H; exfalso; lra end.
Qed.

(** ** The MACD classifier *)

Lemma fl_lt_asym (a b : fl) : fl_lt a b = true -> fl_lt b a = false.
Proof.
  destruct a, b; simpl; intros H; try reflexivity; try discriminate.
  destruct (Qlt_bool_spec q q0); [|discriminate].
  destruct (Qlt_bool_spec q0 q); [exfalso; lra | reflexivity].
Qed.

Lemma get_default_present (r : Row) (k : string) (v d : fl) :
  dict_get k r = Some v -> get_default r k d = v.
Proof. unfold get_default. now intros ->. Qed.

(** C6.  With the MACD and signal values of both rows present, the
    classifier returns strength 2 iff previous MACD <= previous signal and
    latest MACD > latest signal, strength -2 iff previous MACD >= previous
    signal and latest MACD < latest signal, strength 1 iff latest MACD >
    latest signal without the bullish crossover, and -1 in every other
    case; strength 2 and -2 come with the direction and the crossover mark
    of that side, and 1 and -1 with no crossover.  Previous
    (macd = -0.5, signal = -0.3), latest (macd = 0.2, signal = 0.1) is a
    bullish crossover of strength 2. *)
Theorem macd_crossover_rule :
  (forall (latest previous : Row) (m s pm ps : fl),
      dict_get "macd" latest = Some m ->
      dict_get "macd_signal" latest = Some s ->
      dict_get "macd" previous = Some pm ->
      dict_get "macd_signal" previous = Some ps ->
      is_nan m = false -> is_nan s = false ->
      let r := _analyze_macd latest previous in
      let bullish_cross := fl_le pm ps = true /\ fl_gt m s = true in
      let bearish_cross := fl_ge pm ps = true /\ fl_lt m s = true in
      (strength r = 2%Z <-> bullish_cross) /\
      (strength r = (-2)%Z <-> bearish_cross) /\
      (strength r = 1%Z <-> fl_gt m s = true /\ ~ bullish_cross) /\
      (strength r = (-1)%Z <-> fl_gt m s = false /\ ~ bearish_cross) /\
      (bullish_cross -> r = mkSignal bullish 2 [("crossover", PyStr "bullish")]) /\
      (bearish_cross -> r = mkSignal bearish (-2) [("crossover", PyStr "bearish")]) /\
      (strength r = 1%Z -> r = mkSignal bullish 1 [("crossover", PyNone)]) /\
      (strength r = (-1)%Z -> r = mkSignal bearish (-1) [("crossover", PyNone)])) /\
  _analyze_macd [("macd", Fin 0.2); ("macd_signal", Fin 0.1)]
                [("macd", Fin (-0.5)); ("macd_signal", Fin (-0.3))]
  = mkSignal bullish 2 [("crossover", PyStr "bullish")].
Proof.
  split; [|reflexivity].
  intros latest previous m s pm ps Hm Hs Hpm Hps Nm Ns r bullish_cross bearish_cross.
  subst r bullish_cross bearish_cross.
  unfold _analyze_macd. rewrite Hm, Hs, Nm, Ns. simpl orb. cbv iota.
  rewrite (get_default_present _ _ _ _ Hpm), (get_default_present _ _ _ _ Hps).
  unfold fl_gt, fl_ge.
  destruct (fl_lt s m) eqn:Egt.
  - (* latest MACD above the signal line *)
    rewrite (fl_lt_asym _ _ Egt).
    destruct (fl_le pm ps) eqn:E1; rewrite ?andb_false_r; simpl;
      repeat split; intros; try discriminate; try reflexivity; try tauto;
      try (match goal with H : _ /\ _ |- _ => destruct H; discriminate end);
      try (intros [? ?]; discriminate).
  - destruct (fl_le ps pm) eqn:E3; destruct (fl_lt m s) eqn:E4;
      rewrite ?andb_false_r; simpl;
      repeat split; intros; try discriminate; try reflexivity; try tauto;
      try (match goal with H : _ /\ _ |- _ => destruct H; discriminate end);
      try (intros [? ?]; discriminate).
Qed.

Lemma macd_crossover_rule_witness :
  dict_get "macd" (iloc_last Samples.crossover_frame) = Some (Fin 0.2) /\
  dict_get "macd_signal" (iloc_last Samples.crossover_frame) = Some (Fin 0.1) /\
  dict_get "macd" (iloc_last2 Samples.crossover_frame) = Some (Fin (-0.5)) /\
  dict_get "macd_signal" (iloc_last2 Samples.crossover_frame) = Some (Fin (-0.3)) /\
  _analyze_macd (iloc_last Samples.crossover_frame) (iloc_last2 Samples.crossover_frame)
  = mkSignal bullish 2 [("crossover", PyStr "bullish")].
Proof.
  do 4 (split; [reflexivity|]).
  destruct (proj1 macd_crossover_rule
              (iloc_last Samples.crossover_frame) (iloc_last2 Samples.crossover_frame)
              (Fin 0.2) (Fin 0.1) (Fin (-0.5)) (Fin (-0.3))
              eq_refl eq_refl eq_refl eq_refl eq_refl eq_refl)
    as (_ & _ & _ & _ & Hbull & _).
  apply Hbull. split; reflexivity.
Defined.

(** C10.  In a series of exactly one row the previous row the classifier
    looks at is the latest row itself, and the MACD signal computed from
    the pair has strength -1, 0 or 1 and no bullish or bearish crossover
    mark; this is the MACD signal [generate_technical_signals] reports. *)
Theorem single_row_no_crossover (row : Row) :
  let df := [row] in
  let latest := iloc_last df in
  let previous := if (1 <? length df)%nat then iloc_last2 df else latest in
  let r := _analyze_macd latest previous in
  previous = latest /\
  (strength r = (-1)%Z \/ strength r = 0%Z \/ strength r = 1%Z) /\
  is_str (dict_get "crossover" (extra r)) "bullish" = false /\
  is_str (dict_get "crossover" (extra r)) "bearish" = false /\
  (forall a, generate_technical_signals (Some df) = Ok (Analysed a) ->
             dict_get "macd_signal" (signals a) = Some (Some r)).
Proof.
  cbv zeta. simpl length. change (1 <? 1)%nat with false. cbv iota.
  unfold iloc_last. simpl last.
  split; [reflexivity|].
  assert (Hshape :
    _analyze_macd row row = mkSignal neutral 0 [] \/
    _analyze_macd row row = mkSignal bullish 1 [("crossover", PyNone)] \/
    _analyze_macd row row = mkSignal bearish (-1) [("crossover", PyNone)]).
  { unfold _analyze_macd.
    destruct (dict_get "macd" row) as [m|] eqn:Hm; [|now left].
    destruct (dict_get "macd_signal" row) as [s|] eqn:Hs; [|now left].
    destruct (is_nan m || is_nan s); [now left|].
    rewrite (get_default_present _ _ _ _ Hm), (get_default_present _ _ _ _ Hs).
    destruct (fl_le m s) eqn:Ele.
    - rewrite (fl_gt_le_false _ _ Ele). simpl.
      destruct (fl_ge m s && fl_lt m s) eqn:E.
      + apply andb_prop in E. destruct E as [E1 E2].
        rewrite (fl_lt_ge_false _ _ E1) in E2. discriminate.
      + now right; right.
    - simpl. destruct (fl_ge m s && fl_lt m s) eqn:E.
      + apply andb_prop in E. destruct E as [E1 E2].
        rewrite (fl_lt_ge_false _ _ E1) in E2. discriminate.
      + destruct (fl_gt m s); [now right; left | now right; right]. }
  split; [|split; [|split]].
  - destruct Hshape as [-> | [-> | ->]]; simpl; auto.
  - destruct Hshape as [-> | [-> | ->]]; reflexivity.
  - destruct Hshape as [-> | [-> | ->]]; reflexivity.
  - intros a H. unfold generate_technical_signals in H.
    destruct (df_empty [row]); [discriminate|].
    unfold iloc_last in H. simpl last in H. simpl length in H.
    change (1 <? 1)%nat with false in H. cbv iota in H.
    unfold bind in H.
    repeat match type of H with
           | match ?x with Ok _ => _ | Raise _ => _ end = _ =>
               destruct x; [|discriminate]
           end.
    injection H as <-. reflexivity.
Qed.

Lemma single_row_no_crossover_witness :
  exists a,
    generate_technical_signals (Some [Samples.rsi_missing_row]) = Ok (Analysed a) /\
    dict_get "macd_signal" (signals a)
    = Some (Some (_analyze_macd Samples.rsi_missing_row Samples.rsi_missing_row)) /\
    strength (_analyze_macd Samples.rsi_missing_row Samples.rsi_missing_row) = 1%Z.
Proof.
  eexists. split; [reflexivity|]. split; [|reflexivity].
  apply (proj2 (proj2 (proj2 (proj2 (single_row_no_crossover Samples.rsi_missing_row))))).
  reflexivity.
Defined.

(** ** The weighted rescale *)

Import Rescale.

Lemma round_half_even_comp (x y : Q) : x == y -> round_half_even x = round_half_even y.
Proof.
  intros E. unfold round_half_even.
  rewrite (Qfloor_comp _ _ E).
  set (f := Qfloor y).
  destruct (Qlt_bool_spec (x - inject_Z f) (1 # 2)),
           (Qlt_bool_spec (y - inject_Z f) (1 # 2)); try reflexivity; try (exfalso; lra).
  destruct (Qlt_bool_spec (1 # 2) (x - inject_Z f)),
           (Qlt_bool_spec (1 # 2) (y - inject_Z f)); try reflexivity; exfalso; lra.
Qed.

Lemma round2_comp (x y : Q) : x == y -> round2 x == round2 y.
Proof.
  intros E. unfold round2.
  rewrite (round_half_even_comp (x * 100) (y * 100)); [reflexivity|].
  now rewrite E.
Qed.

Lemma round2_0 : round2 0 == 0.
Proof. reflexivity. Qed.

Lemma round2_100 : round2 100 == 100.
Proof. reflexivity. Qed.

Lemma sum_2_weight_pos (c : list (Z * Q)) :
  c <> [] -> Forall (fun p => 0 < snd p) c -> 0 < sum_2_weight c.
Proof.
  intros Hne H. destruct c as [|p c]; [congruence|].
  clear Hne. revert p H. induction c as [|q c IH]; intros p H.
  - inversion H; subst. unfold sum_2_weight, Qsum. simpl. lra.
  - inversion H as [|? ? Hp Hrest]; subst.
    specialize (IH q Hrest).
    unfold sum_2_weight, Qsum in *. simpl in *. lra.
Qed.

Lemma sum_strength_weight_bound (c : list (Z * Q)) :
  Forall pair_ok c ->
  - sum_2_weight c <= sum_strength_weight c /\ sum_strength_weight c <= sum_2_weight c.
Proof.
  induction 1 as [|p c [[Hlo Hhi] Hw] _ IH].
  - unfold sum_2_weight, sum_strength_weight, Qsum. simpl. lra.
  - unfold sum_2_weight, sum_strength_weight, Qsum in *. simpl in *.
    assert (A : -2 <= inject_Z (fst p)).
    { change (-2) with (inject_Z (-2)). now rewrite <- Zle_Qle. }
    assert (B : inject_Z (fst p) <= 2).
    { change 2 with (inject_Z 2). now rewrite <- Zle_Qle. }
    nra.
Qed.

(** The rescale of a non-empty list of in-range strengths with positive
    weights lies in [0, 100]. *)
Lemma rescale_range (c : list (Z * Q)) :
  c <> [] -> Forall pair_ok c -> 0 <= rescale c /\ rescale c <= 100.
Proof.
  intros Hne H.
  assert (Hpos : 0 < sum_2_weight c).
  { apply sum_2_weight_pos; [assumption|].
    eapply Forall_impl; [|exact H]. now intros p [_ ?]. }
  destruct (sum_strength_weight_bound c H) as [L U].
  unfold rescale.
  set (t := sum_strength_weight c) in *. set (m := sum_2_weight c) in *.
  assert (D : 0 < 2 * m) by lra.
  split.
  - apply Qmult_le_0_compat; [|lra].
    apply Qle_shift_div_l; lra.
  - assert (Q1 : (t + m) / (2 * m) <= 1).
    { apply Qle_shift_div_r; lra. }
    nra.
Qed.

Lemma rescale_all_minus_2 (c : list (Z * Q)) :
  Forall (fun p => fst p = (-2)%Z) c -> rescale c == 0.
Proof.
  intros H.
  assert (E : sum_strength_weight c + sum_2_weight c == 0).
  { induction H as [|p c Hp _ IH].
    - reflexivity.
    - unfold sum_2_weight, sum_strength_weight, Qsum in *. simpl in *.
      rewrite Hp. change (inject_Z (-2)) with (-2). lra. }
  unfold rescale. rewrite E. unfold Qdiv. lra.
Qed.

Lemma rescale_all_plus_2 (c : list (Z * Q)) :
  c <> [] -> Forall (fun p => 0 < snd p) c ->
  Forall (fun p => fst p = 2%Z) c -> rescale c == 100.
Proof.
  intros Hne Hw H.
  pose proof (sum_2_weight_pos c Hne Hw) as Hpos.
  assert (E : sum_strength_weight c == sum_2_weight c).
  { clear Hne Hw Hpos. induction H as [|p c Hp _ IH].
    - reflexivity.
    - unfold sum_2_weight, sum_strength_weight, Qsum in *. simpl in *.
      rewrite Hp. change (inject_Z 2) with 2. lra. }
  unfold rescale. rewrite E. field. lra.
Qed.

(** ** The technical score *)

Lemma technical_fold (signals : dict (option Signal)) (ws : dict Q) :
  forall t m,
    fst (fold_left (TechnicalAnalyzer.score_step signals) ws (t, m))
      == t + sum_strength_weight (flat_map (present_pair signals) ws) /\
    snd (fold_left (TechnicalAnalyzer.score_step signals) ws (t, m))
      == m + sum_2_weight (flat_map (present_pair signals) ws).
Proof.
  induction ws as [|[name wt] ws IH]; intros t m.
  - unfold sum_strength_weight, sum_2_weight, Qsum. simpl. split; lra.
  - simpl fold_left. simpl flat_map.
    unfold present_pair at 1 3.
    change (fst (name, wt)) with name. change (snd (name, wt)) with wt.
    destruct (dict_get name signals) as [[s|]|]; simpl app.
    + destruct (IH (t + inject_Z (strength s) * wt) (m + 2 * wt)) as [E1 E2].
      rewrite E1, E2.
      unfold sum_strength_weight, sum_2_weight, Qsum. simpl. split; lra.
    + apply IH.
    + apply IH.
Qed.

Lemma contributing_weights_pos (signals : dict (option Signal)) :
  Forall (fun p => 0 < snd p) (contributing signals).
Proof.
  apply Forall_forall. intros [s wt] Hin.
  unfold contributing in Hin. apply in_flat_map in Hin.
  destruct Hin as [[name wt'] [Hw Hin]]. simpl in Hin.
  assert (Hpos : 0 < wt').
  { unfold TechnicalAnalyzer.weights in Hw. simpl in Hw.
    repeat (destruct Hw as [Hw|Hw]; [injection Hw as <- <-; reflexivity|]).
    contradiction. }
  unfold present_pair in Hin. simpl fst in Hin. simpl snd in Hin.
  destruct (dict_get name signals) as [[s'|]|]; simpl in Hin; try contradiction.
  destruct Hin as [Hin|[]]. injection Hin as <- <-. exact Hpos.
Qed.

(** What [_calculate_technical_score] computes: the rounded rescale of
    the sub-signals that are present, and 50 when there is none. *)
Lemma technical_score_eq (signals : dict (option Signal)) :
  _calculate_technical_score signals ==
  round2 (match contributing signals with
          | [] => 50
          | _ => rescale (contributing signals)
          end).
Proof.
  unfold _calculate_technical_score.
  destruct (technical_fold signals TechnicalAnalyzer.weights 0 0) as [E1 E2].
  fold (contributing signals) in E1, E2.
  destruct (fold_left (TechnicalAnalyzer.score_step signals) TechnicalAnalyzer.weights (0, 0))
    as [t m].
  simpl fst in E1. simpl snd in E2.
  destruct (contributing signals) as [|p c] eqn:Hc.
  - assert (Hm : m == 0).
    { rewrite E2. unfold sum_2_weight, Qsum. simpl. lra. }
    destruct (Qlt_bool_spec 0 m) as [H|H]; [exfalso; lra | reflexivity].
  - assert (Hpos : 0 < sum_2_weight (p :: c)).
    { apply sum_2_weight_pos; [discriminate|].
      rewrite <- Hc. apply contributing_weights_pos. }
    destruct (Qlt_bool_spec 0 m) as [H|H]; [|exfalso; lra].
    apply round2_comp. unfold rescale. rewrite E1, E2.
    setoid_replace (0 + sum_strength_weight (p :: c)) with (sum_strength_weight (p :: c)) by lra.
    setoid_replace (0 + sum_2_weight (p :: c)) with (sum_2_weight (p :: c)) by lra.
    reflexivity.
Qed.

(** C1, as amended.  When at least one sub-signal contributes, the
    technical score is ((sum of strength*weight + sum of 2*weight) /
    (2 * sum of 2*weight)) * 100 rounded to two decimals, with the fixed
    weights RSI 2, MACD 2.5, MA 2, BB 1.5, Volume 1, Trend 2,
    Stochastic 1; it is exactly 0 when every contributing strength is -2
    and exactly 100 when every contributing strength is +2. *)
Theorem technical_score_rescale (signals : dict (option Signal)) :
  contributing signals <> [] ->
  TechnicalAnalyzer.weights =
    [("rsi_signal", 2); ("macd_signal", 2.5); ("ma_signal", 2); ("bb_signal", 1.5);
     ("volume_signal", 1); ("trend_signal", 2); ("stoch_signal", 1)] /\
  _calculate_technical_score signals == round2 (rescale (contributing signals)) /\
  (Forall (fun p => fst p = (-2)%Z) (contributing signals) ->
   _calculate_technical_score signals == 0) /\
  (Forall (fun p => fst p = 2%Z) (contributing signals) ->
   _calculate_technical_score signals == 100).
Proof.
  intros Hne. split; [reflexivity|].
  assert (E : _calculate_technical_score signals == round2 (rescale (contributing signals))).
  { rewrite technical_score_eq.
    destruct (contributing signals); [congruence | reflexivity]. }
  split; [exact E|]. split; intros H; rewrite E.
  - rewrite (round2_comp _ 0); [apply round2_0|].
    now apply rescale_all_minus_2.
  - rewrite (round2_comp _ 100); [apply round2_100|].
    apply rescale_all_plus_2; [assumption | apply contributing_weights_pos | assumption].
Qed.

Lemma dict_get_In {V} (k : string) (d : dict V) (v : V) :
  dict_get k d = Some v -> In (k, v) d.
Proof.
  induction d as [|[k' v'] d IH]; simpl; [discriminate|].
  destruct (String.eqb_spec k k') as [->|_].
  - intros [= ->]. now left.
  - intros H. right. now apply IH.
Qed.

Lemma contributing_ok (signals : dict (option Signal)) :
  (forall name s, dict_get name signals = Some (Some s) -> strength_in_range s) ->
  Forall pair_ok (contributing signals).
Proof.
  intros Hs.
  pose proof (contributing_weights_pos signals) as Hw.
  rewrite Forall_forall in *. intros [z wt] Hin. split; [|exact (Hw _ Hin)].
  unfold contributing in Hin. apply in_flat_map in Hin.
  destruct Hin as [[name wt'] [_ Hin]]. unfold present_pair in Hin. simpl fst in Hin.
  destruct (dict_get name signals) as [[s|]|] eqn:E; simpl in Hin; try contradiction.
  destruct Hin as [Hin|[]]. injection Hin as <- <-. simpl. exact (Hs _ _ E).
Qed.

(** The technical score of in-range signals lies in [0, 100]. *)
Lemma technical_score_range (signals : dict (option Signal)) :
  (forall name s, dict_get name signals = Some (Some s) -> strength_in_range s) ->
  0 <= _calculate_technical_score signals /\ _calculate_technical_score signals <= 100.
Proof.
  intros Hs. rewrite technical_score_eq.
  pose proof (contributing_ok signals Hs) as Hok.
  destruct (contributing signals) as [|p c] eqn:Hc.
  - apply round2_range; lra.
  - apply round2_range; apply rescale_range; try discriminate; assumption.
Qed.

(** *** Strengths of the technical sub-signals *)

Ltac branches :=
  repeat match goal with
         | |- context [if ?c then _ else _] => destruct c
         | |- context [match ?x with _ => _ end] => destruct x
         end.

Ltac in_range := unfold strength_in_range; simpl; lia.

Lemma _analyze_rsi_range (rsi : fl) : strength_in_range (_analyze_rsi rsi).
Proof. unfold _analyze_rsi. branches; in_range. Qed.

Lemma _analyze_macd_range (latest previous : Row) :
  strength_in_range (_analyze_macd latest previous).
Proof. unfold _analyze_macd. branches; in_range. Qed.

Lemma _analyze_stochastic_range (latest : Row) :
  strength_in_range (_analyze_stochastic latest).
Proof. unfold _analyze_stochastic. branches; in_range. Qed.

Ltac ok_branches H :=
  unfold bind in H;
  repeat match type of H with
         | context [match ?x with _ => _ end] => destruct x; try discriminate H
         | context [if ?c then _ else _] => destruct c; try discriminate H
         end;
  injection H as <-.

Lemma _analyze_moving_averages_range (latest : Row) (s : Signal) :
  _analyze_moving_averages latest = Ok s -> strength_in_range s.
Proof.
  unfold _analyze_moving_averages, bind. intros H.
  destruct (getitem latest "Close"); [|discriminate].
  destruct (getitem latest "sma_20"); [|discriminate].
  destruct (getitem latest "sma_50"); [|discriminate].
  destruct (getitem latest "sma_200"); [|discriminate].
  injection H as <-. branches; in_range.
Qed.

Lemma _analyze_bollinger_bands_range (latest : Row) (s : Signal) :
  _analyze_bollinger_bands latest = Ok s -> strength_in_range s.
Proof.
  unfold _analyze_bollinger_bands. intros H. ok_branches H; in_range.
Qed.

Lemma _analyze_volume_range (latest : Row) (s : Signal) :
  _analyze_volume latest = Ok s -> strength_in_range s.
Proof.
  unfold _analyze_volume. intros H. ok_branches H; in_range.
Qed.

Lemma _analyze_trend_range (df : DataFrame) (periods : nat) (s : Signal) :
  _analyze_trend df periods = Ok s -> strength_in_range s.
Proof.
  unfold _analyze_trend, bind. intros H.
  destruct (length df <? periods)%nat.
  - injection H as <-. in_range.
  - destruct (column "Close" (tail periods df)) as [[|first rest]|]; try discriminate.
    injection H as <-. branches; in_range.
Qed.

(** Shape of a successful run of [generate_technical_signals]. *)
Lemma generate_technical_signals_ok (df : option DataFrame) (a : Analysis) :
  generate_technical_signals df = Ok (Analysed a) ->
  exists d rsi (ma bb vol tr : Signal),
    df = Some d /\ df_empty d = false /\
    getitem (iloc_last d) "rsi" = Ok rsi /\
    _analyze_moving_averages (iloc_last d) = Ok ma /\
    _analyze_bollinger_bands (iloc_last d) = Ok bb /\
    _analyze_volume (iloc_last d) = Ok vol /\
    _analyze_trend d 20 = Ok tr /\
    signals a =
      [("rsi_signal", Some (_analyze_rsi rsi));
       ("macd_signal",
        Some (_analyze_macd (iloc_last d)
                (if (1 <? length d)%nat then iloc_last2 d else iloc_last d)));
       ("ma_signal", Some ma);
       ("bb_signal", Some bb);
       ("volume_signal", Some vol);
       ("trend_signal", Some tr);
       ("stoch_signal",
        if dict_mem "stoch_k" (iloc_last d)
        then Some (_analyze_stochastic (iloc_last d)) else None)] /\
    score a = _calculate_technical_score (signals a).
Proof.
  unfold generate_technical_signals. intros H.
  destruct df as [d|]; [|discriminate].
  destruct (df_empty d) eqn:Hempty; [discriminate|].
  unfold bind in H.
  destruct (getitem (iloc_last d) "rsi") as [rsi|] eqn:Hrsi; [|discriminate].
  destruct (_analyze_moving_averages (iloc_last d)) as [ma|] eqn:Hma; [|discriminate].
  destruct (_analyze_bollinger_bands (iloc_last d)) as [bb|] eqn:Hbb; [|discriminate].
  destruct (_analyze_volume (iloc_last d)) as [vol|] eqn:Hvol; [|discriminate].
  destruct (_analyze_trend d 20) as [tr|] eqn:Htr; [|discriminate].
  repeat match type of H with
         | match ?x with Ok _ => _ | Raise _ => _ end = _ =>
             destruct x; [|discriminate]
         end.
  injection H as <-. simpl.
  exists d, rsi, ma, bb, vol, tr. repeat split; first [assumption | reflexivity].
Qed.

Lemma generated_signals_in_range (df : option DataFrame) (a : Analysis) :
  generate_technical_signals df = Ok (Analysed a) ->
  forall name s, In (name, Some s) (signals a) -> strength_in_range s.
Proof.
  intros H name s Hin.
  destruct (generate_technical_signals_ok df a H)
    as (d & rsi & ma & bb & vol & tr & _ & _ & _ & Hma & Hbb & Hvol & Htr & Hsig & _).
  rewrite Hsig in Hin. simpl in Hin.
  destruct Hin as [E|[E|[E|[E|[E|[E|[E|[]]]]]]]]; injection E as _ E.
  - subst s. apply _analyze_rsi_range.
  - subst s. apply _analyze_macd_range.
  - subst s. eapply _analyze_moving_averages_range; eassumption.
  - subst s. eapply _analyze_bollinger_bands_range; eassumption.
  - subst s. eapply _analyze_volume_range; eassumption.
  - subst s. eapply _analyze_trend_range; eassumption.
  - destruct (dict_mem "stoch_k" (iloc_last d)); [|discriminate].
    injection E as <-. apply _analyze_stochastic_range.
Qed.

(** ** The fundamental score *)

Import FundamentalAnalyzer.

Lemma weight_of_pos (name : string) : 0 < weight_of name.
Proof.
  unfold weight_of. destruct (dict_get name benchmarks) as [b|] eqn:E; [|reflexivity].
  apply dict_get_In in E. unfold benchmarks in E. simpl in E.
  repeat (destruct E as [E|E]; [injection E as _ <-; reflexivity|]).
  contradiction.
Qed.

Lemma fundamental_fold (signals : dict Signal) :
  forall t m,
    fst (fold_left FundamentalAnalyzer.score_step signals (t, m))
      == t + sum_strength_weight (contributing_metrics signals) /\
    snd (fold_left FundamentalAnalyzer.score_step signals (t, m))
      == m + sum_2_weight (contributing_metrics signals).
Proof.
  induction signals as [|[name s] signals IH]; intros t m.
  - unfold sum_strength_weight, sum_2_weight, Qsum. simpl. split; lra.
  - simpl fold_left.
    destruct (IH (t + inject_Z (strength s) * weight_of name) (m + 2 * weight_of name))
      as [E1 E2].
    rewrite E1, E2.
    unfold contributing_metrics, sum_strength_weight, sum_2_weight, Qsum. simpl.
    split; lra.
Qed.

Lemma contributing_metrics_ok (signals : dict Signal) :
  Forall (fun item => strength_in_range (snd item)) signals ->
  Forall pair_ok (contributing_metrics signals).
Proof.
  intros H. unfold contributing_metrics. apply Forall_map.
  eapply Forall_impl; [|exact H].
  intros [name s] Hs. split; [exact Hs | apply weight_of_pos].
Qed.

(** What [_calculate_fundamental_score] computes. *)
Lemma fundamental_score_eq (signals : dict Signal) :
  _calculate_fundamental_score signals ==
  match signals with
  | [] => 50
  | _ => round2 (rescale (contributing_metrics signals))
  end.
Proof.
  destruct signals as [|item signals]; [reflexivity|].
  unfold _calculate_fundamental_score.
  destruct (fundamental_fold (item :: signals) 0 0) as [E1 E2].
  destruct (fold_left FundamentalAnalyzer.score_step (item :: signals) (0, 0)) as [t m].
  simpl fst in E1. simpl snd in E2.
  assert (Hpos : 0 < sum_2_weight (contributing_metrics (item :: signals))).
  { apply sum_2_weight_pos; [discriminate|].
    unfold contributing_metrics. apply Forall_map, Forall_forall.
    intros [name s] _. apply weight_of_pos. }
  destruct (Qlt_bool_spec 0 m) as [H|H]; [|exfalso; lra].
  apply round2_comp. unfold rescale. rewrite E1, E2.
  setoid_replace (0 + sum_strength_weight (contributing_metrics (item :: signals)))
    with (sum_strength_weight (contributing_metrics (item :: signals))) by lra.
  setoid_replace (0 + sum_2_weight (contributing_metrics (item :: signals)))
    with (sum_2_weight (contributing_metrics (item :: signals))) by lra.
  reflexivity.
Qed.

Lemma fundamental_score_range (signals : dict Signal) :
  Forall (fun item => strength_in_range (snd item)) signals ->
  0 <= _calculate_fundamental_score signals /\ _calculate_fundamental_score signals <= 100.
Proof.
  intros H. rewrite fundamental_score_eq.
  destruct signals as [|item signals]; [lra|].
  apply round2_range; apply rescale_range; try discriminate;
    now apply contributing_metrics_ok.
Qed.

(** *** Strengths of the fundamental signals *)

Lemma _analyze_pe_ratio_range v : strength_in_range (_analyze_pe_ratio v).
Proof. unfold _analyze_pe_ratio. branches; in_range. Qed.

Lemma _analyze_profit_margin_range v : strength_in_range (_analyze_profit_margin v).
Proof. unfold _analyze_profit_margin. branches; in_range. Qed.

Lemma _analyze_debt_to_equity_range v : strength_in_range (_analyze_debt_to_equity v).
Proof. unfold _analyze_debt_to_equity. branches; in_range. Qed.

Lemma _analyze_growth_metric_range v name :
  strength_in_range (_analyze_growth_metric v name).
Proof.
  unfold _analyze_growth_metric. destruct v; [|in_range].
  destruct (benchmark_or name 0.15 0.05). branches; in_range.
Qed.

Lemma _analyze_profitability_metric_range v name :
  strength_in_range (_analyze_profitability_metric v name).
Proof.
  unfold _analyze_profitability_metric. destruct v; [|in_range].
  destruct (benchmark_or name 0.15 0.08). branches; in_range.
Qed.

Lemma _analyze_current_ratio_range v : strength_in_range (_analyze_current_ratio v).
Proof. unfold _analyze_current_ratio. branches; in_range. Qed.

Lemma dict_set_Forall {V} (P : string * V -> Prop) (k : string) (v : V) (d : dict V) :
  P (k, v) -> Forall P d -> Forall P (dict_set k v d).
Proof.
  intros Hv. induction 1 as [|[k' v'] d Hp Hd IH]; simpl.
  - now constructor.
  - destruct (String.eqb k k'); constructor; assumption.
Qed.

Lemma add_signal_in_range data key analyze signals :
  (forall v, strength_in_range (analyze v)) ->
  Forall (fun item => strength_in_range (snd item)) signals ->
  Forall (fun item => strength_in_range (snd item)) (add_signal data key analyze signals).
Proof.
  intros Ha Hs. unfold add_signal.
  destruct (dict_get key data); [|assumption].
  apply dict_set_Forall; [apply Ha | assumption].
Qed.

Lemma collect_signals_in_range (data : dict (option fl)) :
  Forall (fun item => strength_in_range (snd item)) (collect_signals data).
Proof.
  unfold collect_signals.
  repeat (apply add_signal_in_range;
          [intros v;
           first [ apply _analyze_pe_ratio_range
                 | apply _analyze_profit_margin_range
                 | apply _analyze_debt_to_equity_range
                 | apply _analyze_growth_metric_range
                 | apply _analyze_profitability_metric_range
                 | apply _analyze_current_ratio_range ] |]).
  constructor.
Qed.

(** Shape of a successful run of [analyze_fundamentals]. *)
Lemma analyze_fundamentals_ok (data : dict (option fl)) (a : FundamentalAnalyzer.Analysis) :
  analyze_fundamentals data = Ok a ->
  (data = [] /\ FundamentalAnalyzer.signals a = [] /\ FundamentalAnalyzer.score a = 50) \/
  (data <> [] /\ FundamentalAnalyzer.signals a = collect_signals data /\
   FundamentalAnalyzer.score a = _calculate_fundamental_score (collect_signals data)).
Proof.
  unfold analyze_fundamentals. destruct data as [|item data].
  - intros [= <-]. left. repeat split.
  - unfold bind.
    destruct (FundamentalAnalyzer._generate_reasoning _ _); [|discriminate].
    intros [= <-]. right. repeat split. discriminate.
Qed.

(** ** Absent sub-signals *)








Lemma technical_score_rescale_witness :
  contributing Samples.only_rsi <> [] /\
  _calculate_technical_score Samples.only_rsi
  == round2 (rescale (contributing Samples.only_rsi)) /\
  _calculate_technical_score Samples.only_rsi == 100.
Proof.
  assert (Hne : contributing Samples.only_rsi <> []) by discriminate.
  destruct (technical_score_rescale Samples.only_rsi Hne) as (_ & E & _ & H100).
  split; [exact Hne|]. split; [exact E|].
  apply H100. repeat constructor.
Defined.

(** C1 as stated fails.  With a single RSI signal of strength 2 the
    score is 100, while the formula with the divisor [2 * (sum of the
    weights)] gives 200; and with a strength-1 RSI among five neutral
    signals the score is 54.55, the rescale rounded to two decimals, not
    the exact quotient 600/11. *)
Lemma worded_formula_differs :
  (contributing Samples.only_rsi = [(2%Z, 2)] /\
   _calculate_technical_score Samples.only_rsi == 100 /\
   rescale_as_worded (contributing Samples.only_rsi) == 200) /\
  (_calculate_technical_score Samples.mild_rsi == 54.55 /\
   rescale (contributing Samples.mild_rsi) == 600 # 11).
Proof.
  repeat split.
Qed.

(** ** The combined score *)

(** C3, as amended.  The overall score of a result is
    technical_score * technical_weight + fundamental_score *
    fundamental_weight rounded to two decimals, and the recommendation
    is the band of the unrounded blend; for technical_score = 70,
    fundamental_score = 50 and weights 0.6 / 0.4 the overall score is
    62.00 and the recommendation is HOLD. *)
Theorem overall_score_is_blend :
  (forall w symbol price_data fundamental_data r,
      score_stock w symbol price_data fundamental_data = Ok r ->
      overall_score r == round2 (blend (technical_score r) (fundamental_score r)) /\
      recommendation r
      = _generate_recommendation (blend (technical_score r) (fundamental_score r))) /\
  (forall t f, blend t f == t * 0.6 + f * 0.4) /\
  round2 (blend 70 50) == 62 /\
  _generate_recommendation (blend 70 50) = HOLD.
Proof.
  split; [|split; [|split]]; try reflexivity.
  intros w symbol price_data fundamental_data r H.
  unfold score_stock in H.
  assert (Hplaceholder : forall msg,
    overall_score (_create_error_result w symbol msg)
    == round2 (blend (technical_score (_create_error_result w symbol msg))
                     (fundamental_score (_create_error_result w symbol msg))) /\
    recommendation (_create_error_result w symbol msg)
    = _generate_recommendation
        (blend (technical_score (_create_error_result w symbol msg))
               (fundamental_score (_create_error_result w symbol msg)))).
  { intros msg. split; reflexivity. }
  match type of H with
  | match ?p with _ => _ end = _ => destruct p as [d|]
  end.
  2: { injection H as <-. apply Hplaceholder. }
  destruct (df_empty d).
  { injection H as <-. apply Hplaceholder. }
  unfold bind in H.
  destruct (generate_technical_signals _) as [[msg|t]|]; try discriminate.
  - destruct (analyze_fundamentals _); discriminate.
  - destruct (analyze_fundamentals _) as [fr|]; [|discriminate].
    injection H as <-. simpl. split; reflexivity.
Qed.

Lemma overall_score_is_blend_witness :
  exists r,
    score_stock Samples.market "CHEAP" None None = Ok r /\
    overall_score r == round2 (blend (technical_score r) (fundamental_score r)) /\
    recommendation r
    = _generate_recommendation (blend (technical_score r) (fundamental_score r)).
Proof.
  eexists. split; [reflexivity|].
  apply (proj1 overall_score_is_blend Samples.market "CHEAP" None None).
  reflexivity.
Defined.

(** C3 as stated fails at its own example: a technical score of 70 and
    a fundamental score of 50 blend to 62.00, which lies in the HOLD band
    (45 <= 62 < 65), not in the BUY band. *)
Lemma blend_70_50_is_hold :
  round2 (blend 70 50) == 62 /\
  _generate_recommendation (blend 70 50) = HOLD /\
  _generate_recommendation (blend 70 50) <> BUY.
Proof.
  split; [reflexivity|]. split; [reflexivity|]. discriminate.
Qed.

(** ** Batch scoring *)

Import Ranking.

Lemma insert_desc_perm (x : StockResult) (l : list StockResult) :
  Permutation (insert_desc x l) (x :: l).
Proof.
  induction l as [|y l IH]; simpl.
  - apply Permutation_refl.
  - destruct (Qle_bool (overall_score y) (overall_score x)).
    + apply Permutation_refl.
    + eapply Permutation_trans; [apply perm_skip, IH | apply perm_swap].
Qed.

Lemma sort_desc_perm (l : list StockResult) : Permutation (sort_desc l) l.
Proof.
  induction l as [|x l IH]; simpl.
  - constructor.
  - eapply Permutation_trans; [apply insert_desc_perm | now apply perm_skip].
Qed.

Lemma insert_desc_hd (x y : StockResult) (l : list StockResult) :
  descending y x -> HdRel descending y l -> HdRel descending y (insert_desc x l).
Proof.
  intros Hyx Hl. destruct l as [|z l]; simpl.
  - now constructor.
  - destruct (Qle_bool (overall_score z) (overall_score x)); constructor.
    + exact Hyx.
    + now inversion Hl.
Qed.

Lemma insert_desc_sorted (x : StockResult) (l : list StockResult) :
  Sorted descending l -> Sorted descending (insert_desc x l).
Proof.
  induction 1 as [|y l Hs IH Hhd]; simpl.
  - repeat constructor.
  - destruct (Qle_bool_spec (overall_score y) (overall_score x)) as [Hle|Hlt].
    + constructor; [now constructor | now constructor].
    + constructor; [exact IH|].
      apply insert_desc_hd; [|exact Hhd].
      unfold descending. lra.
Qed.

Lemma sort_desc_sorted (l : list StockResult) : Sorted descending (sort_desc l).
Proof.
  induction l as [|x l IH]; simpl; [constructor | now apply insert_desc_sorted].
Qed.

Lemma descending_trans : Relations_1.Transitive descending.
Proof. intros a b c Hab Hbc. unfold descending in *. lra. Qed.

Lemma score_stock_symbol w s price_data fundamental_data r :
  score_stock w s price_data fundamental_data = Ok r -> symbol r = s.
Proof.
  unfold score_stock. intros H.
  match type of H with
  | match ?p with _ => _ end = _ => destruct p as [d|]
  end.
  2: { now injection H as <-. }
  destruct (df_empty d); [now injection H as <-|].
  unfold bind in H.
  destruct (generate_technical_signals _) as [[msg|t]|]; try discriminate.
  - destruct (analyze_fundamentals _); discriminate.
  - destruct (analyze_fundamentals _) as [fr|]; [|discriminate].
    now injection H as <-.
Qed.

Lemma score_or_placeholder_symbol w s : symbol (score_or_placeholder w s) = s.
Proof.
  unfold score_or_placeholder.
  destruct (score_stock w s None None) as [r|e] eqn:E.
  - eapply score_stock_symbol; eassumption.
  - reflexivity.
Qed.

(** C7.  [score_portfolio] returns one result per symbol: the results
    are a rearrangement of the per-symbol results, as many as there are
    symbols and carrying exactly their names, in descending order of
    overall score.  A symbol whose scoring raised is represented by the
    placeholder (HOLD, overall score 50, the error text attached), and
    every symbol whose scoring succeeded by its own result.  The
    function is total: no exception of a single symbol leaves it. *)
Theorem batch_scoring (w : World) (symbols : list string) :
  let results := score_portfolio w symbols in
  length results = length symbols /\
  Permutation results (map (score_or_placeholder w) symbols) /\
  Permutation (map symbol results) symbols /\
  StronglySorted descending results /\
  (forall s e,
      In s symbols -> score_stock w s None None = Raise e ->
      exists r,
        In r results /\ symbol r = s /\ recommendation r = HOLD /\
        overall_score r = 50 /\ error r = Some (str_exn e) /\
        r = _create_error_result w s (str_exn e)) /\
  (forall s r,
      In s symbols -> score_stock w s None None = Ok r -> In r results).
Proof.
  cbv zeta. unfold score_portfolio.
  pose proof (sort_desc_perm (map (score_or_placeholder w) symbols)) as P.
  repeat split.
  - rewrite (Permutation_length P). apply length_map.
  - exact P.
  - eapply Permutation_trans; [apply Permutation_map, P|].
    rewrite map_map.
    rewrite (map_ext _ (fun s => s) (score_or_placeholder_symbol w)).
    rewrite map_id. apply Permutation_refl.
  - apply Sorted_StronglySorted; [exact descending_trans | apply sort_desc_sorted].
  - intros s e Hin Hraise.
    exists (_create_error_result w s (str_exn e)).
    split; [|repeat split].
    apply (Permutation_in _ (Permutation_sym P)).
    apply in_map_iff. exists s. split; [|assumption].
    unfold score_or_placeholder. now rewrite Hraise.
  - intros s r Hin Hok.
    apply (Permutation_in _ (Permutation_sym P)).
    apply in_map_iff. exists s. split; [|assumption].
    unfold score_or_placeholder. now rewrite Hok.
Qed.

(** A batch of three symbols, the middle one failing: three results,
    ranked, the failing one flagged. *)
Lemma batch_scoring_witness :
  score_stock Samples.market "BAD" None None = Raise (KeyError "rsi") /\
  map symbol (score_portfolio Samples.market ["DEAR"; "BAD"; "CHEAP"])
  = ["CHEAP"; "BAD"; "DEAR"] /\
  exists r,
    In r (score_portfolio Samples.market ["DEAR"; "BAD"; "CHEAP"]) /\
    symbol r = "BAD" /\ recommendation r = HOLD /\
    overall_score r = 50 /\ error r = Some "'rsi'" /\
    r = _create_error_result Samples.market "BAD" "'rsi'".
Proof.
  split; [reflexivity|]. split; [reflexivity|].
  apply (proj1 (proj2 (proj2 (proj2 (proj2
           (batch_scoring Samples.market ["DEAR"; "BAD"; "CHEAP"])))))
           "BAD" (KeyError "rsi")).
  - right. left. reflexivity.
  - reflexivity.
Defined.

(** ** The indicator pipeline *)

Lemma dict_get_set_other {V} (k k' : string) (v : V) (d : dict V) :
  k <> k' -> dict_get k (dict_set k' v d) = dict_get k d.
Proof.
  intros Hne. induction d as [|[k0 v0] d IH]; simpl.
  - destruct (String.eqb_spec k k'); [contradiction | reflexivity].
  - destruct (String.eqb_spec k' k0) as [->|Hk]; simpl.
    + destruct (String.eqb_spec k k0); [contradiction | reflexivity].
    + destruct (String.eqb k k0); [reflexivity | exact IH].
Qed.

Lemma column_set_column_other (name other : string) (values : option (list fl))
    (df : DataFrame) :
  name <> other -> column name (set_column other values df) = column name df.
Proof.
  intros Hne. revert values.
  induction df as [|r rest IH]; intros values; [reflexivity|].
  assert (Hrow : forall v, getitem (dict_set other v r) name = getitem r name).
  { intros v. unfold getitem. now rewrite dict_get_set_other. }
  destruct values as [[|v vs]|]; simpl; rewrite Hrow, IH; reflexivity.
Qed.

(** *** The block as a run of stages *)

Lemma sbind_assoc {A B C} (m : Stmt A) (f : A -> Stmt B) (g : B -> Stmt C) (df : DataFrame) :
  sbind (sbind m f) g df = sbind m (fun a => sbind (f a) g) df.
Proof.
  unfold sbind. destruct (m df) as [[a|e] df']; [|reflexivity].
  destruct (f a df') as [[b|e] df'']; reflexivity.
Qed.

Lemma sbind_ext {A B} (m : Stmt A) (f g : A -> Stmt B) (df : DataFrame) :
  (forall a df', f a df' = g a df') -> sbind m f df = sbind m g df.
Proof.
  intros H. unfold sbind. destruct (m df) as [[a|e] df']; [apply H | reflexivity].
Qed.

Lemma sbind_sret_unit (m : Stmt unit) (df : DataFrame) : sbind m (fun _ => sret tt) df = m df.
Proof.
  unfold sbind, sret. destruct (m df) as [[[]|e] df']; reflexivity.
Qed.

(** Moving a stage of two, three or four reads and one final statement
    out of the nested block. *)
Ltac regroup_reads :=
  repeat (rewrite sbind_assoc; apply sbind_ext; intros ? ?).

Ltac regroup := regroup_reads; apply sbind_ext; intros ? ?.

Lemma indicators_body_stages (ta : pandas_ta) (df : DataFrame) :
  indicators_body ta df = Stages.run (map snd (Stages.stages ta)) df.
Proof.
  unfold Stages.stages, map, snd, Stages.run.
  unfold indicators_body.
  (* RSI *)
  unfold Stages.rsi_stage. regroup.
  (* MACD *)
  unfold Stages.macd_stage. regroup.
  (* Moving averages *)
  unfold Stages.sma_stage at 1. regroup.
  unfold Stages.sma_stage at 1. regroup.
  unfold Stages.sma_stage at 1. regroup.
  (* Bollinger Bands *)
  unfold Stages.bbands_stage. regroup.
  (* Volume SMA *)
  unfold Stages.sma_stage. regroup.
  (* Stochastic oscillator *)
  unfold Stages.stoch_stage. regroup.
  (* Average true range *)
  unfold Stages.atr_stage. regroup.
  (* On-balance volume *)
  unfold Stages.obv_stage. regroup_reads.
  now rewrite sbind_sret_unit.
Qed.

(** *** What a stage may change *)

Lemma untouched_refl (cols : list string) (df : DataFrame) : Stages.untouched cols df df.
Proof.
  unfold Stages.untouched. induction df as [|r df IH]; constructor; [reflexivity | exact IH].
Qed.

Lemma untouched_trans (cols : list string) (d1 d2 d3 : DataFrame) :
  Stages.untouched cols d1 d2 -> Stages.untouched cols d2 d3 -> Stages.untouched cols d1 d3.
Proof.
  unfold Stages.untouched. intros H12. revert d3.
  induction H12 as [|r1 r2 d1 d2 Hg _ IH]; intros d3 H23.
  - inversion H23. constructor.
  - inversion H23 as [|? r3 ? d3' Hg' Hrest]; subst.
    constructor; [|now apply IH].
    intros name Hn. now rewrite Hg', Hg.
Qed.

Lemma untouched_weaken (cols cols' : list string) (d1 d2 : DataFrame) :
  (forall name, In name cols -> In name cols') ->
  Stages.untouched cols d1 d2 -> Stages.untouched cols' d1 d2.
Proof.
  intros Hsub H. unfold Stages.untouched in *.
  induction H as [|r1 r2 d1 d2 Hg _ IH]; constructor; [|exact IH].
  intros name Hn. apply Hg. intros Hin. apply Hn, Hsub, Hin.
Qed.

Lemma untouched_nth (cols : list string) (d1 d2 : DataFrame) :
  Stages.untouched cols d1 d2 ->
  forall i name, ~ In name cols -> dict_get name (nth i d2 []) = dict_get name (nth i d1 []).
Proof.
  intros H i name Hn. revert i.
  induction H as [|r1 r2 d1 d2 Hg _ IH]; intros i; [reflexivity|].
  destruct i; simpl; [now apply Hg | apply IH].
Qed.

Lemma set_column_untouched (cols : list string) (name : string) (values : option (list fl))
    (df : DataFrame) :
  In name cols -> Stages.untouched cols df (set_column name values df).
Proof.
  intros Hin. unfold Stages.untouched. revert values.
  induction df as [|r df IH]; intros values; [constructor|].
  assert (Hrow : forall v n, ~ In n cols -> dict_get n (dict_set name v r) = dict_get n r).
  { intros v n Hn. apply dict_get_set_other. intros ->. contradiction. }
  destruct values as [[|v vs]|]; simpl; constructor; auto.
Qed.

Lemma touches_sret {A} (cols : list string) (a : A) : Stages.touches_only cols (sret a).
Proof. intros df. apply untouched_refl. Qed.

Lemma touches_lift {A} (cols : list string) (r : Result A) :
  Stages.touches_only cols (lift r).
Proof. intros df. apply untouched_refl. Qed.

Lemma touches_read (cols : list string) (name : string) :
  Stages.touches_only cols (read_column name).
Proof. intros df. apply untouched_refl. Qed.

Lemma touches_assign (cols : list string) (name : string) (values : option (list fl)) :
  In name cols -> Stages.touches_only cols (assign name values).
Proof. intros H df. now apply set_column_untouched. Qed.

Lemma touches_sbind {A B} (cols : list string) (m : Stmt A) (f : A -> Stmt B) :
  Stages.touches_only cols m -> (forall a, Stages.touches_only cols (f a)) ->
  Stages.touches_only cols (sbind m f).
Proof.
  intros Hm Hf df. unfold sbind. specialize (Hm df).
  destruct (m df) as [[a|e] df']; simpl in *.
  - eapply untouched_trans; [exact Hm | apply Hf].
  - exact Hm.
Qed.

Lemma touches_except (cols : list string) (body handler : Stmt unit) :
  Stages.touches_only cols body -> Stages.touches_only cols handler ->
  Stages.touches_only cols (except_KeyError body handler).
Proof.
  intros Hb Hh df. unfold except_KeyError. specialize (Hb df).
  destruct (body df) as [[a|[k|m|m|m|m]] df']; simpl in *; try exact Hb.
  eapply untouched_trans; [exact Hb | apply Hh].
Qed.

Ltac touches_steps :=
  repeat first
    [ apply touches_sret
    | apply touches_lift
    | apply touches_read
    | apply touches_assign; simpl; tauto
    | apply touches_sbind; [|intros ?]
    | apply touches_except
    | match goal with
      | |- Stages.touches_only _ (match ?x with _ => _ end) => destruct x
      end ].

(** Every stage changes its own columns only. *)
Lemma stages_touch_their_columns (ta : pandas_ta) :
  Forall (fun stage => Stages.touches_only (fst stage) (snd stage)) (Stages.stages ta).
Proof.
  unfold Stages.stages.
  repeat constructor; cbn [fst snd];
    unfold Stages.rsi_stage, Stages.macd_stage, Stages.sma_stage, Stages.bbands_stage,
      Stages.stoch_stage, Stages.atr_stage, Stages.obv_stage, assign_bands;
    touches_steps.
Qed.

(** No column is assigned by two stages. *)
Lemma stage_columns_distinct (ta : pandas_ta) :
  NoDup (Stages.columns_of (Stages.stages ta)).
Proof.
  unfold Stages.columns_of, Stages.stages. simpl.
  repeat (constructor; [simpl; intuition discriminate|]). constructor.
Qed.

Lemma run_touches (l : list (list string * Stmt unit)) :
  Forall (fun stage => Stages.touches_only (fst stage) (snd stage)) l ->
  Stages.touches_only (Stages.columns_of l) (Stages.run (map snd l)).
Proof.
  induction 1 as [|[cols s] l Hs _ IH]; simpl.
  - apply touches_sret.
  - apply touches_sbind.
    + intros df. eapply untouched_weaken; [|apply Hs].
      intros name Hin. unfold Stages.columns_of. simpl. apply in_or_app. now left.
    + intros _ df. eapply untouched_weaken; [|apply IH].
      intros name Hin. unfold Stages.columns_of. simpl. apply in_or_app. now right.
Qed.

(** A run that fails in the middle ends where the failing statement
    left the frame. *)
Lemma run_until_failure (before after : list (Stmt unit)) (s : Stmt unit)
    (d d_k d' : DataFrame) (e : Exn) :
  Stages.run before d = (Ok tt, d_k) ->
  s d_k = (Raise e, d') ->
  Stages.run (before ++ s :: after) d = (Raise e, d').
Proof.
  revert d. induction before as [|b before IH]; intros d Hrun Hs.
  - simpl in Hrun. injection Hrun as <-. simpl. unfold sbind. now rewrite Hs.
  - simpl in *. unfold sbind in *.
    destruct (b d) as [[[]|e0] d1]; [now apply IH | discriminate].
Qed.

Lemma distinct_app (l1 l2 : list string) (name : string) :
  NoDup (l1 ++ l2) -> In name l1 -> In name l2 -> False.
Proof.
  induction l1 as [|x l1 IH]; simpl; [tauto|].
  intros H [->|Hin] H2.
  - inversion H as [|? ? Hx _]; subst. apply Hx. apply in_or_app. now right.
  - inversion H; subst. now apply IH.
Qed.

(** C8, as amended.  The indicators are derived one after the other
    inside a single guarded block.  [None] and an empty series are
    returned unchanged.  A failure while deriving an indicator is caught,
    and the series is returned with the indicators derived before the
    failure and none of the later ones.  Whichever of the ten stages
    fails: the series returned is the one the stages before it produced,
    changed at most in the failing stage's own columns, and the columns of
    every later stage are as they were in the input.  So when the RSI
    computation raises, the series comes back as it was given; when RSI
    succeeds and the MACD computation raises, it comes back with the RSI
    column only; and when no stage fails, it is the series the ten stages
    produce. *)
Theorem indicator_failure_is_contained (ta : pandas_ta) :
  calculate_all_indicators ta None = None /\
  (forall d, df_empty d = true -> calculate_all_indicators ta (Some d) = Some d) /\
  (forall d close e,
      df_empty d = false ->
      column "Close" d = Ok close ->
      ta_rsi ta close rsi_period = Raise e ->
      calculate_all_indicators ta (Some d) = Some d) /\
  (forall d close rsi e,
      df_empty d = false ->
      column "Close" d = Ok close ->
      ta_rsi ta close rsi_period = Ok rsi ->
      ta_macd ta close macd_fast macd_slow macd_signal = Raise e ->
      calculate_all_indicators ta (Some d) = Some (set_column "rsi" rsi d)) /\
  (forall d before cols stage after d_k d' e,
      df_empty d = false ->
      Stages.stages ta = (before ++ (cols, stage) :: after)%list ->
      Stages.run (map snd before) d = (Ok tt, d_k) ->
      stage d_k = (Raise e, d') ->
      calculate_all_indicators ta (Some d) = Some d' /\
      (forall i name,
          ~ In name cols ->
          dict_get name (nth i d' []) = dict_get name (nth i d_k [])) /\
      (forall i name,
          In name (Stages.columns_of after) ->
          dict_get name (nth i d' []) = dict_get name (nth i d []))) /\
  (forall d d',
      df_empty d = false ->
      Stages.run (map snd (Stages.stages ta)) d = (Ok tt, d') ->
      calculate_all_indicators ta (Some d) = Some d').
Proof.
  split; [reflexivity|]. split; [|split; [|split; [|split]]].
  - intros d Hempty. unfold calculate_all_indicators. now rewrite Hempty.
  - intros d close e Hempty Hclose Hrsi.
    unfold calculate_all_indicators. rewrite Hempty.
    unfold indicators_body, sbind, read_column, lift.
    rewrite Hclose, Hrsi. reflexivity.
  - intros d close rsi e Hempty Hclose Hrsi Hmacd.
    unfold calculate_all_indicators. rewrite Hempty.
    unfold indicators_body, sbind, read_column, lift, assign.
    rewrite Hclose, Hrsi.
    rewrite column_set_column_other by discriminate.
    rewrite Hclose, Hmacd. reflexivity.
  - intros d before cols stage after d_k d' e Hempty Hsplit Hrun Hfail.
    pose proof (stages_touch_their_columns ta) as Htouch.
    pose proof (stage_columns_distinct ta) as Hdistinct.
    rewrite Hsplit in Htouch, Hdistinct.
    apply Forall_app in Htouch. destruct Htouch as [Hbefore Hrest].
    inversion Hrest as [|? ? Hstage _]; subst. cbn [fst snd] in Hstage.
    assert (Hfailing : Stages.untouched cols d_k d').
    { specialize (Hstage d_k). now rewrite Hfail in Hstage. }
    assert (Hearlier : Stages.untouched (Stages.columns_of before) d d_k).
    { pose proof (run_touches before Hbefore d) as H. now rewrite Hrun in H. }
    split; [|split].
    + unfold calculate_all_indicators. rewrite Hempty.
      rewrite indicators_body_stages, Hsplit, map_app. cbn [map snd].
      now rewrite (run_until_failure _ _ _ _ _ _ _ Hrun Hfail).
    + now apply untouched_nth.
    + intros i name Hlater.
      unfold Stages.columns_of in Hdistinct.
      rewrite map_app, concat_app in Hdistinct. cbn [map fst concat] in Hdistinct.
      fold (Stages.columns_of before) in Hdistinct.
      fold (Stages.columns_of after) in Hdistinct.
      assert (Hnot_cols : ~ In name cols).
      { intros Hin. apply NoDup_app_remove_l in Hdistinct.
        exact (distinct_app _ _ name Hdistinct Hin Hlater). }
      assert (Hnot_before : ~ In name (Stages.columns_of before)).
      { intros Hin. apply (distinct_app _ _ name Hdistinct Hin).
        apply in_or_app. now right. }
      rewrite (untouched_nth _ _ _ Hfailing i name Hnot_cols).
      now apply (untouched_nth _ _ _ Hearlier).
  - intros d d' Hempty Hrun.
    unfold calculate_all_indicators. rewrite Hempty.
    now rewrite indicators_body_stages, Hrun.
Qed.

Lemma indicator_failure_is_contained_witness :
  df_empty [Samples.bar 100 1000] = false /\
  Stages.stages Samples.failing_sma_50_ta
  = (firstn 3 (Stages.stages Samples.failing_sma_50_ta)
     ++ (["sma_50"], Stages.sma_stage Samples.failing_sma_50_ta "Close" "sma_50" sma_medium)
     :: skipn 4 (Stages.stages Samples.failing_sma_50_ta))%list /\
  Stages.run (map snd (firstn 3 (Stages.stages Samples.failing_sma_50_ta)))
    [Samples.bar 100 1000]
  = (Ok tt, [(Samples.bar 100 1000 ++ [("rsi", Fin 50); ("sma_20", Fin 100)])%list]) /\
  Stages.sma_stage Samples.failing_sma_50_ta "Close" "sma_50" sma_medium
    [(Samples.bar 100 1000 ++ [("rsi", Fin 50); ("sma_20", Fin 100)])%list]
  = (Raise (Exception "sma failed"),
     [(Samples.bar 100 1000 ++ [("rsi", Fin 50); ("sma_20", Fin 100)])%list]) /\
  calculate_all_indicators Samples.failing_sma_50_ta (Some [Samples.bar 100 1000])
  = Some [(Samples.bar 100 1000 ++ [("rsi", Fin 50); ("sma_20", Fin 100)])%list].
Proof.
  do 4 (split; [reflexivity|]).
  apply (proj1 (proj2 (proj2 (proj2 (proj2
           (indicator_failure_is_contained Samples.failing_sma_50_ta)))))
           [Samples.bar 100 1000]
           (firstn 3 (Stages.stages Samples.failing_sma_50_ta))
           ["sma_50"]
           (Stages.sma_stage Samples.failing_sma_50_ta "Close" "sma_50" sma_medium)
           (skipn 4 (Stages.stages Samples.failing_sma_50_ta))
           [(Samples.bar 100 1000 ++ [("rsi", Fin 50); ("sma_20", Fin 100)])%list]
           [(Samples.bar 100 1000 ++ [("rsi", Fin 50); ("sma_20", Fin 100)])%list]
           (Exception "sma failed"));
    reflexivity.
Defined.

(** C8 as stated fails: when the RSI computation raises, the moving
    averages, which would have been computed without error, are not
    populated in the returned series. *)
Lemma rsi_failure_skips_later_indicators :
  ta_rsi Samples.failing_rsi_ta [Fin 100] rsi_period = Raise (Exception "rsi failed") /\
  ta_sma Samples.failing_rsi_ta [Fin 100] sma_short = Ok (Some [Fin 100]) /\
  calculate_all_indicators Samples.failing_rsi_ta (Some [Samples.bar 100 1000])
  = Some [Samples.bar 100 1000] /\
  dict_get "sma_20" (iloc_last [Samples.bar 100 1000]) = None /\
  (exists d,
      calculate_all_indicators Samples.flat_ta (Some [Samples.bar 100 1000]) = Some d /\
      dict_get "sma_20" (iloc_last d) = Some (Fin 100)).
Proof.
  repeat split. eexists. split; reflexivity.
Qed.

(** ** Neutral defaults *)

Import Blank.

Lemma isna_cases (x : option fl) : isna x = true -> x = None \/ x = Some NaN.
Proof.
  destruct x as [[| | |q]|]; simpl; intros H; try discriminate; auto.
Qed.


Lemma _analyze_bollinger_bands_blank (latest : Row) (price : fl) :
  dict_get "Close" latest = Some price ->
  isna (dict_get "bb_upper" latest) = true ->
  _analyze_bollinger_bands latest = Ok (mkSignal neutral 0 []).
Proof.
  intros Hc H. unfold _analyze_bollinger_bands, getitem, bind. rewrite Hc.
  destruct (isna_cases _ H) as [-> | ->]; [reflexivity|].
  destruct (dict_get "bb_lower" latest); reflexivity.
Qed.






(** ** The fundamental classifier never raises *)

Lemma dict_get_set_same {V} (k : string) (v : V) (d : dict V) :
  dict_get k (dict_set k v d) = Some v.
Proof.
  induction d as [|[k0 v0] d IH]; simpl.
  - now rewrite String.eqb_refl.
  - destruct (String.eqb_spec k k0) as [->|Hk]; simpl.
    + now rewrite String.eqb_refl.
    + destruct (String.eqb_spec k k0); [contradiction | exact IH].
Qed.

Lemma dict_get_add_signal_same data key analyze signals :
  dict_get key (add_signal data key analyze signals) =
  match dict_get key data with
  | Some v => Some (analyze v)
  | None => dict_get key signals
  end.
Proof.
  unfold add_signal. destruct (dict_get key data); [apply dict_get_set_same | reflexivity].
Qed.

Lemma dict_get_add_signal_other data k key analyze signals :
  k <> key ->
  dict_get k (add_signal data key analyze signals) = dict_get k signals.
Proof.
  intros Hne. unfold add_signal.
  destruct (dict_get key data); [now apply dict_get_set_other | reflexivity].
Qed.

Ltac collected :=
  unfold collect_signals;
  repeat first [ rewrite dict_get_add_signal_same
               | rewrite dict_get_add_signal_other by discriminate ];
  simpl dict_get.

Ltac settle := simpl; eexists; reflexivity.

(** Case analysis on the float comparisons of the goal. *)
Ltac fl_branches :=
  repeat match goal with
         | |- context [fl_le ?a ?b] => destruct (fl_le a b)
         | |- context [fl_lt ?a ?b] => destruct (fl_lt a b)
         | |- context [fl_ge ?a ?b] => destruct (fl_ge a b)
         | |- context [fl_gt ?a ?b] => destruct (fl_gt a b)
         end.

Ltac bind_step tac :=
  lazymatch goal with
  | |- exists r, bind ?m ?f = Ok r =>
      let l := fresh "l" in
      let E := fresh "E" in
      assert (exists l, m = Ok l) as [l E] by tac;
      rewrite E; unfold bind at 1; clear E
  end.

Ltac metric_step data key analyzer :=
  bind_step ltac:(collected; destruct (dict_get key data) as [[?|]|];
                  [| settle | settle];
                  unfold analyzer;
                  try match goal with
                      | |- context [benchmark_or ?n ?g ?a] =>
                          let v := eval vm_compute in (benchmark_or n g a) in
                          change (benchmark_or n g a) with v; cbv iota
                      end;
                  fl_branches; settle).

Lemma fundamental_reasoning_total (data : dict (option fl)) :
  exists text,
    FundamentalAnalyzer._generate_reasoning (collect_signals data) data = Ok text.
Proof.
  unfold FundamentalAnalyzer._generate_reasoning.
  metric_step data "pe_ratio" _analyze_pe_ratio.
  metric_step data "profit_margin" _analyze_profit_margin.
  metric_step data "revenue_growth" _analyze_growth_metric.
  metric_step data "earnings_growth" _analyze_growth_metric.
  metric_step data "return_on_equity" _analyze_profitability_metric.
  metric_step data "debt_to_equity" _analyze_debt_to_equity.
  metric_step data "current_ratio" _analyze_current_ratio.
  eexists. reflexivity.
Qed.

(** [analyze_fundamentals] returns a result on every metrics map. *)
Lemma analyze_fundamentals_total (data : dict (option fl)) :
  exists a, analyze_fundamentals data = Ok a.
Proof.
  unfold analyze_fundamentals. destruct data as [|item data]; [eexists; reflexivity|].
  destruct (fundamental_reasoning_total (item :: data)) as [text ->].
  eexists. reflexivity.
Qed.

(** ** The technical classifier raises only for missing columns *)

Lemma get_signal_literal (s1 s2 s3 s4 s5 s6 : Signal) (s7 : option Signal) :
  let signals :=
    [("rsi_signal", Some s1); ("macd_signal", Some s2); ("ma_signal", Some s3);
     ("bb_signal", Some s4); ("volume_signal", Some s5); ("trend_signal", Some s6);
     ("stoch_signal", s7)] in
  get_signal signals "rsi_signal" = Ok (Some s1) /\
  get_signal signals "macd_signal" = Ok (Some s2) /\
  get_signal signals "ma_signal" = Ok (Some s3) /\
  get_signal signals "bb_signal" = Ok (Some s4) /\
  get_signal signals "volume_signal" = Ok (Some s5) /\
  get_signal signals "trend_signal" = Ok (Some s6).
Proof. repeat split. Qed.

Lemma _analyze_volume_shape (latest : Row) (s : Signal) :
  _analyze_volume latest = Ok s ->
  (strength s <= 0)%Z \/ exists x, dict_get "volume_ratio" (extra s) = Some (PyNum x).
Proof.
  unfold _analyze_volume, bind. intros H.
  destruct (getitem latest "Volume") as [volume|]; [|discriminate].
  destruct (dict_get "volume_sma_20" latest) as [sma|].
  - destruct (is_nan sma).
    + injection H as <-. left. simpl. lia.
    + destruct (fl_gt _ _).
      * injection H as <-. right. eexists. reflexivity.
      * destruct (fl_lt _ _); injection H as <-; left; simpl; lia.
  - injection H as <-. left. simpl. lia.
Qed.

Lemma _analyze_trend_shape (df : DataFrame) (periods : nat) (s : Signal) :
  _analyze_trend df periods = Ok s ->
  dict_get "trend_strength" (extra s) = None \/
  exists x, dict_get "trend_strength" (extra s) = Some (PyNum x).
Proof.
  unfold _analyze_trend, bind. intros H.
  destruct (length df <? periods)%nat.
  - injection H as <-. now left.
  - destruct (column "Close" (tail periods df)) as [[|first rest]|]; try discriminate.
    injection H as <-. right.
    repeat match goal with |- context [if ?c then _ else _] => destruct c end;
      eexists; reflexivity.
Qed.

Lemma technical_reasoning_total (latest : Row) (df : DataFrame) (rsi : fl)
    (s2 s3 s4 s5 s6 : Signal) (s7 : option Signal) :
  _analyze_volume latest = Ok s5 ->
  _analyze_trend df 20 = Ok s6 ->
  exists text,
    TechnicalAnalyzer._generate_reasoning
      [("rsi_signal", Some (_analyze_rsi rsi)); ("macd_signal", Some s2);
       ("ma_signal", Some s3); ("bb_signal", Some s4); ("volume_signal", Some s5);
       ("trend_signal", Some s6); ("stoch_signal", s7)] latest = Ok text.
Proof.
  intros Hvol Htrend.
  unfold TechnicalAnalyzer._generate_reasoning.
  destruct (get_signal_literal (_analyze_rsi rsi) s2 s3 s4 s5 s6 s7)
    as (E1 & E2 & E3 & E4 & E5 & E6).
  cbv zeta in E1, E2, E3, E4, E5, E6.
  rewrite E1, E2, E3, E4, E5, E6. clear E1 E2 E3 E4 E5 E6.
  unfold bind at 1.
  bind_step ltac:(unfold _analyze_rsi;
                  repeat match goal with
                         | |- context [is_nan ?a] => destruct (is_nan a)
                         end;
                  fl_branches; settle).
  unfold bind at 1. unfold bind at 1. unfold bind at 1. unfold bind at 1.
  bind_step ltac:(destruct (_analyze_volume_shape _ _ Hvol) as [Hle | [x Hx]];
                  [ apply Z.ltb_ge in Hle; unfold strength_or_0; rewrite Hle; settle
                  | destruct (0 <? strength_or_0 (Some s5))%Z; [|settle];
                    unfold key_of; rewrite Hx; settle ]).
  unfold bind at 1.
  bind_step ltac:(unfold key_of;
                  destruct (_analyze_trend_shape _ _ _ Htrend) as [Hn | [x Hx]];
                  [rewrite Hn | rewrite Hx]; settle).
  eexists. reflexivity.
Qed.

Lemma dict_mem_getitem {V} (d : dict V) (k : string) :
  dict_mem k d = true -> exists v, getitem d k = Ok v /\ dict_get k d = Some v.
Proof.
  unfold dict_mem, getitem. destruct (dict_get k d) as [v|]; [|discriminate].
  intros _. now exists v.
Qed.

Lemma column_total (name : string) (df : DataFrame) :
  (forall r, In r df -> dict_mem name r = true) ->
  exists vs, column name df = Ok vs /\ length vs = length df.
Proof.
  induction df as [|r rest IH]; intros H.
  - now exists [].
  - destruct (dict_mem_getitem r name (H r (or_introl eq_refl))) as (v & Ev & _).
    destruct IH as (vs & Evs & Hlen); [intros r' Hr'; apply H; now right|].
    exists (v :: vs). simpl. unfold bind. rewrite Ev, Evs. simpl. now rewrite Hlen.
Qed.

Lemma last_In {A} (l : list A) (d : A) : l <> [] -> In (last l d) l.
Proof.
  induction l as [|a l IH]; [congruence|]. intros _.
  destruct l as [|b l]; [now left|].
  right. apply IH. discriminate.
Qed.

(** On a series with a Close in every row, and with the Volume, RSI and
    moving-average columns (and the middle band whenever both outer
    bands are there) in the latest row, [generate_technical_signals]
    returns an analysis. *)
Lemma generate_technical_signals_total (df : DataFrame) :
  df_empty df = false ->
  (forall r, In r df -> dict_mem "Close" r = true) ->
  dict_mem "Volume" (iloc_last df) = true ->
  dict_mem "rsi" (iloc_last df) = true ->
  dict_mem "sma_20" (iloc_last df) = true ->
  dict_mem "sma_50" (iloc_last df) = true ->
  dict_mem "sma_200" (iloc_last df) = true ->
  (dict_mem "bb_upper" (iloc_last df) = true ->
   dict_mem "bb_lower" (iloc_last df) = true ->
   dict_mem "bb_middle" (iloc_last df) = true) ->
  exists a, generate_technical_signals (Some df) = Ok (Analysed a).
Proof.
  intros Hempty Hclose Hvol Hrsi H20 H50 H200 Hmid.
  assert (Hne : df <> []) by (intros ->; discriminate).
  assert (Hlatest : dict_mem "Close" (iloc_last df) = true).
  { apply Hclose. unfold iloc_last. now apply last_In. }
  destruct (dict_mem_getitem _ _ Hlatest) as (price & Eprice & Gprice).
  destruct (dict_mem_getitem _ _ Hvol) as (volume & Evolume & _).
  destruct (dict_mem_getitem _ _ Hrsi) as (rsi & Ersi & _).
  destruct (dict_mem_getitem _ _ H20) as (v20 & E20 & _).
  destruct (dict_mem_getitem _ _ H50) as (v50 & E50 & _).
  destruct (dict_mem_getitem _ _ H200) as (v200 & E200 & _).
  (* moving averages *)
  assert (Ema : exists ma, _analyze_moving_averages (iloc_last df) = Ok ma).
  { unfold _analyze_moving_averages, bind. rewrite Eprice, E20, E50, E200.
    eexists. reflexivity. }
  destruct Ema as [ma Ema].
  (* Bollinger Bands *)
  assert (Ebb : exists bb, _analyze_bollinger_bands (iloc_last df) = Ok bb).
  { unfold _analyze_bollinger_bands, bind. rewrite Eprice.
    destruct (dict_get "bb_upper" (iloc_last df)) as [u|] eqn:Eu; [|settle].
    destruct (dict_get "bb_lower" (iloc_last df)) as [l|] eqn:El; [|settle].
    assert (Hm : dict_mem "bb_middle" (iloc_last df) = true).
    { apply Hmid; unfold dict_mem; [now rewrite Eu | now rewrite El]. }
    destruct (dict_mem_getitem _ _ Hm) as (m & _ & ->).
    repeat match goal with |- context [if ?c then _ else _] => destruct c end; settle. }
  destruct Ebb as [bb Ebb].
  (* volume *)
  assert (Evol : exists vol, _analyze_volume (iloc_last df) = Ok vol).
  { unfold _analyze_volume, bind. rewrite Evolume.
    destruct (dict_get "volume_sma_20" (iloc_last df)); [|settle].
    repeat match goal with |- context [if ?c then _ else _] => destruct c end; settle. }
  destruct Evol as [vol Evol].
  (* trend *)
  assert (Etr : exists tr, _analyze_trend df 20 = Ok tr).
  { unfold _analyze_trend, bind.
    destruct (Nat.ltb_spec (length df) 20) as [Hlt|Hge]; [settle|].
    destruct (column_total "Close" (tail 20 df)) as (cs & -> & Hlen).
    - intros r Hr. apply Hclose. unfold tail in Hr.
      rewrite <- (firstn_skipn (length df - 20) df). apply in_or_app. now right.
    - unfold tail in Hlen. rewrite length_skipn in Hlen.
      destruct cs as [|first rest]; [simpl in Hlen; lia|].
      eexists. reflexivity. }
  destruct Etr as [tr Etr].
  unfold generate_technical_signals. rewrite Hempty.
  rewrite Ersi, Ema, Ebb, Evol, Etr. unfold bind at 1 2 3 4 5.
  destruct (technical_reasoning_total (iloc_last df) df rsi
              (_analyze_macd (iloc_last df)
                 (if (1 <? length df)%nat then iloc_last2 df else iloc_last df))
              ma bb vol tr
              (if dict_mem "stoch_k" (iloc_last df)
               then Some (_analyze_stochastic (iloc_last df)) else None)
              Evol Etr) as [text Etext].
  rewrite Etext, Eprice, E20, E50, E200.
  eexists. reflexivity.
Qed.

(** ** Ranges of strengths and scores *)

(** C2.  Every signal the technical classifier and the fundamental
    classifier produce has a strength in [-2, 2]; every technical and
    every fundamental category score lies in [0, 100]; and the category
    score is exactly 50 when no signal contributed.  The fundamental
    classifier returns on every metrics map; the technical classifier
    returns whenever the columns it indexes exist
    ([generate_technical_signals_total]). *)
Theorem strengths_and_scores_in_range :
  (forall df a,
      generate_technical_signals df = Ok (Analysed a) ->
      (forall name s, In (name, Some s) (TechnicalAnalyzer.signals a) ->
                      (-2 <= strength s <= 2)%Z) /\
      0 <= TechnicalAnalyzer.score a /\ TechnicalAnalyzer.score a <= 100) /\
  (forall data,
      exists a,
        analyze_fundamentals data = Ok a /\
        (forall name s, In (name, s) (FundamentalAnalyzer.signals a) ->
                        (-2 <= strength s <= 2)%Z) /\
        0 <= FundamentalAnalyzer.score a /\ FundamentalAnalyzer.score a <= 100) /\
  (forall signals, contributing signals = [] -> _calculate_technical_score signals == 50) /\
  (forall data a,
      analyze_fundamentals data = Ok a ->
      FundamentalAnalyzer.signals a = [] -> FundamentalAnalyzer.score a == 50).
Proof.
  split; [|split; [|split]].
  - intros df a H.
    pose proof (generated_signals_in_range df a H) as R.
    split; [exact R|].
    destruct (generate_technical_signals_ok df a H)
      as (d & ? & ? & ? & ? & ? & _ & _ & _ & _ & _ & _ & _ & _ & ->).
    apply technical_score_range. intros name s Hs.
    apply (R name s). now apply dict_get_In.
  - intros data. destruct (analyze_fundamentals_total data) as [a H].
    exists a. split; [exact H|].
    destruct (analyze_fundamentals_ok data a H) as [(_ & E & ->)|(_ & E & ->)]; rewrite E.
    + split; [intros name s []|lra].
    + split.
      * intros name s Hin.
        pose proof (collect_signals_in_range data) as F. rewrite Forall_forall in F.
        exact (F _ Hin).
      * apply fundamental_score_range, collect_signals_in_range.
  - intros signals Hc. rewrite technical_score_eq, Hc. reflexivity.
  - intros data a H Hs.
    destruct (analyze_fundamentals_ok data a H) as [(_ & _ & ->)|(_ & E & ->)]; [reflexivity|].
    rewrite Hs in E. rewrite <- E. reflexivity.
Qed.

Lemma strengths_and_scores_in_range_witness :
  exists a,
    generate_technical_signals (Some Samples.crossover_frame) = Ok (Analysed a) /\
    (forall name s, In (name, Some s) (TechnicalAnalyzer.signals a) ->
                    (-2 <= strength s <= 2)%Z) /\
    0 <= TechnicalAnalyzer.score a /\ TechnicalAnalyzer.score a <= 100.
Proof.
  eexists. split; [reflexivity|].
  apply (proj1 strengths_and_scores_in_range (Some Samples.crossover_frame)).
  reflexivity.
Defined.

(** * Further properties *)

Import Order.

(** ** The oscillator classifiers *)

Lemma fl_lt_Fin (a b : Q) : fl_lt (Fin a) (Fin b) = Qlt_bool a b.
Proof. reflexivity. Qed.

Ltac q_cases :=
  repeat match goal with
         | |- context [Qlt_bool ?a ?b] => destruct (Qlt_bool_spec a b)
         | |- context [Qle_bool ?a ?b] => destruct (Qle_bool_spec a b)
         end.

Ltac q_solve :=
  simpl; repeat split; intros;
  repeat match goal with H : _ /\ _ |- _ => destruct H end;
  first [reflexivity | discriminate | lra | lia | (exfalso; lra) | (exfalso; lia)].

(** X1.  [_analyze_rsi] on a finite RSI: strength 2 (bullish) iff
    RSI < 30, 1 (bullish) iff 30 <= RSI < 40, 0 (neutral) iff
    40 <= RSI <= 60, -1 (bearish) iff 60 < RSI <= 70 and -2 (bearish) iff
    RSI > 70; the strength never rises when the RSI rises; a NaN RSI is
    neutral with strength 0 and value [None]. *)
Theorem rsi_thresholds :
  (forall q : Q,
      let s := _analyze_rsi (Fin q) in
      (strength s = 2%Z <-> q < 30) /\
      (strength s = 1%Z <-> 30 <= q /\ q < 40) /\
      (strength s = 0%Z <-> 40 <= q /\ q <= 60) /\
      (strength s = (-1)%Z <-> 60 < q /\ q <= 70) /\
      (strength s = (-2)%Z <-> 70 < q) /\
      (signal s = bullish <-> (0 < strength s)%Z) /\
      (signal s = bearish <-> (strength s < 0)%Z) /\
      extra s = [("value", PyNum (Fin q))]) /\
  (forall q1 q2 : Q,
      q1 <= q2 ->
      (strength (_analyze_rsi (Fin q2)) <= strength (_analyze_rsi (Fin q1)))%Z) /\
  _analyze_rsi NaN = mkSignal neutral 0 [("value", PyNone)].
Proof.
  split; [|split; [|reflexivity]].
  - intros q. cbv zeta. unfold _analyze_rsi, fl_gt, rsi_oversold, rsi_overbought,
      config.RSI_OVERSOLD, config.RSI_OVERBOUGHT.
    simpl is_nan. cbv iota. rewrite !fl_lt_Fin.
    q_cases; q_solve.
  - intros q1 q2 Hle. unfold _analyze_rsi, fl_gt, rsi_oversold, rsi_overbought,
      config.RSI_OVERSOLD, config.RSI_OVERBOUGHT.
    simpl is_nan. cbv iota. rewrite !fl_lt_Fin.
    q_cases; simpl; first [lia | exfalso; lra].
Qed.

Lemma rsi_thresholds_witness :
  25 <= 75 /\
  strength (_analyze_rsi (Fin 25)) = 2%Z /\
  strength (_analyze_rsi (Fin 75)) = (-2)%Z /\
  (strength (_analyze_rsi (Fin 75)) <= strength (_analyze_rsi (Fin 25)))%Z.
Proof.
  split; [lra|]. split; [reflexivity|]. split; [reflexivity|].
  apply (proj1 (proj2 rsi_thresholds) 25 75). lra.
Defined.

(** X2.  [_analyze_stochastic] lets %K alone decide, and only when %D is
    there too: with both present and not NaN, a finite %K below 20 gives
    strength 1 (bullish), above 80 strength -1 (bearish), anything between
    strength 0; when %D is missing or NaN the signal is neutral whatever
    %K says. *)
Theorem stochastic_thresholds :
  (forall (latest : Row) (k : Q) (d : fl),
      dict_get "stoch_k" latest = Some (Fin k) ->
      dict_get "stoch_d" latest = Some d ->
      is_nan d = false ->
      let s := _analyze_stochastic latest in
      (strength s = 1%Z <-> k < 20) /\
      (strength s = (-1)%Z <-> 80 < k) /\
      (strength s = 0%Z <-> 20 <= k /\ k <= 80) /\
      (signal s = bullish <-> k < 20) /\
      (signal s = bearish <-> 80 < k)) /\
  (forall (latest : Row),
      isna (dict_get "stoch_d" latest) = true ->
      _analyze_stochastic latest = mkSignal neutral 0 []).
Proof.
  split.
  - intros latest k d Hk Hd Nd. cbv zeta. unfold _analyze_stochastic.
    rewrite Hk, Hd, Nd. simpl is_nan. simpl orb. cbv iota.
    unfold fl_gt. rewrite !fl_lt_Fin.
    q_cases; q_solve.
  - intros latest H. unfold _analyze_stochastic.
    destruct (dict_get "stoch_k" latest) as [k|]; [|reflexivity].
    destruct (isna_cases _ H) as [-> | ->]; [reflexivity|].
    simpl is_nan. now rewrite orb_true_r.
Qed.

Lemma stochastic_thresholds_witness :
  dict_get "stoch_k" MoreSamples.uptrend_row = Some (Fin 85) /\
  dict_get "stoch_d" MoreSamples.uptrend_row = Some (Fin 80) /\
  strength (_analyze_stochastic MoreSamples.uptrend_row) = (-1)%Z.
Proof.
  split; [reflexivity|]. split; [reflexivity|].
  destruct (proj1 stochastic_thresholds MoreSamples.uptrend_row 85 (Fin 80)
              eq_refl eq_refl eq_refl) as (_ & H & _).
  apply H. reflexivity.
Defined.

(** ** The recommendation bands are ordered *)

(** X3.  [_generate_recommendation] is monotone: a higher score never
    gets a worse recommendation. *)
Theorem recommendation_monotone (s1 s2 : Q) :
  s1 <= s2 ->
  (rank (_generate_recommendation s1) <= rank (_generate_recommendation s2))%Z.
Proof.
  intros Hle. unfold _generate_recommendation.
  q_cases; simpl; first [lia | exfalso; lra].
Qed.

Lemma recommendation_monotone_witness :
  62 <= 79.99 /\
  (rank (_generate_recommendation 62) <= rank (_generate_recommendation 79.99))%Z.
Proof.
  assert (H : 62 <= 79.99) by (unfold Qle; simpl; lia).
  split; [exact H|]. exact (recommendation_monotone 62 79.99 H).
Defined.

(** ** The price-level classifiers *)

(** X4.  [_analyze_moving_averages] on a row with finite price and
    moving averages: the strength is positive iff the price is above all
    three averages and negative iff it is below all three; it is 2
    (pattern golden_cross) iff moreover sma_20 > sma_50 > sma_200, and -2
    (pattern death_cross) iff moreover sma_20 < sma_50 < sma_200.  A row
    without the price or without one of the three averages makes the
    classifier raise [KeyError] for the first of Close, sma_20, sma_50,
    sma_200 that is missing, whatever the other columns hold; with all four
    there, a NaN average makes it neutral. *)
Theorem moving_average_patterns :
  (forall (latest : Row) (p a b c : Q),
      dict_get "Close" latest = Some (Fin p) ->
      dict_get "sma_20" latest = Some (Fin a) ->
      dict_get "sma_50" latest = Some (Fin b) ->
      dict_get "sma_200" latest = Some (Fin c) ->
      exists s,
        _analyze_moving_averages latest = Ok s /\
        ((0 < strength s)%Z <-> a < p /\ b < p /\ c < p) /\
        ((strength s < 0)%Z <-> p < a /\ p < b /\ p < c) /\
        (strength s = 2%Z <-> c < b /\ b < a /\ a < p) /\
        (strength s = (-2)%Z <-> a < b /\ b < c /\ p < a) /\
        (strength s = 2%Z -> s = mkSignal bullish 2 [("pattern", PyStr "golden_cross")]) /\
        (strength s = (-2)%Z -> s = mkSignal bearish (-2) [("pattern", PyStr "death_cross")])) /\
  (forall latest : Row,
      dict_get "Close" latest = None ->
      _analyze_moving_averages latest = Raise (KeyError "Close")) /\
  (forall (latest : Row) (p : fl),
      dict_get "Close" latest = Some p ->
      dict_get "sma_20" latest = None ->
      _analyze_moving_averages latest = Raise (KeyError "sma_20")) /\
  (forall (latest : Row) (p a : fl),
      dict_get "Close" latest = Some p ->
      dict_get "sma_20" latest = Some a ->
      dict_get "sma_50" latest = None ->
      _analyze_moving_averages latest = Raise (KeyError "sma_50")) /\
  (forall (latest : Row) (p a b : fl),
      dict_get "Close" latest = Some p ->
      dict_get "sma_20" latest = Some a ->
      dict_get "sma_50" latest = Some b ->
      dict_get "sma_200" latest = None ->
      _analyze_moving_averages latest = Raise (KeyError "sma_200")) /\
  (forall (latest : Row) (p a b c : fl),
      dict_get "Close" latest = Some p ->
      dict_get "sma_20" latest = Some a ->
      dict_get "sma_50" latest = Some b ->
      dict_get "sma_200" latest = Some c ->
      is_nan a || is_nan b || is_nan c = true ->
      _analyze_moving_averages latest = Ok (mkSignal neutral 0 [])).
Proof.
  split; [|split; [|split; [|split; [|split]]]].
  - intros latest p a b c Hp Ha Hb Hc.
    unfold _analyze_moving_averages, getitem, bind. rewrite Hp, Ha, Hb, Hc.
    eexists. split; [reflexivity|].
    simpl is_nan. simpl orb. cbv iota. unfold fl_gt. rewrite !fl_lt_Fin.
    q_cases; simpl andb; cbv iota; q_solve.
  - intros latest Hp.
    unfold _analyze_moving_averages, getitem, bind. now rewrite Hp.
  - intros latest p Hp Ha.
    unfold _analyze_moving_averages, getitem, bind. now rewrite Hp, Ha.
  - intros latest p a Hp Ha Hb.
    unfold _analyze_moving_averages, getitem, bind. now rewrite Hp, Ha, Hb.
  - intros latest p a b Hp Ha Hb Hc.
    unfold _analyze_moving_averages, getitem, bind. now rewrite Hp, Ha, Hb, Hc.
  - intros latest p a b c Hp Ha Hb Hc Hnan.
    unfold _analyze_moving_averages, getitem, bind. now rewrite Hp, Ha, Hb, Hc, Hnan.
Qed.

Lemma moving_average_patterns_witness :
  dict_get "Close" MoreSamples.uptrend_row = Some (Fin 115) /\
  dict_get "sma_20" MoreSamples.uptrend_row = Some (Fin 110) /\
  dict_get "sma_50" MoreSamples.uptrend_row = Some (Fin 100) /\
  dict_get "sma_200" MoreSamples.uptrend_row = Some (Fin 90) /\
  _analyze_moving_averages MoreSamples.uptrend_row
  = Ok (mkSignal bullish 2 [("pattern", PyStr "golden_cross")]).
Proof.
  do 4 (split; [reflexivity|]).
  destruct (proj1 moving_average_patterns MoreSamples.uptrend_row 115 110 100 90
              eq_refl eq_refl eq_refl eq_refl) as (s & E & _ & _ & H2 & _ & Hs & _).
  rewrite E. f_equal. apply Hs, H2. repeat split.
Defined.

(** X5.  [_analyze_bollinger_bands] on a row with finite price and
    finite bands in order (lower <= middle <= upper) is never neutral:
    the strength is positive iff the price is below the middle band, 2 iff
    it is below the lower band, -2 iff it is above the upper band, and -1
    for a price from the middle band up to the upper band.  With both
    outer bands present, a price inside them and no middle band the
    comparison raises [TypeError]; with an outer band missing or NaN the
    signal is neutral. *)
Theorem bollinger_positions :
  (forall (latest : Row) (p lo mid up : Q),
      dict_get "Close" latest = Some (Fin p) ->
      dict_get "bb_lower" latest = Some (Fin lo) ->
      dict_get "bb_middle" latest = Some (Fin mid) ->
      dict_get "bb_upper" latest = Some (Fin up) ->
      lo <= mid -> mid <= up ->
      exists s,
        _analyze_bollinger_bands latest = Ok s /\
        strength s <> 0%Z /\
        ((0 < strength s)%Z <-> p < mid) /\
        (strength s = 2%Z <-> p < lo) /\
        (strength s = (-2)%Z <-> up < p) /\
        (strength s = (-1)%Z <-> mid <= p /\ p <= up) /\
        (signal s = bullish <-> p < mid)) /\
  (forall (latest : Row) (p lo up : Q),
      dict_get "Close" latest = Some (Fin p) ->
      dict_get "bb_lower" latest = Some (Fin lo) ->
      dict_get "bb_upper" latest = Some (Fin up) ->
      dict_get "bb_middle" latest = None ->
      lo <= p -> p <= up ->
      exists msg, _analyze_bollinger_bands latest = Raise (TypeError msg)) /\
  (forall (latest : Row) (p : fl),
      dict_get "Close" latest = Some p ->
      isna (dict_get "bb_upper" latest) = true \/ isna (dict_get "bb_lower" latest) = true ->
      _analyze_bollinger_bands latest = Ok (mkSignal neutral 0 [])).
Proof.
  split; [|split].
  - intros latest p lo mid up Hp Hlo Hmid Hup Hlm Hmu.
    unfold _analyze_bollinger_bands, getitem, bind. rewrite Hp, Hlo, Hmid, Hup.
    simpl is_nan. simpl orb. cbv iota. unfold fl_gt. rewrite !fl_lt_Fin.
    destruct (Qlt_bool_spec p lo); [eexists; split; [reflexivity|q_solve]|].
    destruct (Qlt_bool_spec up p); [eexists; split; [reflexivity|q_solve]|].
    destruct (Qlt_bool_spec p mid); eexists; (split; [reflexivity|q_solve]).
  - intros latest p lo up Hp Hlo Hup Hmid Hl Hu.
    unfold _analyze_bollinger_bands, getitem, bind. rewrite Hp, Hlo, Hmid, Hup.
    simpl is_nan. simpl orb. cbv iota. unfold fl_gt. rewrite !fl_lt_Fin.
    destruct (Qlt_bool_spec p lo); [exfalso; lra|].
    destruct (Qlt_bool_spec up p); [exfalso; lra|].
    eexists. reflexivity.
  - intros latest p Hp [H|H].
    + now apply (_analyze_bollinger_bands_blank latest p).
    + unfold _analyze_bollinger_bands, getitem, bind. rewrite Hp.
      destruct (dict_get "bb_upper" latest) as [u|]; [|reflexivity].
      destruct (isna_cases _ H) as [-> | ->]; [reflexivity|].
      simpl is_nan. now rewrite orb_true_r.
Qed.

Lemma bollinger_positions_witness :
  dict_get "Close" MoreSamples.uptrend_row = Some (Fin 115) /\
  dict_get "bb_lower" MoreSamples.uptrend_row = Some (Fin 100) /\
  dict_get "bb_middle" MoreSamples.uptrend_row = Some (Fin 110) /\
  dict_get "bb_upper" MoreSamples.uptrend_row = Some (Fin 120) /\
  100 <= 110 /\ 110 <= 120 /\
  exists s,
    _analyze_bollinger_bands MoreSamples.uptrend_row = Ok s /\ strength s = (-1)%Z.
Proof.
  assert (H1 : 100 <= 110) by (unfold Qle; simpl; lia).
  assert (H2 : 110 <= 120) by (unfold Qle; simpl; lia).
  do 4 (split; [reflexivity|]). split; [exact H1|]. split; [exact H2|].
  destruct (proj1 bollinger_positions MoreSamples.uptrend_row 115 100 110 120
              eq_refl eq_refl eq_refl eq_refl H1 H2)
    as (s & E & _ & _ & _ & _ & Hm & _).
  exists s. split; [exact E|]. apply Hm. split; unfold Qle; simpl; lia.
Defined.



(** ** The trend and the trailing window *)

Lemma tail_length (n : nat) (df : DataFrame) :
  (n <= length df)%nat -> length (tail n df) = n.
Proof. intros H. unfold tail. rewrite length_skipn. lia. Qed.

Lemma tail_tail (n : nat) (df : DataFrame) :
  (n <= length df)%nat -> tail n (tail n df) = tail n df.
Proof.
  intros H. unfold tail at 1. rewrite (tail_length n df H).
  now rewrite Nat.sub_diag.
Qed.

Lemma _analyze_trend_tail (df : DataFrame) :
  (20 <= length df)%nat -> _analyze_trend (tail 20 df) 20 = _analyze_trend df 20.
Proof.
  intros H. unfold _analyze_trend.
  rewrite (tail_tail 20 df H), (tail_length 20 df H).
  destruct (Nat.ltb_spec (length df) 20); [lia|].
  reflexivity.
Qed.

Lemma last_skipn {A} (k : nat) (l : list A) (d : A) :
  (k < length l)%nat -> last (skipn k l) d = last l d.
Proof.
  revert l. induction k as [|k IH]; intros l H; [reflexivity|].
  destruct l as [|a l]; [simpl in H; lia|].
  simpl skipn. rewrite IH by (simpl in H; lia).
  destruct l; [simpl in H; lia | reflexivity].
Qed.

Lemma removelast_skipn {A} (k : nat) (l : list A) :
  (k < length l)%nat -> removelast (skipn k l) = skipn k (removelast l).
Proof.
  revert l. induction k as [|k IH]; intros l H; [reflexivity|].
  destruct l as [|a l]; [simpl in H; lia|].
  simpl skipn. rewrite IH by (simpl in H; lia).
  destruct l; [simpl in H; lia | reflexivity].
Qed.

Lemma length_removelast {A} (l : list A) : length (removelast l) = (length l - 1)%nat.
Proof.
  induction l as [|a l IH]; [reflexivity|].
  destruct l as [|b l]; [reflexivity|].
  change (removelast (a :: b :: l)) with (a :: removelast (b :: l)).
  simpl length in *. lia.
Qed.


Lemma fold_left_fl_add_Fin (qs : list Q) (a : Q) :
  fold_left fl_add (map Fin qs) (Fin a) = Fin (fold_left Qplus qs a).
Proof.
  revert a. induction qs as [|q qs IH]; intros a; [reflexivity|].
  simpl. apply IH.
Qed.



Lemma fold_left_Qplus_pos (qs : list Q) (a : Q) :
  0 <= a -> Forall (fun q => 0 < q) qs -> qs <> [] -> 0 < fold_left Qplus qs a.
Proof.
  intros Ha H. revert a Ha.
  induction H as [|q qs Hq Hqs IH]; intros a Ha Hne; [congruence|].
  simpl. destruct qs as [|q' qs].
  - simpl. lra.
  - apply IH; [lra | discriminate].
Qed.

Lemma fl_div_Fin (a b : Q) : ~ b == 0 -> fl_div (Fin a) (Fin b) = Fin (a / b).
Proof.
  intros H. unfold fl_div. destruct (Qeq_bool b 0) eqn:E; [|reflexivity].
  apply Qeq_bool_iff in E. contradiction.
Qed.





(** X8.  [generate_technical_signals] reads only the trailing window:
    on a series of at least 20 bars (none of them without columns) the
    result - score, signals, reasoning, or the exception raised - is the
    one obtained from the last 20 bars alone. *)
Theorem classifier_reads_trailing_window (df : DataFrame) :
  (20 <= length df)%nat ->
  (forall r, In r df -> r <> []) ->
  generate_technical_signals (Some df) = generate_technical_signals (Some (tail 20 df)).
Proof.
  intros Hlen Hrows.
  assert (Hk : (length df - 20 < length df)%nat) by lia.
  assert (Hlast : iloc_last (tail 20 df) = iloc_last df).
  { unfold iloc_last, tail. now apply last_skipn. }
  assert (Hlast2 : iloc_last2 (tail 20 df) = iloc_last2 df).
  { unfold iloc_last2, tail. rewrite removelast_skipn by exact Hk.
    apply last_skipn. rewrite length_removelast. lia. }
  assert (Hempty : forall d, d <> [] -> (forall r, In r d -> r <> []) -> df_empty d = false).
  { intros d Hd Hr. destruct d as [|r d]; [congruence|].
    destruct r; [|reflexivity]. exfalso. apply (Hr []); [now left | reflexivity]. }
  unfold generate_technical_signals.
  rewrite (Hempty df) by (try assumption; intros ->; simpl in Hlen; lia).
  rewrite (Hempty (tail 20 df)).
  - rewrite Hlast, Hlast2, (_analyze_trend_tail df Hlen), (tail_length 20 df Hlen).
    destruct (Nat.ltb_spec 1 (length df)); [|lia].
    change (1 <? 20)%nat with true. reflexivity.
  - intros E. pose proof (tail_length 20 df Hlen) as L. rewrite E in L. discriminate L.
  - intros r Hr. apply Hrows. unfold tail in Hr.
    rewrite <- (firstn_skipn (length df - 20) df). apply in_or_app. now right.
Qed.

Lemma classifier_reads_trailing_window_witness :
  (20 <= length MoreSamples.rising_frame)%nat /\
  generate_technical_signals (Some MoreSamples.rising_frame)
  = generate_technical_signals (Some (tail 20 MoreSamples.rising_frame)).
Proof.
  assert (Hlen : (20 <= length MoreSamples.rising_frame)%nat) by (simpl; lia).
  split; [exact Hlen|].
  apply (classifier_reads_trailing_window MoreSamples.rising_frame Hlen).
  intros r Hr. apply in_map_iff in Hr. destruct Hr as (i & <- & _). discriminate.
Defined.

(** ** The pipeline leaves the price history alone *)

Import Pipeline.

Lemma same_prices_refl (df : DataFrame) : same_prices df df.
Proof.
  unfold same_prices. induction df as [|r df IH]; constructor; [|exact IH].
  split; [reflexivity | trivial].
Qed.

Lemma same_prices_trans (d1 d2 d3 : DataFrame) :
  same_prices d1 d2 -> same_prices d2 d3 -> same_prices d1 d3.
Proof.
  unfold same_prices. intros H12. revert d3.
  induction H12 as [|r1 r2 d1 d2 [Hg Hm] _ IH]; intros d3 H23.
  - inversion H23. constructor.
  - inversion H23 as [|? r3 ? d3' [Hg' Hm'] Hrest]; subst.
    constructor; [|now apply IH].
    split.
    + intros name Hn. now rewrite Hg', Hg.
    + intros name H. now apply Hm', Hm.
Qed.

Lemma dict_mem_set {V} (name k : string) (v : V) (d : dict V) :
  dict_mem name d = true -> dict_mem name (dict_set k v d) = true.
Proof.
  unfold dict_mem. destruct (String.eqb_spec name k) as [->|Hne].
  - now rewrite dict_get_set_same.
  - now rewrite dict_get_set_other.
Qed.

Lemma set_column_same_prices (name : string) (values : option (list fl)) (df : DataFrame) :
  In name derived_columns -> same_prices df (set_column name values df).
Proof.
  intros Hin. unfold same_prices. revert values.
  induction df as [|r df IH]; intros values; [constructor|].
  assert (Hrow : forall v,
    (forall n, ~ In n derived_columns -> dict_get n (dict_set name v r) = dict_get n r) /\
    (forall n, dict_mem n r = true -> dict_mem n (dict_set name v r) = true)).
  { intros v. split.
    - intros n Hn. apply dict_get_set_other. intros ->. contradiction.
    - intros n. apply dict_mem_set. }
  destruct values as [[|v vs]|]; simpl; constructor; auto.
Qed.

Lemma keeps_sret {A} (a : A) : keeps (sret a).
Proof. intros df. apply same_prices_refl. Qed.

Lemma keeps_lift {A} (r : Result A) : keeps (lift r).
Proof. intros df. apply same_prices_refl. Qed.

Lemma keeps_read (name : string) : keeps (read_column name).
Proof. intros df. apply same_prices_refl. Qed.

Lemma keeps_assign (name : string) (values : option (list fl)) :
  In name derived_columns -> keeps (assign name values).
Proof. intros H df. now apply set_column_same_prices. Qed.

Lemma keeps_sbind {A B} (m : Stmt A) (f : A -> Stmt B) :
  keeps m -> (forall a, keeps (f a)) -> keeps (sbind m f).
Proof.
  intros Hm Hf df. unfold sbind. specialize (Hm df).
  destruct (m df) as [[a|e] df']; simpl in *.
  - eapply same_prices_trans; [exact Hm | apply Hf].
  - exact Hm.
Qed.

Lemma keeps_except (body handler : Stmt unit) :
  keeps body -> keeps handler -> keeps (except_KeyError body handler).
Proof.
  intros Hb Hh df. unfold except_KeyError. specialize (Hb df).
  destruct (body df) as [[a|[k|m|m|m|m]] df']; simpl in *; try exact Hb.
  eapply same_prices_trans; [exact Hb | apply Hh].
Qed.

Ltac derived := simpl; tauto.

Ltac keeps_steps :=
  repeat first
    [ apply keeps_sret
    | apply keeps_lift
    | apply keeps_read
    | apply keeps_assign; derived
    | apply keeps_sbind; [|intros ?]
    | apply keeps_except
    | match goal with
      | |- keeps (match ?x with _ => _ end) => destruct x
      end ].

Lemma keeps_indicators_body (ta : pandas_ta) : keeps (indicators_body ta).
Proof.
  unfold indicators_body, assign_bands. keeps_steps.
Qed.

(** X9.  [calculate_all_indicators] always hands back a series with the
    same number of rows in which no column has been removed and every
    column other than the fifteen derived ones (so Open, High, Low,
    Close, Volume and anything else the caller had) holds the values it
    held before, whether or not an indicator computation failed. *)
Theorem pipeline_keeps_prices (ta : pandas_ta) (df : DataFrame) :
  exists df',
    calculate_all_indicators ta (Some df) = Some df' /\
    length df' = length df /\
    (forall i name,
        ~ In name derived_columns ->
        dict_get name (nth i df' []) = dict_get name (nth i df [])) /\
    (forall i name,
        dict_mem name (nth i df []) = true -> dict_mem name (nth i df' []) = true).
Proof.
  assert (H : exists df',
             calculate_all_indicators ta (Some df) = Some df' /\ same_prices df df').
  { unfold calculate_all_indicators. destruct (df_empty df).
    - exists df. split; [reflexivity | apply same_prices_refl].
    - eexists. split; [reflexivity | apply keeps_indicators_body]. }
  destruct H as (df' & E & S). exists df'. split; [exact E|].
  unfold same_prices in S. clear E.
  split; [symmetry; exact (Forall2_length S)|].
  split.
  - intros i name Hn. revert i.
    induction S as [|r r' d d' [Hg _] _ IH]; intros i; [reflexivity|].
    destruct i; simpl; [now apply Hg | apply IH].
  - intros i name. revert i.
    induction S as [|r r' d d' [_ Hm] _ IH]; intros i; [destruct i; trivial|].
    destruct i; simpl; [apply Hm | apply IH].
Qed.

Lemma pipeline_keeps_prices_witness :
  ~ In "Close" derived_columns /\
  exists df',
    calculate_all_indicators Samples.failing_rsi_ta (Some [Samples.bar 100 1000]) = Some df' /\
    length df' = 1%nat /\
    dict_get "Close" (nth 0 df' []) = Some (Fin 100).
Proof.
  assert (N : ~ In "Close" derived_columns).
  { unfold derived_columns. simpl. intuition discriminate. }
  split; [exact N|].
  destruct (pipeline_keeps_prices Samples.failing_rsi_ta [Samples.bar 100 1000])
    as (df' & E & L & G & _).
  exists df'. split; [exact E|]. split; [exact L|].
  rewrite (G 0%nat "Close" N). reflexivity.
Defined.

(** ** Rounding is monotone *)

Lemma round_half_even_mono (x y : Q) : x <= y -> (round_half_even x <= round_half_even y)%Z.
Proof.
  intros Hle.
  pose proof (Qfloor_resp_le _ _ Hle) as Hf.
  pose proof (round_half_even_bounds x) as [_ Bx].
  pose proof (round_half_even_bounds y) as [By _].
  destruct (Z.eq_dec (Qfloor x) (Qfloor y)) as [E|NE]; [|lia].
  unfold round_half_even. rewrite E.
  set (f := Qfloor y).
  destruct (Qlt_bool_spec (x - inject_Z f) (1 # 2)),
           (Qlt_bool_spec (y - inject_Z f) (1 # 2));
    try lia; try (exfalso; lra);
    destruct (Qlt_bool_spec (1 # 2) (x - inject_Z f)),
             (Qlt_bool_spec (1 # 2) (y - inject_Z f));
    try lia; try (exfalso; lra);
    destruct (Z.even f); lia.
Qed.

Lemma round2_mono (x y : Q) : x <= y -> round2 x <= round2 y.
Proof.
  intros Hle. unfold round2.
  assert (H : (round_half_even (x * 100) <= round_half_even (y * 100))%Z).
  { apply round_half_even_mono. lra. }
  rewrite Zle_Qle in H.
  apply Qle_shift_div_l; [lra|].
  setoid_replace (inject_Z (round_half_even (x * 100)) / 100 * 100)
    with (inject_Z (round_half_even (x * 100))) by (field; lra).
  exact H.
Qed.

(** ** What a scored stock looks like *)

Import Scored.

Lemma blend_range (t f : Q) :
  0 <= t -> t <= 100 -> 0 <= f -> f <= 100 -> 0 <= blend t f /\ blend t f <= 100.
Proof.
  intros. unfold blend, technical_weight, fundamental_weight,
    config.TECHNICAL_WEIGHT, config.FUNDAMENTAL_WEIGHT. split; lra.
Qed.

Lemma generated_score_range (df : option DataFrame) (a : TechnicalAnalyzer.Analysis) :
  generate_technical_signals df = Ok (Analysed a) ->
  0 <= TechnicalAnalyzer.score a /\ TechnicalAnalyzer.score a <= 100.
Proof.
  intros H.
  pose proof (generated_signals_in_range df a H) as R.
  destruct (generate_technical_signals_ok df a H)
    as (d & ? & ? & ? & ? & ? & _ & _ & _ & _ & _ & _ & _ & _ & ->).
  apply technical_score_range. intros name s Hs.
  apply (R name s). now apply dict_get_In.
Qed.

Lemma analysed_score_range (data : dict (option fl)) (a : FundamentalAnalyzer.Analysis) :
  analyze_fundamentals data = Ok a ->
  0 <= FundamentalAnalyzer.score a /\ FundamentalAnalyzer.score a <= 100.
Proof.
  intros H.
  destruct (analyze_fundamentals_ok data a H) as [(_ & _ & ->)|(_ & _ & ->)]; [lra|].
  apply fundamental_score_range, collect_signals_in_range.
Qed.

Lemma placeholder_well_scored (w : World) (s msg : string) :
  well_scored (_create_error_result w s msg).
Proof.
  unfold well_scored. simpl. repeat split; try lra; try reflexivity. now right.
Qed.

Lemma score_stock_well_scored w s price_data fundamental_data r :
  score_stock w s price_data fundamental_data = Ok r -> well_scored r.
Proof.
  unfold score_stock. intros H.
  match type of H with
  | match ?p with _ => _ end = _ => destruct p as [d|]
  end.
  2: { injection H as <-. apply placeholder_well_scored. }
  destruct (df_empty d); [injection H as <-; apply placeholder_well_scored|].
  unfold bind in H.
  destruct (generate_technical_signals _) as [[msg|t]|] eqn:Et; try discriminate.
  - destruct (analyze_fundamentals _); discriminate.
  - destruct (analyze_fundamentals _) as [fr|] eqn:Ef; [|discriminate].
    injection H as <-. unfold well_scored. simpl.
    split; [exact (generated_score_range _ _ Et)|].
    split; [exact (analysed_score_range _ _ Ef)|].
    split; [reflexivity|]. split; [reflexivity|]. now left.
Qed.

Lemma score_or_placeholder_well_scored w s : well_scored (score_or_placeholder w s).
Proof.
  unfold score_or_placeholder.
  destruct (score_stock w s None None) eqn:E.
  - eapply score_stock_well_scored; eassumption.
  - apply placeholder_well_scored.
Qed.

Lemma score_portfolio_In w symbols r :
  In r (score_portfolio w symbols) ->
  exists s, In s symbols /\ r = score_or_placeholder w s.
Proof.
  intros H. unfold score_portfolio in H.
  apply (Permutation_in _ (sort_desc_perm _)) in H.
  apply in_map_iff in H. destruct H as (s & <- & Hs). now exists s.
Qed.

Lemma well_scored_overall (r : StockResult) :
  well_scored r -> 0 <= overall_score r /\ overall_score r <= 100.
Proof.
  intros ([T0 T1] & [F0 F1] & E & _). rewrite E.
  apply round2_range; now apply blend_range.
Qed.

(** X10.  Whatever the market data, a result of [score_stock] has its
    technical, fundamental and overall score in [0, 100], and so has
    every result [score_portfolio] returns. *)
Theorem scores_stay_in_range :
  (forall w symbol price_data fundamental_data r,
      score_stock w symbol price_data fundamental_data = Ok r ->
      (0 <= technical_score r /\ technical_score r <= 100) /\
      (0 <= fundamental_score r /\ fundamental_score r <= 100) /\
      (0 <= overall_score r /\ overall_score r <= 100)) /\
  (forall w symbols r,
      In r (score_portfolio w symbols) ->
      (0 <= technical_score r /\ technical_score r <= 100) /\
      (0 <= fundamental_score r /\ fundamental_score r <= 100) /\
      (0 <= overall_score r /\ overall_score r <= 100)).
Proof.
  assert (H : forall r, well_scored r ->
      (0 <= technical_score r /\ technical_score r <= 100) /\
      (0 <= fundamental_score r /\ fundamental_score r <= 100) /\
      (0 <= overall_score r /\ overall_score r <= 100)).
  { intros r W. pose proof (well_scored_overall r W) as O.
    destruct W as (T & F & _). repeat split; tauto. }
  split.
  - intros w symbol price_data fundamental_data r E.
    apply H. eapply score_stock_well_scored; eassumption.
  - intros w symbols r Hin.
    destruct (score_portfolio_In _ _ _ Hin) as (s & _ & ->).
    apply H, score_or_placeholder_well_scored.
Qed.

Lemma scores_stay_in_range_witness :
  exists r,
    score_stock Samples.market "DEAR" None None = Ok r /\
    (0 <= technical_score r /\ technical_score r <= 100) /\
    (0 <= fundamental_score r /\ fundamental_score r <= 100) /\
    (0 <= overall_score r /\ overall_score r <= 100).
Proof.
  eexists. split; [reflexivity|].
  apply (proj1 scores_stay_in_range Samples.market "DEAR" None None).
  reflexivity.
Defined.

(** X11.  [score_stock] never raises for want of prices: when no usable
    price history is supplied (none, or an empty one) and the fetcher
    finds none either, the result is the placeholder - HOLD, all three
    scores 50, no price, the error text "No price data available" - and
    neither the indicators nor the fundamentals are looked at. *)
Theorem no_price_data_placeholder (w : World) (symbol : string)
    (price_data : option DataFrame) (fundamental_data : option (dict (option fl))) :
  (price_data = None \/ exists d, price_data = Some d /\ df_empty d = true) ->
  (fetch_price_data w symbol = None \/
   exists d, fetch_price_data w symbol = Some d /\ df_empty d = true) ->
  score_stock w symbol price_data fundamental_data
  = Ok (mkStockResult symbol 50 50 50 HOLD "Error: No price data available"
          None (today w) (Some "No price data available") None).
Proof.
  intros Hgiven Hfetch. unfold score_stock.
  assert (E : match price_data with
              | Some d => if df_empty d then fetch_price_data w symbol else Some d
              | None => fetch_price_data w symbol
              end = fetch_price_data w symbol).
  { destruct Hgiven as [-> | (d & -> & ->)]; reflexivity. }
  rewrite E.
  destruct Hfetch as [-> | (d & -> & ->)]; reflexivity.
Qed.

Lemma no_price_data_placeholder_witness :
  fetch_price_data MoreSamples.silent_market "AAPL" = None /\
  exists r,
    score_stock MoreSamples.silent_market "AAPL" (Some []) None = Ok r /\
    recommendation r = HOLD /\ error r = Some "No price data available".
Proof.
  split; [reflexivity|].
  eexists. split.
  - apply (no_price_data_placeholder MoreSamples.silent_market "AAPL" (Some []) None).
    + right. exists []. split; reflexivity.
    + left. reflexivity.
  - split; reflexivity.
Defined.

(** ** Buy and sell candidates *)

Lemma round2_at_least (z : Z) (x : Q) : inject_Z z <= x -> inject_Z z <= round2 x.
Proof.
  intros H. apply round2_mono in H.
  assert (E : round2 (inject_Z z) == inject_Z z).
  { unfold round2.
    assert (E1 : inject_Z z * 100 == inject_Z (z * 100)).
    { rewrite inject_Z_mult. reflexivity. }
    rewrite (round_half_even_comp _ _ E1), round_half_even_inject.
    rewrite inject_Z_mult. field. }
  lra.
Qed.

Lemma round2_at_most (z : Z) (x : Q) : x <= inject_Z z -> round2 x <= inject_Z z.
Proof.
  intros H. apply round2_mono in H.
  assert (E : round2 (inject_Z z) == inject_Z z).
  { unfold round2.
    assert (E1 : inject_Z z * 100 == inject_Z (z * 100)).
    { rewrite inject_Z_mult. reflexivity. }
    rewrite (round_half_even_comp _ _ E1), round_half_even_inject.
    rewrite inject_Z_mult. field. }
  lra.
Qed.

Lemma buy_means_65 (b : Q) : is_buy (_generate_recommendation b) = true -> 65 <= b.
Proof.
  unfold _generate_recommendation. q_cases; simpl; intros; first [lra | discriminate].
Qed.

Lemma sell_means_below_45 (b : Q) : is_sell (_generate_recommendation b) = true -> b < 45.
Proof.
  unfold _generate_recommendation. q_cases; simpl; intros; first [lra | discriminate].
Qed.

Lemma no_sell_means_45 (b : Q) : is_sell (_generate_recommendation b) = false -> 45 <= b.
Proof.
  unfold _generate_recommendation. q_cases; simpl; intros; first [lra | discriminate].
Qed.

Lemma well_scored_buy (r : StockResult) :
  well_scored r -> is_buy (recommendation r) = true ->
  65 <= overall_score r /\ error r = None.
Proof.
  intros (_ & _ & E & R & P) H. split.
  - rewrite E. apply (round2_at_least 65). apply buy_means_65. now rewrite <- R.
  - destruct P as [P|P]; [exact P|]. rewrite P in H. discriminate.
Qed.

Lemma well_scored_sell (r : StockResult) :
  well_scored r -> is_sell (recommendation r) = true ->
  overall_score r <= 45 /\ error r = None.
Proof.
  intros (_ & _ & E & R & P) H. split.
  - rewrite E. apply (round2_at_most 45).
    apply Qlt_le_weak, sell_means_below_45. now rewrite <- R.
  - destruct P as [P|P]; [exact P|]. rewrite P in H. discriminate.
Qed.

Lemma well_scored_no_sell (r : StockResult) :
  well_scored r -> is_sell (recommendation r) = false -> 45 <= overall_score r.
Proof.
  intros (_ & _ & E & R & _) H.
  rewrite E. apply (round2_at_least 45). apply no_sell_means_45. now rewrite <- R.
Qed.

Lemma score_portfolio_well_scored w symbols r :
  In r (score_portfolio w symbols) -> well_scored r.
Proof.
  intros H. destruct (score_portfolio_In _ _ _ H) as (s & _ & ->).
  apply score_or_placeholder_well_scored.
Qed.

Lemma score_portfolio_sorted w symbols : StronglySorted descending (score_portfolio w symbols).
Proof.
  apply Sorted_StronglySorted; [exact descending_trans | apply sort_desc_sorted].
Qed.

Lemma StronglySorted_filter {A} (R : A -> A -> Prop) (p : A -> bool) (l : list A) :
  StronglySorted R l -> StronglySorted R (filter p l).
Proof.
  induction 1 as [|a l Hs IH Hall]; simpl; [constructor|].
  destruct (p a); [|exact IH].
  constructor; [exact IH|].
  rewrite Forall_forall in *. intros x Hx. apply Hall.
  apply filter_In in Hx. tauto.
Qed.

Lemma StronglySorted_firstn {A} (R : A -> A -> Prop) (n : nat) (l : list A) :
  StronglySorted R l -> StronglySorted R (firstn n l).
Proof.
  intros H. revert n. induction H as [|a l Hs IH Hall]; intros n.
  - destruct n; constructor.
  - destruct n; simpl; [constructor|].
    constructor; [apply IH|].
    rewrite Forall_forall in *. intros x Hx. apply Hall.
    rewrite <- (firstn_skipn n l). apply in_or_app. now left.
Qed.

Lemma In_firstn {A} (n : nat) (l : list A) (x : A) : In x (firstn n l) -> In x l.
Proof.
  intros H. rewrite <- (firstn_skipn n l). apply in_or_app. now left.
Qed.

Lemma get_buy_recommendations_filter (w : World) (symbols : list string) (top_n : nat) :
  get_buy_recommendations w symbols top_n
  = firstn top_n
      (filter (fun r => is_buy (recommendation r)) (score_portfolio w symbols)).
Proof.
  unfold get_buy_recommendations. f_equal.
  apply filter_ext_in. intros r Hr.
  destruct (is_buy (recommendation r)) eqn:B; [|reflexivity]. simpl.
  destruct (well_scored_buy r (score_portfolio_well_scored _ _ _ Hr) B) as [H65 _].
  unfold config.MIN_BUY_SCORE.
  destruct (Qle_bool_spec 60 (overall_score r)); [reflexivity | exfalso; lra].
Qed.

Lemma get_sell_recommendations_filter (w : World) (holdings : list string) :
  get_sell_recommendations w holdings
  = filter (fun r => is_sell (recommendation r)) (score_portfolio w holdings).
Proof.
  unfold get_sell_recommendations.
  apply filter_ext_in. intros r Hr.
  destruct (is_sell (recommendation r)) eqn:B; [reflexivity|]. simpl.
  pose proof (well_scored_no_sell r (score_portfolio_well_scored _ _ _ Hr) B) as H45.
  unfold config.MAX_SELL_SCORE.
  destruct (Qle_bool_spec (overall_score r) 40); [exfalso; lra | reflexivity].
Qed.

(** X12.  [get_buy_recommendations] returns at most [top_n] results,
    best first, each taken from the ranked portfolio with recommendation
    STRONG BUY or BUY, an overall score of at least 65 and no error; a
    placeholder of a failed symbol is never among them.  The test against
    the minimum buy score of 60 never removes anything: the list is the
    first [top_n] of the results recommended for buying. *)
Theorem buy_recommendations_sound (w : World) (symbols : list string) (top_n : nat) :
  let buys := get_buy_recommendations w symbols top_n in
  buys = firstn top_n
           (filter (fun r => is_buy (recommendation r)) (score_portfolio w symbols)) /\
  (length buys <= top_n)%nat /\
  StronglySorted descending buys /\
  (forall r,
      In r buys ->
      In r (score_portfolio w symbols) /\
      (recommendation r = STRONG_BUY \/ recommendation r = BUY) /\
      65 <= overall_score r /\
      error r = None).
Proof.
  cbv zeta. rewrite get_buy_recommendations_filter.
  split; [reflexivity|]. split; [apply firstn_le_length|].
  split.
  - apply StronglySorted_firstn, StronglySorted_filter, score_portfolio_sorted.
  - intros r Hr. apply In_firstn in Hr. apply filter_In in Hr. destruct Hr as [Hin B].
    split; [exact Hin|].
    destruct (well_scored_buy r (score_portfolio_well_scored _ _ _ Hin) B) as [H65 He].
    split; [|split; assumption].
    destruct (recommendation r); simpl in B; try discriminate; auto.
Qed.

Lemma buy_recommendations_sound_witness :
  map symbol (get_buy_recommendations Samples.market ["DEAR"; "BAD"; "CHEAP"] 10)
  = ["CHEAP"] /\
  forall r,
    In r (get_buy_recommendations Samples.market ["DEAR"; "BAD"; "CHEAP"] 10) ->
    In r (score_portfolio Samples.market ["DEAR"; "BAD"; "CHEAP"]) /\
    (recommendation r = STRONG_BUY \/ recommendation r = BUY) /\
    65 <= overall_score r /\
    error r = None.
Proof.
  split; [reflexivity|].
  exact (proj2 (proj2 (proj2
           (buy_recommendations_sound Samples.market ["DEAR"; "BAD"; "CHEAP"] 10)))).
Defined.

(** X13.  [get_sell_recommendations] returns exactly the results of the
    holdings whose recommendation is SELL or STRONG SELL, worst last:
    each names a holding, has an overall score of at most 45 and no
    error.  The alternative test against the maximum sell score of 40
    never adds anything, because every other recommendation comes with
    a score of at least 45; in particular a holding whose scoring failed
    is never proposed for selling. *)
Theorem sell_recommendations_sound (w : World) (holdings : list string) :
  let sells := get_sell_recommendations w holdings in
  sells = filter (fun r => is_sell (recommendation r)) (score_portfolio w holdings) /\
  StronglySorted descending sells /\
  (forall r,
      In r sells ->
      In (symbol r) holdings /\
      (recommendation r = SELL \/ recommendation r = STRONG_SELL) /\
      overall_score r <= 45 /\
      error r = None) /\
  (forall s message, ~ In (_create_error_result w s message) sells).
Proof.
  cbv zeta. rewrite get_sell_recommendations_filter.
  split; [reflexivity|]. split.
  - apply StronglySorted_filter, score_portfolio_sorted.
  - split.
    + intros r Hr. apply filter_In in Hr. destruct Hr as [Hin B].
      destruct (well_scored_sell r (score_portfolio_well_scored _ _ _ Hin) B) as [H45 He].
      split.
      * destruct (score_portfolio_In _ _ _ Hin) as (s & Hs & ->).
        now rewrite score_or_placeholder_symbol.
      * split; [|split; assumption].
        destruct (recommendation r); simpl in B; try discriminate; auto.
    + intros s message Hin. apply filter_In in Hin. destruct Hin as [_ B]. discriminate B.
Qed.

Lemma sell_recommendations_sound_witness :
  In (_create_error_result Samples.market "BAD" "'rsi'")
     (score_portfolio Samples.market ["DEAR"; "BAD"; "CHEAP"]) /\
  map symbol (get_sell_recommendations Samples.market ["DEAR"; "BAD"; "CHEAP"]) = ["DEAR"] /\
  forall r,
    In r (get_sell_recommendations Samples.market ["DEAR"; "BAD"; "CHEAP"]) ->
    In (symbol r) ["DEAR"; "BAD"; "CHEAP"] /\
    (recommendation r = SELL \/ recommendation r = STRONG_SELL) /\
    overall_score r <= 45 /\
    error r = None.
Proof.
  split; [right; left; reflexivity|]. split; [reflexivity|].
  exact (proj1 (proj2 (proj2
           (sell_recommendations_sound Samples.market ["DEAR"; "BAD"; "CHEAP"])))).
Defined.

(** ** Ties in the ranking *)

Lemma filter_insert_desc (q : Q) (x : StockResult) (l : list StockResult) :
  filter (fun r => Qeq_bool (overall_score r) q) (insert_desc x l)
  = filter (fun r => Qeq_bool (overall_score r) q) (x :: l).
Proof.
  induction l as [|y l IH]; [reflexivity|].
  simpl insert_desc.
  destruct (Qle_bool_spec (overall_score y) (overall_score x)) as [Hle|Hlt];
    [reflexivity|].
  change (filter (fun r => Qeq_bool (overall_score r) q) (y :: insert_desc x l))
    with (if Qeq_bool (overall_score y) q
          then y :: filter (fun r => Qeq_bool (overall_score r) q) (insert_desc x l)
          else filter (fun r => Qeq_bool (overall_score r) q) (insert_desc x l)).
  rewrite IH. simpl.
  destruct (Qeq_bool (overall_score x) q) eqn:Ex;
    destruct (Qeq_bool (overall_score y) q) eqn:Ey; try reflexivity.
  apply Qeq_bool_iff in Ex. apply Qeq_bool_iff in Ey. exfalso. lra.
Qed.

(** X14.  The ranking of [score_portfolio] is stable: results with equal
    overall scores keep the order in which their symbols were given.  For
    every score the results holding it appear in the ranked list exactly
    as they appear in the list of per-symbol results. *)
Theorem ranking_is_stable (w : World) (symbols : list string) (q : Q) :
  filter (fun r => Qeq_bool (overall_score r) q) (score_portfolio w symbols)
  = filter (fun r => Qeq_bool (overall_score r) q) (map (score_or_placeholder w) symbols).
Proof.
  unfold score_portfolio.
  induction (map (score_or_placeholder w) symbols) as [|x l IH]; [reflexivity|].
  simpl sort_desc. rewrite filter_insert_desc. simpl. rewrite IH. reflexivity.
Qed.

(** ** The daily run *)

Lemma unique_In (x : string) (l : list string) : In x (unique l) <-> In x l.
Proof.
  induction l as [|y l IH]; simpl; [tauto|].
  rewrite filter_In, IH.
  destruct (String.eqb_spec y x) as [->|Hne]; simpl; [tauto|].
  split; [tauto|]. intros [H|H]; [now left | right; split; [exact H | reflexivity]].
Qed.

Lemma NoDup_filter_list {A} (p : A -> bool) (l : list A) : NoDup l -> NoDup (filter p l).
Proof.
  induction 1 as [|x l Hx Hl IH]; simpl; [constructor|].
  destruct (p x); [|exact IH].
  constructor; [|exact IH]. rewrite filter_In. tauto.
Qed.

Lemma unique_NoDup (l : list string) : NoDup (unique l).
Proof.
  induction l as [|x l IH]; simpl; constructor.
  - rewrite filter_In. intros [_ H]. now rewrite String.eqb_refl in H.
  - now apply NoDup_filter_list.
Qed.

Lemma distinct_symbols_filter (keep : StockResult -> bool) (results : list StockResult) :
  NoDup (map symbol results) -> NoDup (map symbol (filter keep results)).
Proof.
  induction results as [|r results IH]; simpl; [trivial|].
  intros H. inversion H as [|? ? Hr Hrest]; subst.
  destruct (keep r); simpl; [|now apply IH].
  constructor; [|now apply IH].
  intros Hin. apply Hr. apply in_map_iff in Hin. destruct Hin as (r' & E & Hr').
  apply in_map_iff. exists r'. split; [exact E|]. apply filter_In in Hr'. tauto.
Qed.

Lemma score_portfolio_symbols (w : World) (symbols : list string) :
  Permutation (map symbol (score_portfolio w symbols)) symbols.
Proof.
  unfold score_portfolio.
  transitivity (map symbol (map (score_or_placeholder w) symbols)).
  - apply Permutation_map, sort_desc_perm.
  - rewrite map_map.
    erewrite map_ext; [rewrite map_id; reflexivity|].
    intros s. apply score_or_placeholder_symbol.
Qed.

(** X15.  What [run_daily_analysis] returns, given the symbols of the
    active holdings as the database lists them: at most ten buy
    candidates, each a symbol of the analysed universe (the configured
    one when no list is passed); sell candidates only for symbols that are
    actually held, each with recommendation SELL or STRONG SELL, and
    each held symbol proposed at most once however many lots of it are
    open; with no active holding there is no sell candidate. *)
Theorem daily_analysis_lists (w : World) (active_holdings : list string)
    (symbols : option (list string)) :
  let analysis := run_daily_analysis w active_holdings symbols in
  (length (buy_recommendations analysis) <= 10)%nat /\
  (forall r,
      In r (buy_recommendations analysis) ->
      In (symbol r) (match symbols with Some l => l | None => config.STOCK_UNIVERSE end)) /\
  (forall r,
      In r (sell_recommendations analysis) ->
      In (symbol r) active_holdings /\
      (recommendation r = SELL \/ recommendation r = STRONG_SELL)) /\
  NoDup (map symbol (sell_recommendations analysis)) /\
  (active_holdings = [] -> sell_recommendations analysis = []).
Proof.
  cbv zeta. unfold run_daily_analysis. cbn [buy_recommendations sell_recommendations].
  rewrite get_buy_recommendations_filter.
  split; [apply firstn_le_length|]. split.
  { intros r Hr. apply In_firstn in Hr. apply filter_In in Hr. destruct Hr as [Hin _].
    destruct (score_portfolio_In _ _ _ Hin) as (s & Hs & ->).
    now rewrite score_or_placeholder_symbol. }
  destruct active_holdings as [|h hs].
  { split; [intros r []|]. split; [constructor | reflexivity]. }
  rewrite get_sell_recommendations_filter.
  split; [|split; [|discriminate]].
  - intros r Hr. apply filter_In in Hr. destruct Hr as [Hin B]. split.
    + destruct (score_portfolio_In _ _ _ Hin) as (s & Hs & ->).
      rewrite score_or_placeholder_symbol. now apply unique_In.
    + destruct (recommendation r); simpl in B; try discriminate; auto.
  - apply distinct_symbols_filter.
    apply (Permutation_NoDup (l := unique (h :: hs))); [|apply unique_NoDup].
    symmetry. apply score_portfolio_symbols.
Qed.

Lemma daily_analysis_lists_witness :
  map symbol (sell_recommendations
                (run_daily_analysis Samples.market ["DEAR"; "CHEAP"; "DEAR"]
                   (Some ["DEAR"; "BAD"; "CHEAP"])))
  = ["DEAR"] /\
  forall r,
    In r (sell_recommendations
            (run_daily_analysis Samples.market ["DEAR"; "CHEAP"; "DEAR"]
               (Some ["DEAR"; "BAD"; "CHEAP"]))) ->
    In (symbol r) ["DEAR"; "CHEAP"; "DEAR"] /\
    (recommendation r = SELL \/ recommendation r = STRONG_SELL).
Proof.
  split; [reflexivity|].
  exact (proj1 (proj2 (proj2
           (daily_analysis_lists Samples.market ["DEAR"; "CHEAP"; "DEAR"]
              (Some ["DEAR"; "BAD"; "CHEAP"]))))).
Defined.

(** ** Monotonicity of the technical score *)

Lemma sums_monotone (signals signals' : dict (option Signal)) (ws : dict Q) :
  Forall (fun item : string * Q => Order.stronger_at signals signals' (fst item)) ws ->
  Forall (fun item : string * Q => 0 < snd item) ws ->
  sum_2_weight (flat_map (present_pair signals) ws)
    == sum_2_weight (flat_map (present_pair signals') ws) /\
  sum_strength_weight (flat_map (present_pair signals) ws)
    <= sum_strength_weight (flat_map (present_pair signals') ws) /\
  (flat_map (present_pair signals) ws = [] <-> flat_map (present_pair signals') ws = []).
Proof.
  induction 1 as [|[name wt] ws Hs _ IH]; intros Hw.
  - simpl. split; [reflexivity|]. split; [apply Qle_refl | tauto].
  - inversion Hw as [|? ? Hpos Hrest]; subst. simpl in Hpos.
    destruct (IH Hrest) as (E2 & Ht & Hnil).
    simpl flat_map. unfold present_pair at 1 3 5 7 9 11.
    unfold Order.stronger_at in Hs. simpl fst in *. simpl snd in *.
    destruct (dict_get name signals) as [[s|]|];
      destruct (dict_get name signals') as [[s'|]|]; try contradiction;
      simpl app; try (split; [exact E2 | split; [exact Ht | exact Hnil]]).
    unfold sum_2_weight, sum_strength_weight, Qsum in *. simpl.
    split; [rewrite E2; reflexivity|]. split.
    + rewrite Zle_Qle in Hs. nra.
    + split; discriminate.
Qed.

Lemma rescale_monotone (c c' : list (Z * Q)) :
  0 < sum_2_weight c ->
  sum_2_weight c == sum_2_weight c' ->
  sum_strength_weight c <= sum_strength_weight c' ->
  rescale c <= rescale c'.
Proof.
  intros Hpos E Hle. unfold rescale. rewrite <- E.
  set (m := sum_2_weight c) in *.
  apply Qmult_le_compat_r; [|lra].
  unfold Qdiv. apply Qmult_le_compat_r; [lra|].
  apply Qlt_le_weak, Qinv_lt_0_compat. lra.
Qed.

(** X16.  [_calculate_technical_score] is monotone in the strengths: when
    the same sub-signals are present and none of them has become weaker,
    the technical score has not gone down. *)
Theorem technical_score_monotone (signals signals' : dict (option Signal)) :
  Order.at_least_as_strong signals signals' ->
  _calculate_technical_score signals <= _calculate_technical_score signals'.
Proof.
  intros H. rewrite (technical_score_eq signals), (technical_score_eq signals').
  assert (Hw : Forall (fun item : string * Q => 0 < snd item) TechnicalAnalyzer.weights).
  { unfold TechnicalAnalyzer.weights. repeat constructor. }
  destruct (sums_monotone signals signals' TechnicalAnalyzer.weights H Hw)
    as (E2 & Ht & Hnil).
  fold (contributing signals) in E2, Ht, Hnil.
  fold (contributing signals') in E2, Ht, Hnil.
  apply round2_mono.
  destruct (contributing signals) as [|p c] eqn:Ec.
  - rewrite (proj1 Hnil eq_refl). apply Qle_refl.
  - destruct (contributing signals') as [|p' c'] eqn:Ec'.
    + destruct Hnil as [_ Hnil]. discriminate (Hnil eq_refl).
    + apply rescale_monotone; [|exact E2 | exact Ht].
      apply sum_2_weight_pos; [discriminate|].
      rewrite <- Ec. apply contributing_weights_pos.
Qed.

Lemma technical_score_monotone_witness :
  Order.at_least_as_strong Samples.mild_rsi
    (dict_set "trend_signal" (Some (mkSignal bullish 2 [])) Samples.mild_rsi) /\
  _calculate_technical_score Samples.mild_rsi
  <= _calculate_technical_score
       (dict_set "trend_signal" (Some (mkSignal bullish 2 [])) Samples.mild_rsi).
Proof.
  assert (H : Order.at_least_as_strong Samples.mild_rsi
                (dict_set "trend_signal" (Some (mkSignal bullish 2 [])) Samples.mild_rsi)).
  { unfold Order.at_least_as_strong, TechnicalAnalyzer.weights.
    repeat constructor; vm_compute; trivial; discriminate. }
  split; [exact H|].
  exact (technical_score_monotone _ _ H).
Defined.

(** ** The fundamental classifiers *)

Lemma fl_le_Fin (a b : Q) : fl_le (Fin a) (Fin b) = Qle_bool a b.
Proof. reflexivity. Qed.

Ltac fin_cases :=
  unfold fl_ge, fl_gt; rewrite ?fl_le_Fin, ?fl_lt_Fin;
  q_cases; simpl; first [lia | exfalso; lra].

Lemma _analyze_growth_metric_mono (name : string) (q q' : Q) :
  q <= q' ->
  (strength (_analyze_growth_metric (Some (Fin q)) name)
   <= strength (_analyze_growth_metric (Some (Fin q')) name))%Z.
Proof.
  intros H. unfold _analyze_growth_metric.
  destruct (benchmark_or name 0.15 0.05) as [g a]. fin_cases.
Qed.

Lemma _analyze_profitability_metric_mono (name : string) (q q' : Q) :
  q <= q' ->
  (strength (_analyze_profitability_metric (Some (Fin q)) name)
   <= strength (_analyze_profitability_metric (Some (Fin q')) name))%Z.
Proof.
  intros H. unfold _analyze_profitability_metric.
  destruct (benchmark_or name 0.15 0.08) as [g a]. fin_cases.
Qed.

Lemma _analyze_profit_margin_mono (q q' : Q) :
  q <= q' ->
  (strength (_analyze_profit_margin (Some (Fin q)))
   <= strength (_analyze_profit_margin (Some (Fin q'))))%Z.
Proof.
  intros H. unfold _analyze_profit_margin, profit_margin_benchmark. cbn [good acceptable].
  fin_cases.
Qed.

Lemma _analyze_current_ratio_mono (q q' : Q) :
  q <= q' ->
  (strength (_analyze_current_ratio (Some (Fin q)))
   <= strength (_analyze_current_ratio (Some (Fin q'))))%Z.
Proof.
  intros H. unfold _analyze_current_ratio, current_ratio_benchmark. cbn [good acceptable].
  fin_cases.
Qed.

Lemma _analyze_debt_to_equity_anti (q q' : Q) :
  q <= q' ->
  (strength (_analyze_debt_to_equity (Some (Fin q')))
   <= strength (_analyze_debt_to_equity (Some (Fin q))))%Z.
Proof.
  intros H. unfold _analyze_debt_to_equity, debt_to_equity_benchmark. cbn [good acceptable].
  fin_cases.
Qed.

Lemma _analyze_pe_ratio_anti (q q' : Q) :
  0 < q -> q <= q' ->
  (strength (_analyze_pe_ratio (Some (Fin q')))
   <= strength (_analyze_pe_ratio (Some (Fin q))))%Z.
Proof.
  intros H0 H. unfold _analyze_pe_ratio, pe_ratio_benchmark. cbn [good acceptable].
  fin_cases.
Qed.

(** X17.  Each fundamental classifier follows its metric in one
    direction.  On finite values a higher profit margin, growth rate,
    return or margin (under any benchmark name) or current ratio never
    gets a lower strength; a higher debt-to-equity ratio never gets a
    higher one; and among positive P/E ratios a higher one never gets a
    higher strength, while a P/E ratio that is zero or negative is neutral,
    below the strength of a low positive one. *)
Theorem fundamental_classifiers_monotone (q q' : Q) (name : string) :
  q <= q' ->
  (strength (_analyze_profit_margin (Some (Fin q)))
   <= strength (_analyze_profit_margin (Some (Fin q'))))%Z /\
  (strength (_analyze_growth_metric (Some (Fin q)) name)
   <= strength (_analyze_growth_metric (Some (Fin q')) name))%Z /\
  (strength (_analyze_profitability_metric (Some (Fin q)) name)
   <= strength (_analyze_profitability_metric (Some (Fin q')) name))%Z /\
  (strength (_analyze_current_ratio (Some (Fin q)))
   <= strength (_analyze_current_ratio (Some (Fin q'))))%Z /\
  (strength (_analyze_debt_to_equity (Some (Fin q')))
   <= strength (_analyze_debt_to_equity (Some (Fin q))))%Z /\
  (0 < q ->
   (strength (_analyze_pe_ratio (Some (Fin q')))
    <= strength (_analyze_pe_ratio (Some (Fin q))))%Z) /\
  (q <= 0 -> 0 < q' -> q' < 25 ->
   (strength (_analyze_pe_ratio (Some (Fin q)))
    < strength (_analyze_pe_ratio (Some (Fin q'))))%Z).
Proof.
  intros H.
  split; [now apply _analyze_profit_margin_mono|].
  split; [now apply _analyze_growth_metric_mono|].
  split; [now apply _analyze_profitability_metric_mono|].
  split; [now apply _analyze_current_ratio_mono|].
  split; [now apply _analyze_debt_to_equity_anti|].
  split; [intros H0; now apply _analyze_pe_ratio_anti|].
  intros H0 H1 H2. unfold _analyze_pe_ratio, pe_ratio_benchmark. cbn [good acceptable].
  fin_cases.
Qed.

Lemma fundamental_classifiers_monotone_witness :
  0.05 <= 0.2 /\
  strength (_analyze_profit_margin (Some (Fin 0.05))) = 0%Z /\
  strength (_analyze_profit_margin (Some (Fin 0.2))) = 2%Z /\
  (strength (_analyze_profit_margin (Some (Fin 0.05)))
   <= strength (_analyze_profit_margin (Some (Fin 0.2))))%Z.
Proof.
  split; [lra|]. split; [reflexivity|]. split; [reflexivity|].
  apply (fundamental_classifiers_monotone 0.05 0.2 "revenue_growth"). lra.
Defined.

(** X18.  A metric that is present but NaN is not treated as missing:
    every fundamental classifier sends it down its last branch, so it
    gets the lowest strength the classifier can give to any value
    (overvalued, low profitability, high debt, significant decline, poor,
    liquidity concerns), where a metric stored as [None] is neutral. *)
Theorem nan_metric_scored_worst :
  (forall (x : option fl) (name : string),
      (strength (_analyze_pe_ratio (Some NaN)) <= strength (_analyze_pe_ratio x))%Z /\
      (strength (_analyze_profit_margin (Some NaN))
       <= strength (_analyze_profit_margin x))%Z /\
      (strength (_analyze_debt_to_equity (Some NaN))
       <= strength (_analyze_debt_to_equity x))%Z /\
      (strength (_analyze_growth_metric (Some NaN) name)
       <= strength (_analyze_growth_metric x name))%Z /\
      (strength (_analyze_profitability_metric (Some NaN) name)
       <= strength (_analyze_profitability_metric x name))%Z /\
      (strength (_analyze_current_ratio (Some NaN))
       <= strength (_analyze_current_ratio x))%Z) /\
  _analyze_pe_ratio (Some NaN)
  = mkSignal bearish (-1) [("value", PyNum NaN); ("interpretation", PyStr "overvalued")] /\
  _analyze_profit_margin (Some NaN)
  = mkSignal bearish (-1)
      [("value", PyNum NaN); ("interpretation", PyStr "low profitability")] /\
  _analyze_debt_to_equity (Some NaN)
  = mkSignal bearish (-1) [("value", PyNum NaN); ("interpretation", PyStr "high debt")] /\
  (forall name,
      _analyze_growth_metric (Some NaN) name
      = mkSignal bearish (-2)
          [("value", PyNum NaN); ("interpretation", PyStr "significant decline")]) /\
  (forall name,
      _analyze_profitability_metric (Some NaN) name
      = mkSignal bearish (-1) [("value", PyNum NaN); ("interpretation", PyStr "poor")]) /\
  _analyze_current_ratio (Some NaN)
  = mkSignal bearish (-1)
      [("value", PyNum NaN); ("interpretation", PyStr "liquidity concerns")] /\
  (forall name,
      strength (_analyze_pe_ratio None) = 0%Z /\
      strength (_analyze_profit_margin None) = 0%Z /\
      strength (_analyze_debt_to_equity None) = 0%Z /\
      strength (_analyze_growth_metric None name) = 0%Z /\
      strength (_analyze_profitability_metric None name) = 0%Z /\
      strength (_analyze_current_ratio None) = 0%Z).
Proof.
  assert (G : forall name,
             _analyze_growth_metric (Some NaN) name
             = mkSignal bearish (-2)
                 [("value", PyNum NaN); ("interpretation", PyStr "significant decline")]).
  { intros name. unfold _analyze_growth_metric.
    destruct (benchmark_or name 0.15 0.05). reflexivity. }
  assert (P : forall name,
             _analyze_profitability_metric (Some NaN) name
             = mkSignal bearish (-1) [("value", PyNum NaN); ("interpretation", PyStr "poor")]).
  { intros name. unfold _analyze_profitability_metric.
    destruct (benchmark_or name 0.15 0.08). reflexivity. }
  split; [|repeat split; first [reflexivity | apply G | apply P]].
  intros x name. rewrite G, P.
  pose proof (_analyze_growth_metric_range x name) as [Hg _].
  repeat split.
  - change (strength (_analyze_pe_ratio (Some NaN))) with (-1)%Z.
    unfold _analyze_pe_ratio. destruct x; [fl_branches|]; simpl; lia.
  - change (strength (_analyze_profit_margin (Some NaN))) with (-1)%Z.
    unfold _analyze_profit_margin. destruct x; [fl_branches|]; simpl; lia.
  - change (strength (_analyze_debt_to_equity (Some NaN))) with (-1)%Z.
    unfold _analyze_debt_to_equity. destruct x; [fl_branches|]; simpl; lia.
  - exact Hg.
  - cbn [strength]. unfold _analyze_profitability_metric. destruct x; [|simpl; lia].
    destruct (benchmark_or name 0.15 0.08). fl_branches; simpl; lia.
  - change (strength (_analyze_current_ratio (Some NaN))) with (-1)%Z.
    unfold _analyze_current_ratio. destruct x; [fl_branches|]; simpl; lia.
Qed.

(** ** The fundamental score as a function of the metrics *)

Lemma collect_signals_ext (d1 d2 : dict (option fl)) :
  Metrics.same_known_metrics d1 d2 -> collect_signals d1 = collect_signals d2.
Proof.
  intros H. unfold collect_signals, add_signal.
  assert (K : forall key, In key Metrics.known_metrics -> dict_get key d1 = dict_get key d2)
    by exact H.
  unfold Metrics.known_metrics in K.
  rewrite (K "pe_ratio"), (K "profit_margin"), (K "debt_to_equity"),
    (K "revenue_growth"), (K "return_on_equity"), (K "return_on_assets"),
    (K "earnings_growth"), (K "current_ratio"), (K "operating_margin");
    simpl; tauto.
Qed.

Lemma analyze_fundamentals_score (d : dict (option fl)) :
  d <> [] ->
  exists a,
    analyze_fundamentals d = Ok a /\
    FundamentalAnalyzer.score a = _calculate_fundamental_score (collect_signals d) /\
    FundamentalAnalyzer.signals a = collect_signals d /\
    FundamentalAnalyzer._generate_reasoning (collect_signals d) d
    = Ok (FundamentalAnalyzer.reasoning a).
Proof.
  intros Hne. unfold analyze_fundamentals.
  destruct d as [|item d]; [congruence|].
  destruct (fundamental_reasoning_total (item :: d)) as [text E]. rewrite E.
  eexists. split; [reflexivity|]. repeat split.
Qed.

(** X19.  [analyze_fundamentals] looks at nine metrics and nothing else:
    two non-empty metric maps that agree on those nine get the same
    score, the same signals and the same reasoning, whatever other keys
    (market cap, beta, ...) they hold and in whatever order. *)
Theorem other_metrics_are_ignored (d1 d2 : dict (option fl)) :
  d1 <> [] -> d2 <> [] ->
  Metrics.same_known_metrics d1 d2 ->
  exists a1 a2,
    analyze_fundamentals d1 = Ok a1 /\
    analyze_fundamentals d2 = Ok a2 /\
    FundamentalAnalyzer.score a1 = FundamentalAnalyzer.score a2 /\
    FundamentalAnalyzer.signals a1 = FundamentalAnalyzer.signals a2 /\
    FundamentalAnalyzer.reasoning a1 = FundamentalAnalyzer.reasoning a2.
Proof.
  intros H1 H2 H.
  destruct (analyze_fundamentals_score d1 H1) as (a1 & E1 & S1 & G1 & R1).
  destruct (analyze_fundamentals_score d2 H2) as (a2 & E2 & S2 & G2 & R2).
  exists a1, a2. split; [exact E1|]. split; [exact E2|].
  rewrite S1, S2, G1, G2, (collect_signals_ext d1 d2 H).
  split; [reflexivity|]. split; [reflexivity|].
  rewrite (collect_signals_ext d1 d2 H) in R1.
  change (FundamentalAnalyzer._generate_reasoning (collect_signals d2) d1)
    with (FundamentalAnalyzer._generate_reasoning (collect_signals d2) d2) in R1.
  congruence.
Qed.

Lemma other_metrics_are_ignored_witness :
  exists a1 a2,
    analyze_fundamentals [("pe_ratio", Some (Fin 10)); ("profit_margin", Some (Fin 0.2))]
    = Ok a1 /\
    analyze_fundamentals
      [("beta", Some (Fin 1.2)); ("profit_margin", Some (Fin 0.2));
       ("market_cap", Some (Fin 1000000)); ("pe_ratio", Some (Fin 10))]
    = Ok a2 /\
    FundamentalAnalyzer.score a1 = FundamentalAnalyzer.score a2 /\
    FundamentalAnalyzer.signals a1 = FundamentalAnalyzer.signals a2 /\
    FundamentalAnalyzer.reasoning a1 = FundamentalAnalyzer.reasoning a2.
Proof.
  apply other_metrics_are_ignored; try discriminate.
  unfold Metrics.same_known_metrics, Metrics.known_metrics. intros key Hin.
  simpl in Hin.
  repeat (destruct Hin as [<-|Hin]; [reflexivity|]). contradiction.
Defined.

(** X20.  A metric map that is not empty but holds none of the nine
    metrics is scored 50 with no signal, like an empty one, but under
    the reasoning text for limited data. *)
Theorem only_unknown_metrics (d : dict (option fl)) :
  d <> [] ->
  (forall key, In key Metrics.known_metrics -> dict_get key d = None) ->
  analyze_fundamentals d
  = Ok (FundamentalAnalyzer.mkAnalysis 50 []
          "Limited fundamental data available for analysis" d).
Proof.
  intros Hne H.
  assert (E : collect_signals d = []).
  { unfold collect_signals, add_signal. unfold Metrics.known_metrics in H.
    rewrite (H "pe_ratio"), (H "profit_margin"), (H "debt_to_equity"),
      (H "revenue_growth"), (H "return_on_equity"), (H "return_on_assets"),
      (H "earnings_growth"), (H "current_ratio"), (H "operating_margin");
      simpl; tauto. }
  unfold analyze_fundamentals. destruct d as [|item d]; [congruence|].
  rewrite E. reflexivity.
Qed.

Lemma only_unknown_metrics_witness :
  analyze_fundamentals [("market_cap", Some (Fin 1000000)); ("beta", None)]
  = Ok (FundamentalAnalyzer.mkAnalysis 50 []
          "Limited fundamental data available for analysis"
          [("market_cap", Some (Fin 1000000)); ("beta", None)]).
Proof.
  apply only_unknown_metrics; [discriminate|].
  unfold Metrics.known_metrics. intros key Hin. simpl in Hin.
  repeat (destruct Hin as [<-|Hin]; [reflexivity|]). contradiction.
Defined.

Lemma dict_set_nonempty {V} (k : string) (v : V) (d : dict V) : dict_set k v d <> [].
Proof.
  destruct d as [|[k0 v0] d]; simpl; [discriminate|].
  destruct (String.eqb k k0); discriminate.
Qed.

Lemma signals_le_set (k : string) (a b : Signal) (s1 s2 : dict Signal) :
  Metrics.signals_le s1 s2 -> (strength a <= strength b)%Z ->
  Metrics.signals_le (dict_set k a s1) (dict_set k b s2).
Proof.
  intros H Hab. induction H as [|[k1 v1] [k2 v2] s1 s2 [Hk Hv] Hrest IH]; simpl.
  - constructor; [split; [reflexivity | exact Hab] | constructor].
  - simpl in Hk. subst k2. destruct (String.eqb k k1).
    + constructor; [split; [reflexivity | exact Hab] | exact Hrest].
    + constructor; [split; [reflexivity | exact Hv] | exact IH].
Qed.

Lemma add_signal_le (d1 d2 : dict (option fl)) (key : string) (f : option fl -> Signal)
    (s1 s2 : dict Signal) :
  Metrics.signals_le s1 s2 ->
  Metrics.metric_le f (dict_get key d1) (dict_get key d2) ->
  Metrics.signals_le (add_signal d1 key f s1) (add_signal d2 key f s2).
Proof.
  intros H M. unfold add_signal, Metrics.metric_le in *.
  destruct (dict_get key d1), (dict_get key d2); try contradiction; [|exact H].
  now apply signals_le_set.
Qed.

Lemma metric_le_set (d : dict (option fl)) (key : string) (v v' : option fl)
    (k0 : string) (f : option fl -> Signal) :
  (k0 = key -> (strength (f v) <= strength (f v'))%Z) ->
  Metrics.metric_le f (dict_get k0 (dict_set key v d)) (dict_get k0 (dict_set key v' d)).
Proof.
  intros H. unfold Metrics.metric_le.
  destruct (String.eqb_spec k0 key) as [->|Hne].
  - rewrite !dict_get_set_same. now apply H.
  - rewrite !dict_get_set_other by assumption.
    destruct (dict_get k0 d); [apply Z.le_refl | exact I].
Qed.

Lemma metric_sums_monotone (s1 s2 : dict Signal) :
  Metrics.signals_le s1 s2 ->
  sum_2_weight (contributing_metrics s1) == sum_2_weight (contributing_metrics s2) /\
  sum_strength_weight (contributing_metrics s1)
    <= sum_strength_weight (contributing_metrics s2).
Proof.
  induction 1 as [|[k1 v1] [k2 v2] s1 s2 [Hk Hv] _ [E2 Ht]].
  - split; [reflexivity | apply Qle_refl].
  - simpl in Hk, Hv. subst k2.
    pose proof (weight_of_pos k1) as Hpos.
    unfold contributing_metrics, sum_2_weight, sum_strength_weight, Qsum in *.
    simpl. split; [rewrite E2; reflexivity|].
    rewrite Zle_Qle in Hv. nra.
Qed.

Lemma fundamental_score_le (s1 s2 : dict Signal) :
  Metrics.signals_le s1 s2 ->
  _calculate_fundamental_score s1 <= _calculate_fundamental_score s2.
Proof.
  intros H. rewrite (fundamental_score_eq s1), (fundamental_score_eq s2).
  destruct (metric_sums_monotone s1 s2 H) as [E2 Ht].
  destruct H as [|a b s1 s2 Hab H]; [apply Qle_refl|].
  apply round2_mono, rescale_monotone; [|exact E2 | exact Ht].
  apply sum_2_weight_pos; [discriminate|].
  apply Forall_forall. intros p Hp. apply in_map_iff in Hp.
  destruct Hp as (item & <- & _). apply weight_of_pos.
Qed.

Lemma collect_signals_le (d : dict (option fl)) (key : string) (v v' : option fl) :
  (key = "pe_ratio" ->
   (strength (_analyze_pe_ratio v) <= strength (_analyze_pe_ratio v'))%Z) ->
  (key = "profit_margin" ->
   (strength (_analyze_profit_margin v) <= strength (_analyze_profit_margin v'))%Z) ->
  (key = "debt_to_equity" ->
   (strength (_analyze_debt_to_equity v) <= strength (_analyze_debt_to_equity v'))%Z) ->
  (key = "revenue_growth" ->
   (strength (_analyze_growth_metric v "revenue_growth")
    <= strength (_analyze_growth_metric v' "revenue_growth"))%Z) ->
  (key = "return_on_equity" ->
   (strength (_analyze_profitability_metric v "return_on_equity")
    <= strength (_analyze_profitability_metric v' "return_on_equity"))%Z) ->
  (key = "return_on_assets" ->
   (strength (_analyze_profitability_metric v "return_on_assets")
    <= strength (_analyze_profitability_metric v' "return_on_assets"))%Z) ->
  (key = "earnings_growth" ->
   (strength (_analyze_growth_metric v "earnings_growth")
    <= strength (_analyze_growth_metric v' "earnings_growth"))%Z) ->
  (key = "current_ratio" ->
   (strength (_analyze_current_ratio v) <= strength (_analyze_current_ratio v'))%Z) ->
  (key = "operating_margin" ->
   (strength (_analyze_profitability_metric v "operating_margin")
    <= strength (_analyze_profitability_metric v' "operating_margin"))%Z) ->
  Metrics.signals_le (collect_signals (dict_set key v d))
                     (collect_signals (dict_set key v' d)).
Proof.
  intros Hpe Hpm Hde Hrg Hroe Hroa Heg Hcr Hom. unfold collect_signals.
  repeat (apply add_signal_le; [|apply metric_le_set; intros E; symmetry in E; auto]).
  constructor.
Qed.

Lemma scores_set (d : dict (option fl)) (key : string) (v : option fl) :
  Metrics.scores (dict_set key v d)
    (_calculate_fundamental_score (collect_signals (dict_set key v d))).
Proof.
  destruct (analyze_fundamentals_score (dict_set key v d) (dict_set_nonempty key v d))
    as (a & E & S & _).
  exists a. split; assumption.
Qed.

(** X21.  The fundamental score follows each metric in the direction of
    its classifier.  With every other entry of the metric map left as it
    is, raising the finite value of a higher-is-better metric (profit and
    operating margin, revenue and earnings growth, return on equity and on
    assets, current ratio) never lowers the score [analyze_fundamentals]
    returns, raising the debt-to-equity ratio never raises it, and neither
    does raising a positive P/E ratio. *)
Theorem better_metric_better_score (d : dict (option fl)) (key : string) (q q' : Q) :
  q <= q' ->
  exists x x',
    Metrics.scores (dict_set key (Some (Fin q)) d) x /\
    Metrics.scores (dict_set key (Some (Fin q')) d) x' /\
    (In key Metrics.higher_is_better -> x <= x') /\
    (key = "debt_to_equity" -> x' <= x) /\
    (key = "pe_ratio" -> 0 < q -> x' <= x).
Proof.
  intros Hle.
  exists (_calculate_fundamental_score (collect_signals (dict_set key (Some (Fin q)) d))),
    (_calculate_fundamental_score (collect_signals (dict_set key (Some (Fin q')) d))).
  split; [apply scores_set|]. split; [apply scores_set|].
  split; [|split].
  - intros Hin. apply fundamental_score_le, collect_signals_le; intros E.
    + subst key. simpl in Hin. exfalso. intuition discriminate.
    + now apply _analyze_profit_margin_mono.
    + subst key. simpl in Hin. exfalso. intuition discriminate.
    + now apply _analyze_growth_metric_mono.
    + now apply _analyze_profitability_metric_mono.
    + now apply _analyze_profitability_metric_mono.
    + now apply _analyze_growth_metric_mono.
    + now apply _analyze_current_ratio_mono.
    + now apply _analyze_profitability_metric_mono.
  - intros ->. apply fundamental_score_le, collect_signals_le;
      try (intros; discriminate).
    intros _. now apply _analyze_debt_to_equity_anti.
  - intros -> H0. apply fundamental_score_le, collect_signals_le;
      try (intros; discriminate).
    intros _. now apply _analyze_pe_ratio_anti.
Qed.

Lemma better_metric_better_score_witness :
  0.05 <= 0.2 /\
  In "profit_margin" Metrics.higher_is_better /\
  exists x x',
    Metrics.scores [("pe_ratio", Some (Fin 10)); ("profit_margin", Some (Fin 0.05))] x /\
    Metrics.scores [("pe_ratio", Some (Fin 10)); ("profit_margin", Some (Fin 0.2))] x' /\
    x <= x'.
Proof.
  split; [lra|]. split; [left; reflexivity|].
  destruct (better_metric_better_score
              [("pe_ratio", Some (Fin 10)); ("profit_margin", Some (Fin 0.05))]
              "profit_margin" 0.05 0.2) as (x & x' & S & S' & H & _); [lra|].
  exists x, x'. split; [exact S|]. split; [exact S'|].
  apply H. left. reflexivity.
Defined.

(** ** Valuation category and quality score *)

Lemma truthy_Fin (q : Q) : truthy (Fin q) = true <-> ~ q == 0.
Proof.
  simpl. destruct (Qeq_bool q 0) eqn:E; simpl.
  - apply Qeq_bool_iff in E. split; [discriminate | contradiction].
  - split; [|reflexivity]. intros _ H. apply Qeq_bool_iff in H. congruence.
Qed.

(** X22.  [get_valuation_category] on a finite P/E ratio and a finite
    revenue growth.  The category is value exactly when the P/E ratio is
    below 15 and not zero and the growth is below 5% and not zero (a
    negative P/E ratio or a shrinking revenue qualify, zero growth does
    not); it is growth exactly when the P/E test fails and the growth
    exceeds 15%; otherwise it is balanced, so a P/E ratio below 15 with
    fast growth is balanced.  The earnings growth plays no part. *)
Theorem valuation_categories (fundamental_data : dict (option fl)) (pe growth : Q) :
  dict_get "pe_ratio" fundamental_data = Some (Some (Fin pe)) ->
  dict_get "revenue_growth" fundamental_data = Some (Some (Fin growth)) ->
  let cheap := pe < 15 /\ ~ pe == 0 in
  (get_valuation_category fundamental_data = "value"
   <-> cheap /\ growth < 0.05 /\ ~ growth == 0) /\
  (get_valuation_category fundamental_data = "growth" <-> ~ cheap /\ 0.15 < growth) /\
  (get_valuation_category fundamental_data = "balanced"
   <-> (cheap /\ (0.05 <= growth \/ growth == 0)) \/ (~ cheap /\ growth <= 0.15)).
Proof.
  intros Hpe Hg. cbv zeta.
  unfold get_valuation_category, get_or_0, truthy_and. rewrite Hpe, Hg.
  unfold fl_gt. rewrite !fl_lt_Fin.
  pose proof (truthy_Fin pe) as Tp. pose proof (truthy_Fin growth) as Tg.
  destruct (truthy (Fin pe)); destruct (truthy (Fin growth));
    cbn [andb]; q_cases;
    (repeat split; intros;
     first [ discriminate
           | reflexivity
           | exfalso; intuition (first [discriminate | lra])
           | intuition (first [discriminate | lra])
           | idtac ]).
  all: try (destruct (Qeq_dec pe 0); destruct (Qeq_dec growth 0);
            intuition (first [discriminate | lra])).
Qed.

Lemma valuation_categories_witness :
  get_valuation_category
    [("pe_ratio", Some (Fin (-5))); ("revenue_growth", Some (Fin (-0.1)));
     ("earnings_growth", Some (Fin 0.5))]
  = "value" /\
  (get_valuation_category
     [("pe_ratio", Some (Fin (-5))); ("revenue_growth", Some (Fin (-0.1)));
      ("earnings_growth", Some (Fin 0.5))]
   = "value"
   <-> ((-5 < 15 /\ ~ -5 == 0) /\ -0.1 < 0.05 /\ ~ -0.1 == 0)).
Proof.
  split; [reflexivity|].
  apply (valuation_categories
           [("pe_ratio", Some (Fin (-5))); ("revenue_growth", Some (Fin (-0.1)));
            ("earnings_growth", Some (Fin 0.5))] (-5) (-0.1)); reflexivity.
Defined.

Lemma good_of_pos (metric : string) : 0 < good_of metric.
Proof.
  unfold good_of. destruct (dict_get metric benchmarks) as [b|] eqn:E; [|reflexivity].
  apply dict_get_In in E. unfold benchmarks in E. simpl in E.
  repeat (destruct E as [E|E]; [injection E as _ <-; reflexivity|]).
  contradiction.
Qed.

Lemma quality_step_Fin (qs : list Q) (metric : string) (value : fl) :
  Forall (fun q => 0 < q /\ q <= 100) qs ->
  exists qs',
    quality_step (map Fin qs) (metric, value) = map Fin qs' /\
    Forall (fun q => 0 < q /\ q <= 100) qs' /\
    (fl_gt value (Fin 0) = false -> qs' = qs).
Proof.
  intros H. unfold quality_step.
  pose proof (good_of_pos metric) as Hb. set (b := good_of metric) in *.
  destruct (fl_gt value (Fin 0)) eqn:G.
  2:{ exists qs. repeat split; assumption. }
  assert (App : forall x : Q, 0 < x /\ x <= 100 ->
            exists qs',
              (map Fin qs ++ [Fin x])%list = map Fin qs' /\
              Forall (fun q => 0 < q /\ q <= 100) qs' /\
              (true = false -> qs' = qs)).
  { intros x Hx. exists (qs ++ [x])%list. split; [now rewrite map_app|].
    split; [|discriminate]. apply Forall_app. split; [exact H | now constructor]. }
  destruct value as [| | |q]; try discriminate G.
  - (* +inf *)
    unfold fl_div, signed_inf.
    destruct (Qlt_bool_spec b 0) as [Hneg|_]; [exfalso; lra|].
    unfold py_min. change (fl_lt (Fin 1) PInf) with true. cbv iota.
    unfold fl_mul. apply App. lra.
  - unfold fl_gt in G. rewrite fl_lt_Fin in G.
    destruct (Qlt_bool_spec 0 q) as [Hq|]; [|discriminate].
    rewrite fl_div_Fin by lra.
    assert (Hpos : 0 < q / b) by (apply Qlt_shift_div_l; lra).
    unfold py_min. rewrite fl_lt_Fin.
    destruct (Qlt_bool_spec 1 (q / b)); unfold fl_mul; apply App; lra.
Qed.

Lemma fold_left_Qplus_le (qs : list Q) (a : Q) :
  Forall (fun q => 0 < q /\ q <= 100) qs ->
  fold_left Qplus qs a <= a + 100 * inject_Z (Z.of_nat (length qs)).
Proof.
  intros H. revert a. induction H as [|q qs [_ Hq] _ IH]; intros a.
  - simpl. change (inject_Z 0) with 0. lra.
  - simpl fold_left. specialize (IH (a + q)).
    change (length (q :: qs)) with (S (length qs)).
    rewrite Nat2Z.inj_succ. unfold Z.succ. rewrite inject_Z_plus.
    change (inject_Z 1) with 1. lra.
Qed.

(** X23.  [get_quality_score] always returns a finite number between 0
    and 100, whatever the four quality metrics hold (missing, [None], zero,
    negative, NaN or infinite); when none of them is above zero the
    score is 50. *)
Theorem quality_score_range (fundamental_data : dict (option fl)) :
  (exists q, get_quality_score fundamental_data = Fin q /\ 0 <= q /\ q <= 100) /\
  ((forall key,
       In key ["return_on_equity"; "return_on_assets"; "profit_margin"; "operating_margin"] ->
       fl_gt (get_or_0_or_0 fundamental_data key) (Fin 0) = false) ->
   get_quality_score fundamental_data = Fin 50).
Proof.
  unfold get_quality_score. cbv zeta. cbn [fold_left].
  destruct (quality_step_Fin [] "return_on_equity"
              (get_or_0_or_0 fundamental_data "return_on_equity") (Forall_nil _))
    as (l1 & E1 & H1 & N1).
  change (map Fin []) with (@nil fl) in E1. rewrite E1.
  destruct (quality_step_Fin l1 "return_on_assets"
              (get_or_0_or_0 fundamental_data "return_on_assets") H1)
    as (l2 & E2 & H2 & N2).
  rewrite E2.
  destruct (quality_step_Fin l2 "profit_margin"
              (get_or_0_or_0 fundamental_data "profit_margin") H2)
    as (l3 & E3 & H3 & N3).
  rewrite E3.
  destruct (quality_step_Fin l3 "operating_margin"
              (get_or_0_or_0 fundamental_data "operating_margin") H3)
    as (l4 & E4 & H4 & N4).
  rewrite E4. clear E1 E2 E3 E4.
  split.
  - destruct l4 as [|q l4]; [exists 50; split; [reflexivity | lra]|].
    change (map Fin (q :: l4)) with (Fin q :: map Fin l4) at 1. cbv iota beta.
    change (Fin q :: map Fin l4) with (map Fin (q :: l4)).
    rewrite fold_left_fl_add_Fin, length_map.
    set (n := inject_Z (Z.of_nat (length (q :: l4)))).
    assert (Hn : 1 <= n).
    { unfold n. change 1 with (inject_Z 1). rewrite <- Zle_Qle. simpl length. lia. }
    rewrite fl_div_Fin by lra.
    eexists. split; [reflexivity|].
    pose proof (fold_left_Qplus_le (q :: l4) 0 H4) as Hup. fold n in Hup.
    assert (Hlo : 0 < fold_left Qplus (q :: l4) 0).
    { apply fold_left_Qplus_pos; [lra | | discriminate].
      eapply Forall_impl; [|exact H4]. now intros x [? _]. }
    set (t := fold_left Qplus (q :: l4) 0) in *.
    apply round2_range.
    + apply Qle_shift_div_l; lra.
    + apply Qle_shift_div_r; lra.
  - intros Hnone.
    rewrite N4, N3, N2, N1; [reflexivity| | | |]; apply Hnone; simpl; tauto.
Qed.

Lemma quality_score_range_witness :
  get_quality_score [("return_on_equity", Some (Fin (-0.1))); ("profit_margin", None)]
  = Fin 50 /\
  exists q,
    get_quality_score [("return_on_equity", Some (Fin 0.3)); ("profit_margin", Some (Fin 0.03))]
    = Fin q /\ 0 <= q /\ q <= 100.
Proof.
  split.
  - apply (proj2 (quality_score_range
                    [("return_on_equity", Some (Fin (-0.1))); ("profit_margin", None)])).
    intros key Hin. simpl in Hin.
    repeat (destruct Hin as [<-|Hin]; [reflexivity|]). contradiction.
  - exact (proj1 (quality_score_range
                    [("return_on_equity", Some (Fin 0.3)); ("profit_margin", Some (Fin 0.03))])).
Defined.

(** ** The stored score and the recommendation *)

Lemma band_of_blend (b : Q) :
  match _generate_recommendation b with
  | STRONG_BUY => 80 <= b
  | BUY => 65 <= b /\ b <= 80
  | HOLD => 45 <= b /\ b <= 65
  | SELL => 30 <= b /\ b <= 45
  | STRONG_SELL => b <= 30
  end.
Proof.
  unfold _generate_recommendation. q_cases; simpl; repeat split; lra.
Qed.

(** X24.  In a result of [score_stock] the recommendation is taken from
    the blend before it is rounded and the overall score is stored after
    rounding, and the two still agree: the stored score lies in the band
    of the recommendation, upper edge included (STRONG BUY from 80, BUY
    within 65..80, HOLD within 45..65, SELL within 30..45, STRONG SELL
    up to 30). *)
Theorem recommendation_matches_stored_score (w : World) (symbol : string)
    (price_data : option DataFrame) (fundamental_data : option (dict (option fl)))
    (r : StockResult) :
  score_stock w symbol price_data fundamental_data = Ok r ->
  match recommendation r with
  | STRONG_BUY => 80 <= overall_score r
  | BUY => 65 <= overall_score r /\ overall_score r <= 80
  | HOLD => 45 <= overall_score r /\ overall_score r <= 65
  | SELL => 30 <= overall_score r /\ overall_score r <= 45
  | STRONG_SELL => overall_score r <= 30
  end.
Proof.
  intros E.
  destruct (score_stock_well_scored _ _ _ _ _ E) as (_ & _ & O & R & _).
  pose proof (band_of_blend (blend (technical_score r) (fundamental_score r))) as B.
  rewrite <- R in B.
  destruct (recommendation r); repeat split; rewrite O;
    first [ apply (round2_at_least 80) | apply (round2_at_least 65)
          | apply (round2_at_least 45) | apply (round2_at_least 30)
          | idtac ];
    first [ tauto
          | apply (round2_at_most 80); tauto | apply (round2_at_most 65); tauto
          | apply (round2_at_most 45); tauto | apply (round2_at_most 30); tauto ].
Qed.

Lemma recommendation_matches_stored_score_witness :
  exists r,
    score_stock Samples.market "CHEAP" None None = Ok r /\
    recommendation r = BUY /\
    match recommendation r with
    | STRONG_BUY => 80 <= overall_score r
    | BUY => 65 <= overall_score r /\ overall_score r <= 80
    | HOLD => 45 <= overall_score r /\ overall_score r <= 65
    | SELL => 30 <= overall_score r /\ overall_score r <= 45
    | STRONG_SELL => overall_score r <= 30
    end.
Proof.
  eexists. split; [reflexivity|]. split; [reflexivity|].
  apply (recommendation_matches_stored_score Samples.market "CHEAP" None None).
  reflexivity.
Defined.
